(** * Whiteboard: a shallow embedding of the collaborative canvas client

    The embedded program is the React component [Whiteboard] (the version
    that talks to the relay through socket.io).  The component owns a Fabric
    canvas, watches its [object:added] / [object:modified] /
    [object:removed] notifications and forwards them to the relay, and
    applies the relay's events to the canvas.

    Conventions of the embedding.
    - A JavaScript number is a binary64 float ([PrimFloat]); [undefined] is
      the absence of a property ([None]).
    - A Fabric object is a JavaScript object: it lives in a heap and is
      named by a reference, so that the canvas list, the gesture variable
      [shape] and an event target can alias one object.
    - [socket.emit] appends to an outbox, oldest message first.
    - What Fabric, socket.io, uuid and React do is written out next to the
      call that relies on it (Fabric 6: [Collection.add] pushes and fires
      [object:added]; [Collection.remove] splices the first occurrence and
      fires [object:removed]; [clear] removes every object through
      [remove]; [set] assigns key by key and ignores [type]; the target
      of the events of a multi-object selection is its [ActiveSelection]).
      Rendering, geometry caches, class defaults and the geometry some
      classes derive inside [set] are not part of the model. *)

From Stdlib Require Import Floats ZArith.
From stdpp Require Import gmap strings list.

Local Open Scope string_scope.
Local Open Scope list_scope.

(** ** JavaScript values *)

Inductive JsVal : Type :=
| JNum (x : float)
| JStr (s : string)
| JBool (b : bool)
| JNull
| JCanvas.  (* the reference to the Canvas instance, held by [obj.canvas] *)

(** A property bag: the own properties of a JavaScript object, or a JSON
    payload on the wire. *)
Abbreviation Props := (gmap string JsVal).

(** [!v], negated: ToBoolean. *)
Definition truthy (v : option JsVal) : bool :=
  match v with
  | None => false
  | Some JNull => false
  | Some (JNum x) => negb (PrimFloat.eqb x 0 || PrimFloat.is_nan x)
  | Some (JStr s) => negb (String.eqb s "")
  | Some (JBool b) => b
  | Some JCanvas => true
  end.

(** [a === b]. *)
Definition strict_eq (a b : option JsVal) : bool :=
  match a, b with
  | None, None => true
  | Some (JNum x), Some (JNum y) => PrimFloat.eqb x y
  | Some (JStr s), Some (JStr t) => String.eqb s t
  | Some (JBool x), Some (JBool y) => Bool.eqb x y
  | Some JNull, Some JNull => true
  | Some JCanvas, Some JCanvas => true
  | _, _ => false
  end.

Definition Math_abs (x : float) : float := PrimFloat.abs x.

Definition Math_min (a b : float) : float :=
  if PrimFloat.is_nan a then a
  else if PrimFloat.is_nan b then b
  else if PrimFloat.ltb a b then a
  else if PrimFloat.ltb b a then b
  else if PrimFloat.is_zero a && PrimFloat.get_sign a then a
  else b.

(** ** Identity assignment: uuid's [v4] *)

Definition hexDigit (n : Z) : Ascii.ascii :=
  match String.get (Z.to_nat n) "0123456789abcdef" with
  | Some c => c
  | None => Ascii.zero
  end.

Definition byteToHex (b : Z) : string :=
  String (hexDigit (Z.land (Z.shiftr b 4) 15))
    (String (hexDigit (Z.land b 15)) "").

Definition byteAt (arr : list Z) (i : nat) : string :=
  byteToHex (nth i arr 0%Z).

(** uuid's [unsafeStringify]: 8-4-4-4-12 hexadecimal digits. *)
Definition unsafeStringify (arr : list Z) : string :=
  byteAt arr 0 +:+ byteAt arr 1 +:+ byteAt arr 2 +:+ byteAt arr 3 +:+ "-" +:+
  byteAt arr 4 +:+ byteAt arr 5 +:+ "-" +:+
  byteAt arr 6 +:+ byteAt arr 7 +:+ "-" +:+
  byteAt arr 8 +:+ byteAt arr 9 +:+ "-" +:+
  byteAt arr 10 +:+ byteAt arr 11 +:+ byteAt arr 12 +:+
  byteAt arr 13 +:+ byteAt arr 14 +:+ byteAt arr 15.

(** [rnds[6] = (rnds[6] & 0x0f) | 0x40; rnds[8] = (rnds[8] & 0x3f) | 0x80]. *)
Definition uuidv4 (rnds : list Z) : string :=
  let r6 := Z.lor (Z.land (nth 6 rnds 0%Z) 15) 64 in
  let r8 := Z.lor (Z.land (nth 8 rnds 0%Z) 63) 128 in
  unsafeStringify (<[8 := r8]> (<[6 := r6]> rnds)).

(** ** Fabric objects *)

Record FabricObject : Type := {
  klass : string;   (* the constructor's static [type]: "Rect", "Line", ... *)
  own : Props;      (* id, __skipEmit, canvas, selectable, geometry, style *)
}.

Definition emptyObject : FabricObject := {| klass := "FabricObject"; own := ∅ |}.

(** [classRegistry.getClass]: every class is registered under its name and
    under the lower-case name.  The table holds the shape classes, which
    Fabric builds from the keys of the snapshot alone.  Fabric registers
    more ([Group] and [ActiveSelection], built from their members, [Image],
    built from its source, the text classes): for a snapshot of one of
    those the model is not the code, and no statement below depends on
    what it says there. *)
Definition classRegistry : list (string * string) :=
  [ ("Rect", "Rect"); ("rect", "Rect");
    ("Line", "Line"); ("line", "Line");
    ("Ellipse", "Ellipse"); ("ellipse", "Ellipse");
    ("Path", "Path"); ("path", "Path");
    ("Circle", "Circle"); ("circle", "Circle");
    ("Triangle", "Triangle"); ("triangle", "Triangle");
    ("Polygon", "Polygon"); ("polygon", "Polygon");
    ("Polyline", "Polyline"); ("polyline", "Polyline") ].

Definition getClass (t : string) : option string :=
  snd <$> List.find (fun e => String.eqb (fst e) t) classRegistry.

(** The property names [toObject] writes for every object. *)
Definition baseProperties : list string :=
  [ "version"; "originX"; "originY"; "left"; "top"; "width"; "height";
    "fill"; "stroke"; "strokeWidth"; "strokeDashArray"; "strokeLineCap";
    "strokeDashOffset"; "strokeLineJoin"; "strokeUniform";
    "strokeMiterLimit"; "scaleX"; "scaleY"; "angle"; "flipX"; "flipY";
    "opacity"; "shadow"; "visible"; "backgroundColor"; "fillRule";
    "paintFirst"; "globalCompositeOperation"; "skewX"; "skewY" ].

Definition classProperties (k : string) : list string :=
  if String.eqb k "Rect" then ["rx"; "ry"]
  else if String.eqb k "Ellipse" then ["rx"; "ry"]
  else if String.eqb k "Line" then ["x1"; "y1"; "x2"; "y2"]
  else if String.eqb k "Path" then ["path"]
  else if String.eqb k "Circle" then ["radius"; "startAngle"; "endAngle"]
  else if String.eqb k "Polygon" then ["points"]
  else if String.eqb k "Polyline" then ["points"]
  else [].

Definition inList (k : string) (l : list string) : bool :=
  existsb (String.eqb k) l.

(** [toObject(propertiesToInclude)], as patched at start-up:
<<
  FabricObject.prototype.toObject = (function (toObject) {
    return function (properties = []) {
      return toObject.call(this, [...properties, 'id']);
    };
  })(FabricObject.prototype.toObject);
>>
    so ['id'] is picked on every serialisation, when the object has it. *)
Definition toObject (properties : list string) (o : FabricObject) : Props :=
  let keys :=
    ((properties ++ ["id"]) ++ baseProperties ++ classProperties (klass o))%list in
  <["type" := JStr (klass o)]>
    (filter (fun kv => inList (fst kv) keys = true) (own o)).

Definition toJSON (properties : list string) (o : FabricObject) : Props :=
  toObject properties o.

(** [util.enlivenObjects]: the class is looked up from [type]; an unknown
    or missing [type] rejects the promise.  The instance receives the
    remaining keys of the snapshot. *)
Definition enlivenObject (data : Props) : option FabricObject :=
  match data !! "type" with
  | Some (JStr t) =>
      match getClass t with
      | Some k => Some {| klass := k; own := delete "type" data |}
      | None => None
      end
  | _ => None
  end.

Definition enlivenObjects (l : list Props) : option (list FabricObject) :=
  mapM enlivenObject l.

(** [obj.set({...data})]: one assignment per key; the [type] setter does
    nothing.  For some keys Fabric's [_set] does more than assign: a
    negative [scaleX] or [scaleY] is stored as its absolute value with
    [flipX] or [flipY] toggled, and a zero one as 0.0001; a truthy [shadow]
    is wrapped in a [Shadow]; [Line], [Ellipse] and [Circle] recompute
    [width] and [height] (a line [left] and [top] too) whenever a
    coordinate or a radius is set.  That normalising and that derived
    geometry are not part of the model; [plainSet] names the calls in
    which the assignments are all there is. *)
Definition setOptions (data : Props) (o : FabricObject) : FabricObject :=
  {| klass := klass o; own := delete "type" data ∪ own o |}.




(** ** The client's state *)

Inductive Tool : Type := draw | select | rectangle | line | ellipse | clear.

Definition Tool_eqb (a b : Tool) : bool :=
  match a, b with
  | draw, draw | select, select | rectangle, rectangle
  | line, line | ellipse, ellipse | clear, clear => true
  | _, _ => false
  end.

Record World : Type := {
  heap : gmap nat FabricObject;  (* the JavaScript objects, by reference *)
  objects : list nat;  (* canvas._objects, bottom of the stack first *)
  activeObject : option nat;  (* canvas.getActiveObject() *)
  isDrawingMode : bool;  (* canvas.isDrawingMode *)
  selection : bool;  (* canvas.selection *)
  mouseHandlers : option Tool;  (* whose mouse:down / mouse:move / mouse:up handlers are on *)
  outbox : list (string * Props);  (* socket.emit calls, oldest first *)
  uuidCalls : nat;  (* how many identities were drawn so far *)
  tool : Tool;  (* useState: tool *)
  brushColor : string;  (* useState: brushColor *)
  brushSize : float;  (* useState: brushSize *)
  toolCleanup : option Tool;  (* the cleanup the last run of the tool effect returned *)
  startX : float;  (* let startX *)
  startY : float;  (* let startY *)
  shape : option nat;  (* let shape: FabricObject | null *)
}.

Definition with_heap (x : gmap nat FabricObject) (w : World) : World :=
  {| heap := x; objects := objects w; activeObject := activeObject w;
     isDrawingMode := isDrawingMode w; selection := selection w;
     mouseHandlers := mouseHandlers w; outbox := outbox w;
     uuidCalls := uuidCalls w; tool := tool w; brushColor := brushColor w;
     brushSize := brushSize w; toolCleanup := toolCleanup w;
     startX := startX w; startY := startY w; shape := shape w |}.

Definition with_objects (x : list nat) (w : World) : World :=
  {| heap := heap w; objects := x; activeObject := activeObject w;
     isDrawingMode := isDrawingMode w; selection := selection w;
     mouseHandlers := mouseHandlers w; outbox := outbox w;
     uuidCalls := uuidCalls w; tool := tool w; brushColor := brushColor w;
     brushSize := brushSize w; toolCleanup := toolCleanup w;
     startX := startX w; startY := startY w; shape := shape w |}.

Definition with_activeObject (x : option nat) (w : World) : World :=
  {| heap := heap w; objects := objects w; activeObject := x;
     isDrawingMode := isDrawingMode w; selection := selection w;
     mouseHandlers := mouseHandlers w; outbox := outbox w;
     uuidCalls := uuidCalls w; tool := tool w; brushColor := brushColor w;
     brushSize := brushSize w; toolCleanup := toolCleanup w;
     startX := startX w; startY := startY w; shape := shape w |}.

Definition with_isDrawingMode (x : bool) (w : World) : World :=
  {| heap := heap w; objects := objects w; activeObject := activeObject w;
     isDrawingMode := x; selection := selection w;
     mouseHandlers := mouseHandlers w; outbox := outbox w;
     uuidCalls := uuidCalls w; tool := tool w; brushColor := brushColor w;
     brushSize := brushSize w; toolCleanup := toolCleanup w;
     startX := startX w; startY := startY w; shape := shape w |}.

Definition with_selection (x : bool) (w : World) : World :=
  {| heap := heap w; objects := objects w; activeObject := activeObject w;
     isDrawingMode := isDrawingMode w; selection := x;
     mouseHandlers := mouseHandlers w; outbox := outbox w;
     uuidCalls := uuidCalls w; tool := tool w; brushColor := brushColor w;
     brushSize := brushSize w; toolCleanup := toolCleanup w;
     startX := startX w; startY := startY w; shape := shape w |}.

Definition with_mouseHandlers (x : option Tool) (w : World) : World :=
  {| heap := heap w; objects := objects w; activeObject := activeObject w;
     isDrawingMode := isDrawingMode w; selection := selection w;
     mouseHandlers := x; outbox := outbox w; uuidCalls := uuidCalls w;
     tool := tool w; brushColor := brushColor w; brushSize := brushSize w;
     toolCleanup := toolCleanup w; startX := startX w; startY := startY w;
     shape := shape w |}.

Definition with_outbox (x : list (string * Props)) (w : World) : World :=
  {| heap := heap w; objects := objects w; activeObject := activeObject w;
     isDrawingMode := isDrawingMode w; selection := selection w;
     mouseHandlers := mouseHandlers w; outbox := x; uuidCalls := uuidCalls w;
     tool := tool w; brushColor := brushColor w; brushSize := brushSize w;
     toolCleanup := toolCleanup w; startX := startX w; startY := startY w;
     shape := shape w |}.

Definition with_uuidCalls (x : nat) (w : World) : World :=
  {| heap := heap w; objects := objects w; activeObject := activeObject w;
     isDrawingMode := isDrawingMode w; selection := selection w;
     mouseHandlers := mouseHandlers w; outbox := outbox w; uuidCalls := x;
     tool := tool w; brushColor := brushColor w; brushSize := brushSize w;
     toolCleanup := toolCleanup w; startX := startX w; startY := startY w;
     shape := shape w |}.

Definition with_tool (x : Tool) (w : World) : World :=
  {| heap := heap w; objects := objects w; activeObject := activeObject w;
     isDrawingMode := isDrawingMode w; selection := selection w;
     mouseHandlers := mouseHandlers w; outbox := outbox w;
     uuidCalls := uuidCalls w; tool := x; brushColor := brushColor w;
     brushSize := brushSize w; toolCleanup := toolCleanup w;
     startX := startX w; startY := startY w; shape := shape w |}.

Definition with_brushColor (x : string) (w : World) : World :=
  {| heap := heap w; objects := objects w; activeObject := activeObject w;
     isDrawingMode := isDrawingMode w; selection := selection w;
     mouseHandlers := mouseHandlers w; outbox := outbox w;
     uuidCalls := uuidCalls w; tool := tool w; brushColor := x;
     brushSize := brushSize w; toolCleanup := toolCleanup w;
     startX := startX w; startY := startY w; shape := shape w |}.

Definition with_brushSize (x : float) (w : World) : World :=
  {| heap := heap w; objects := objects w; activeObject := activeObject w;
     isDrawingMode := isDrawingMode w; selection := selection w;
     mouseHandlers := mouseHandlers w; outbox := outbox w;
     uuidCalls := uuidCalls w; tool := tool w; brushColor := brushColor w;
     brushSize := x; toolCleanup := toolCleanup w; startX := startX w;
     startY := startY w; shape := shape w |}.

Definition with_toolCleanup (x : option Tool) (w : World) : World :=
  {| heap := heap w; objects := objects w; activeObject := activeObject w;
     isDrawingMode := isDrawingMode w; selection := selection w;
     mouseHandlers := mouseHandlers w; outbox := outbox w;
     uuidCalls := uuidCalls w; tool := tool w; brushColor := brushColor w;
     brushSize := brushSize w; toolCleanup := x; startX := startX w;
     startY := startY w; shape := shape w |}.

Definition with_startX (x : float) (w : World) : World :=
  {| heap := heap w; objects := objects w; activeObject := activeObject w;
     isDrawingMode := isDrawingMode w; selection := selection w;
     mouseHandlers := mouseHandlers w; outbox := outbox w;
     uuidCalls := uuidCalls w; tool := tool w; brushColor := brushColor w;
     brushSize := brushSize w; toolCleanup := toolCleanup w; startX := x;
     startY := startY w; shape := shape w |}.

Definition with_startY (x : float) (w : World) : World :=
  {| heap := heap w; objects := objects w; activeObject := activeObject w;
     isDrawingMode := isDrawingMode w; selection := selection w;
     mouseHandlers := mouseHandlers w; outbox := outbox w;
     uuidCalls := uuidCalls w; tool := tool w; brushColor := brushColor w;
     brushSize := brushSize w; toolCleanup := toolCleanup w;
     startX := startX w; startY := x; shape := shape w |}.

Definition with_shape (x : option nat) (w : World) : World :=
  {| heap := heap w; objects := objects w; activeObject := activeObject w;
     isDrawingMode := isDrawingMode w; selection := selection w;
     mouseHandlers := mouseHandlers w; outbox := outbox w;
     uuidCalls := uuidCalls w; tool := tool w; brushColor := brushColor w;
     brushSize := brushSize w; toolCleanup := toolCleanup w;
     startX := startX w; startY := startY w; shape := x |}.

(** ** Heap access *)

Definition getObj (w : World) (r : nat) : FabricObject :=
  default emptyObject (heap w !! r).

(** [obj[k]], equally [obj.get(k)]. *)
Definition prop (w : World) (r : nat) (k : string) : option JsVal :=
  own (getObj w r) !! k.

Definition updObj (f : FabricObject -> FabricObject) (r : nat) (w : World) : World :=
  with_heap (<[r := f (getObj w r)]> (heap w)) w.

(** [obj[k] = v]. *)
Definition setProp (r : nat) (k : string) (v : JsVal) : World -> World :=
  updObj (fun o => {| klass := klass o; own := <[k := v]> (own o) |}) r.

(** [obj[k] = undefined]. *)
Definition delProp (r : nat) (k : string) : World -> World :=
  updObj (fun o => {| klass := klass o; own := delete k (own o) |}) r.

(** [obj.set({...data})] on the object behind [r]. *)
Definition objSet (r : nat) (data : Props) : World -> World :=
  updObj (setOptions data) r.

(** [new C(...)]: the result is a reference no part of the state holds. *)
Definition newRef (w : World) : nat :=
  S (max_list (objects w ++ elements (dom (heap w)))).

Definition alloc (o : FabricObject) (w : World) : nat * World :=
  let r := newRef w in (r, with_heap (<[r := o]> (heap w)) w).

(** [socket.emit(ev, payload)]: fire and forget. *)
Definition emit (ev : string) (payload : Props) (w : World) : World :=
  with_outbox (outbox w ++ [(ev, payload)]) w.

(** [canvas.getObjects().find((o) => o.get('id') === id)]. *)
Definition findById (w : World) (id : option JsVal) : option nat :=
  List.find (fun r => strict_eq (prop w r "id") id) (objects w).

(** [array.indexOf(object)] followed by [array.splice(index, 1)]. *)
Fixpoint spliceFirst (r : nat) (l : list nat) : option (list nat) :=
  match l with
  | [] => None
  | x :: l' =>
      if Nat.eqb x r then Some l'
      else cons x <$> spliceFirst r l'
  end.

Section Client.

(** The sixteen random bytes the [n]-th call of [uuidv4] draws. *)
Variable rng : nat -> list Z.

(** <<
  export function generateId() {
    return uuidv4();
  }
>> *)
Definition generateId (w : World) : string * World :=
  (uuidv4 (rng (uuidCalls w)), with_uuidCalls (S (uuidCalls w)) w).

(** ** Change Observer: the three canvas listeners *)

(** <<
  canvas.on('object:added', (e) => {
    if (!e.target) return;
    if (!e.target.id) {
      e.target.id = generateId(); // Add ID if it doesn't exist
    }
    if (e.target.__skipEmit) return;
    socket.emit('object:added', e.target.toJSON(['id']));
  });
>> *)
Definition canvas_on_object_added (target : option nat) (w : World) : World :=
  match target with
  | None => w
  | Some r =>
      let w1 :=
        if truthy (prop w r "id") then w
        else let (i, w') := generateId w in setProp r "id" (JStr i) w' in
      if truthy (prop w1 r "__skipEmit") then w1
      else emit "object:added" (toJSON ["id"] (getObj w1 r)) w1
  end.

(** <<
  canvas.on('object:modified', (e) => {
    const obj = e.target;
    if (!obj || obj.__skipEmit) return;
    socket.emit('object:modified', obj.toJSON(['id']));
  });
>> *)
Definition canvas_on_object_modified (target : option nat) (w : World) : World :=
  match target with
  | None => w
  | Some r =>
      if truthy (prop w r "__skipEmit") then w
      else emit "object:modified" (toJSON ["id"] (getObj w r)) w
  end.

(** <<
  canvas.on('object:removed', (e) => {
    const obj = e.target;
    if (!obj || obj.__skipEmit) return;
    socket.emit('object:removed', obj.toJSON(['id']));
  });
>> *)
Definition canvas_on_object_removed (target : option nat) (w : World) : World :=
  match target with
  | None => w
  | Some r =>
      if truthy (prop w r "__skipEmit") then w
      else emit "object:removed" (toJSON ["id"] (getObj w r)) w
  end.

(** ** The canvas primitives the component calls *)

(** [canvas.add(obj)]: push, set the back-pointer, fire [object:added]. *)
Definition canvas_add (r : nat) (w : World) : World :=
  canvas_on_object_added (Some r)
    (setProp r "canvas" JCanvas (with_objects (objects w ++ [r]) w)).

(** [canvas.remove(obj)]: nothing when [obj] is not on the canvas; else
    splice it out, drop the selection if it was selected, clear the
    back-pointer, fire [object:removed]. *)
Definition canvas_remove (r : nat) (w : World) : World :=
  match spliceFirst r (objects w) with
  | None => w
  | Some l =>
      let w1 := with_objects l w in
      let w2 :=
        match activeObject w1 with
        | Some a => if Nat.eqb a r then with_activeObject None w1 else w1
        | None => w1
        end in
      canvas_on_object_removed (Some r) (delProp r "canvas" w2)
  end.

(** [canvas.clear()]: discard the selection, then
    [this.remove(...this.getObjects())] over a copy of the list. *)
Definition canvas_clear (w : World) : World :=
  fold_left (fun acc r => canvas_remove r acc) (objects w)
    (with_activeObject None w).

(** [canvas.forEachObject((obj) => (obj.selectable = b))]. *)
Definition setSelectable (b : bool) (w : World) : World :=
  fold_left (fun acc r => setProp r "selectable" (JBool b) acc) (objects w) w.

(** ** Remote Apply Engine: the five socket listeners *)

(** The two statements the [object:added] and [object:sync] listeners
    share, for an instance [util.enlivenObjects] has just built:
<<
  obj.__skipEmit = true;
  canvas.add(obj);
>>
    The instance becomes part of the heap when the canvas takes it. *)
Definition addSkipEmit (w : World) (obj : FabricObject) : World :=
  let (r, w1) := alloc obj w in
  canvas_add r (setProp r "__skipEmit" (JBool true) w1).

(** <<
  socket.on('object:added', (objectData) => {
    util.enlivenObjects([objectData]).then(([obj]) => {
      if (!canvas.getObjects().find((o) => o.get('id') === obj.get('id'))) {
        obj.__skipEmit = true;
        canvas.add(obj);
        canvas.renderAll();
      }
    }).catch(console.error);
  });
>> *)
Definition socket_on_object_added (objectData : Props) (w : World) : World :=
  match enlivenObject objectData with
  | None => w
  | Some obj =>
      match findById w (own obj !! "id") with
      | Some _ => w
      | None => addSkipEmit w obj
      end
  end.

(** <<
  socket.on('object:modified', (objectData) => {
    const obj = canvas.getObjects().find((o) => o.get('id') === objectData.id);
    if (obj) {
      obj.__skipEmit = true;
      obj.set({ ...objectData });
      canvas.renderAll();
    }
  });
>> *)
Definition socket_on_object_modified (objectData : Props) (w : World) : World :=
  match findById w (objectData !! "id") with
  | Some r => objSet r objectData (setProp r "__skipEmit" (JBool true) w)
  | None => w
  end.

(** <<
  socket.on('object:removed', (objectData) => {
    const obj = canvas.getObjects().find((o) => o.get('id') === objectData.id);
    if (obj) {
      obj.__skipEmit = true;
      canvas.remove(obj);
      canvas.renderAll();
    }
  });
>> *)
Definition socket_on_object_removed (objectData : Props) (w : World) : World :=
  match findById w (objectData !! "id") with
  | Some r => canvas_remove r (setProp r "__skipEmit" (JBool true) w)
  | None => w
  end.

(** <<
  socket.on('canvas:clear', () => {
    canvas.clear();
  });
>> *)
Definition socket_on_canvas_clear (w : World) : World := canvas_clear w.

(** What became of a listener's call: it ran to its end, or its promise
    was rejected with nothing to catch it. *)
Inductive Outcome : Type :=
| Done (w : World)
| Unhandled (w : World).

Definition world_of (o : Outcome) : World :=
  match o with Done w => w | Unhandled w => w end.

(** <<
  socket.on('object:sync', (payload) => {
    util.enlivenObjects(payload.objects).then((objects) => {
      canvas.clear();
      objects.forEach((obj) => {
        obj.__skipEmit = true;
        canvas.add(obj);
      });
      canvas.renderAll();
    });
  });
>> *)

Definition socket_on_object_sync (payload : list Props) (w : World) : Outcome :=
  match enlivenObjects payload with
  | None => Unhandled w
  | Some objs => Done (fold_left addSkipEmit objs (canvas_clear w))
  end.

(** ** The tool effect

    <<useEffect(() => { ... }, [tool, brushColor, brushSize])>>.  React runs
    the cleanup the previous run returned, then the body, each time one of
    the three dependencies changes ([Object.is]). *)

(** <<
  const cleanup = () => {
    canvas.isDrawingMode = false;
    canvas.selection = false;
    canvas.off('mouse:down');
    canvas.off('mouse:move');
    canvas.off('mouse:up');
    if (tool !== 'select') {
      canvas.forEachObject((obj) => (obj.selectable = false));
    }
  };
>> *)
Definition cleanup (t : Tool) (w : World) : World :=
  let w1 :=
    with_mouseHandlers None (with_selection false (with_isDrawingMode false w)) in
  if Tool_eqb t select then w1 else setSelectable false w1.

(** The body, for a canvas that exists: [cleanup()], fresh gesture
    variables, then the [switch (tool)]. *)
Definition toolEffect (w : World) : World :=
  let t := tool w in
  let w1 := cleanup t w in
  let w2 := with_shape None (with_startY 0%float (with_startX 0%float w1)) in
  let w3 :=
    match t with
    | rectangle | line | ellipse => with_mouseHandlers (Some t) w2
    | select => setSelectable true (with_selection true w2)
    | clear => canvas_clear w2
    | draw => with_isDrawingMode true w2
    end in
  with_toolCleanup (Some t) w3.

Definition rerunToolEffect (w : World) : World :=
  toolEffect
    match toolCleanup w with
    | Some t => cleanup t w
    | None => w
    end.

Definition Object_is (a b : float) : bool :=
  (PrimFloat.is_nan a && PrimFloat.is_nan b)
  || (PrimFloat.eqb a b && Bool.eqb (PrimFloat.get_sign a) (PrimFloat.get_sign b)).

(** [handleToolClick(t)()], that is [setTool(t)]. *)
Definition handleToolClick (t : Tool) (w : World) : World :=
  if Tool_eqb t (tool w) then w else rerunToolEffect (with_tool t w).

(** [setBrushColor(e.target.value)]. *)
Definition handleColorChange (c : string) (w : World) : World :=
  if String.eqb c (brushColor w) then w
  else rerunToolEffect (with_brushColor c w).

(** [setBrushSize(val[0])]. *)
Definition handleSizeChange (v : float) (w : World) : World :=
  if Object_is v (brushSize w) then w
  else rerunToolEffect (with_brushSize v w).

(** ** Shape gestures *)

Definition newRect (w : World) : FabricObject :=
  {| klass := "Rect";
     own := <["left" := JNum (startX w)]> (<["top" := JNum (startY w)]>
           (<["fill" := JStr "transparent"]> (<["stroke" := JStr (brushColor w)]>
           (<["strokeWidth" := JNum (brushSize w)]>
           (<["width" := JNum 0]> (<["height" := JNum 0]> ∅)))))) |}.

Definition newLine (w : World) : FabricObject :=
  {| klass := "Line";
     own := <["x1" := JNum (startX w)]> (<["y1" := JNum (startY w)]>
           (<["x2" := JNum (startX w)]> (<["y2" := JNum (startY w)]>
           (<["stroke" := JStr (brushColor w)]>
           (<["strokeWidth" := JNum (brushSize w)]> ∅))))) |}.

Definition newEllipse (w : World) : FabricObject :=
  {| klass := "Ellipse";
     own := <["left" := JNum (startX w)]> (<["top" := JNum (startY w)]>
           (<["rx" := JNum 0]> (<["ry" := JNum 0]>
           (<["fill" := JStr "transparent"]> (<["stroke" := JStr (brushColor w)]>
           (<["strokeWidth" := JNum (brushSize w)]> ∅)))))) |}.

(** The three [handleMouseDown]: remember the pointer, create the shape,
    do not add it to the canvas yet. *)
Definition handleMouseDown (mk : World -> FabricObject) (px py : float)
    (w : World) : World :=
  let w1 := with_startY py (with_startX px w) in
  let (r, w2) := alloc (mk w1) w1 in
  with_shape (Some r) w2.

(** The tail the three [handleMouseMove] share:
<<
  if (shape.canvas) { canvas.renderAll(); } else { canvas.add(shape); }
>> *)
Definition showTemporary (r : nat) (w : World) : World :=
  if truthy (prop w r "canvas") then w else canvas_add r w.

Definition handleMouseMove_rectangle (px py : float) (w : World) : World :=
  match shape w with
  | None => w
  | Some r =>
      showTemporary r
        (objSet r
           (<["width" := JNum (Math_abs (px - startX w))]>
           (<["height" := JNum (Math_abs (py - startY w))]>
           (<["left" := JNum (Math_min (startX w) px)]>
           (<["top" := JNum (Math_min (startY w) py)]> ∅)))) w)
  end.

Definition handleMouseMove_line (px py : float) (w : World) : World :=
  match shape w with
  | None => w
  | Some r =>
      showTemporary r
        (objSet r (<["x2" := JNum px]> (<["y2" := JNum py]> ∅)) w)
  end.

Definition handleMouseMove_ellipse (px py : float) (w : World) : World :=
  match shape w with
  | None => w
  | Some r =>
      showTemporary r
        (objSet r
           (<["rx" := JNum (Math_abs (px - startX w) / 2)]>
           (<["ry" := JNum (Math_abs (py - startY w) / 2)]>
           (<["left" := JNum (Math_min (startX w) px)]>
           (<["top" := JNum (Math_min (startY w) py)]> ∅)))) w)
  end.

(** [a !== b]. *)
Definition strict_ne (a b : option JsVal) : bool := negb (strict_eq a b).

(** The three [handleMouseUp] differ in their test only:
<<
  if (shape) {
    if (TEST) {
      if (shape.canvas) { canvas.remove(shape); }
      canvas.add(shape);
      canvas.renderAll();
    }
  }
  shape = null;
>> *)
Definition handleMouseUp (test : World -> nat -> bool) (w : World) : World :=
  with_shape None
    match shape w with
    | None => w
    | Some r =>
        if test w r then
          canvas_add r
            (if truthy (prop w r "canvas") then canvas_remove r w else w)
        else w
    end.

(** [shape.width !== 0 && shape.height !== 0]. *)
Definition test_rectangle (w : World) (r : nat) : bool :=
  strict_ne (prop w r "width") (Some (JNum 0))
  && strict_ne (prop w r "height") (Some (JNum 0)).

(** [shape.x2 !== startX || shape.y2 !== startY]. *)
Definition test_line (w : World) (r : nat) : bool :=
  strict_ne (prop w r "x2") (Some (JNum (startX w)))
  || strict_ne (prop w r "y2") (Some (JNum (startY w))).

(** [shape.rx !== 0 && shape.ry !== 0]. *)
Definition test_ellipse (w : World) (r : nat) : bool :=
  strict_ne (prop w r "rx") (Some (JNum 0))
  && strict_ne (prop w r "ry") (Some (JNum 0)).

(** [canvas.fire('mouse:down' | 'mouse:move' | 'mouse:up')]: the handlers
    of the tool whose effect ran last, if it registered any. *)
Definition mouse_down (px py : float) (w : World) : World :=
  match mouseHandlers w with
  | Some rectangle => handleMouseDown newRect px py w
  | Some line => handleMouseDown newLine px py w
  | Some ellipse => handleMouseDown newEllipse px py w
  | _ => w
  end.

Definition mouse_move (px py : float) (w : World) : World :=
  match mouseHandlers w with
  | Some rectangle => handleMouseMove_rectangle px py w
  | Some line => handleMouseMove_line px py w
  | Some ellipse => handleMouseMove_ellipse px py w
  | _ => w
  end.

Definition mouse_up (w : World) : World :=
  match mouseHandlers w with
  | Some rectangle => handleMouseUp test_rectangle w
  | Some line => handleMouseUp test_line w
  | Some ellipse => handleMouseUp test_ellipse w
  | _ => w
  end.

(** ** What the user does through Fabric itself *)

(** A click on an object of the canvas makes it the active object. *)
Definition canPick (w : World) (r : nat) : bool :=
  existsb (Nat.eqb r) (objects w)
  && negb (isDrawingMode w)
  && strict_ne (prop w r "selectable") (Some (JBool false)).

Definition pick (r : nat) (w : World) : World :=
  if canPick w r then with_activeObject (Some r) w else w.

(** The end of a drag, a scaling or a rotation: Fabric has written the new
    placement into the object and fires [object:modified]. *)
Record Placement : Type := {
  p_left : float; p_top : float;
  p_scaleX : float; p_scaleY : float;
  p_angle : float;
}.

Definition placementProps (p : Placement) : Props :=
  <["left" := JNum (p_left p)]> (<["top" := JNum (p_top p)]>
  (<["scaleX" := JNum (p_scaleX p)]> (<["scaleY" := JNum (p_scaleY p)]>
  (<["angle" := JNum (p_angle p)]> ∅)))).

Definition transform (r : nat) (p : Placement) (w : World) : World :=
  if canPick w r then
    canvas_on_object_modified (Some r)
      (objSet r (placementProps p) (with_activeObject (Some r) w))
  else w.

(** The end of a drag, a scaling or a rotation of several objects at
    once.  With group selection on ([canvas.selection]), a drag over
    several objects or shift-clicks on them make Fabric hold them in an
    [ActiveSelection]: an object of its own, which is the active object
    and the target of [object:modified].  It is not on the canvas's list,
    [canvas.add] has never seen it, and nothing gives it an [id].  (The
    members' own coordinates, which Fabric keeps relative to the selection
    while it lasts, are geometry the model leaves alone.) *)
Definition canSelectMany (w : World) (rs : list nat) : bool :=
  selection w && Nat.leb 2 (length rs) && forallb (canPick w) rs.

Definition newActiveSelection (p : Placement) : FabricObject :=
  {| klass := "ActiveSelection"; own := placementProps p |}.

Definition transformSelection (rs : list nat) (p : Placement) (w : World) : World :=
  if canSelectMany w rs then
    let (s, w1) := alloc (newActiveSelection p) w in
    canvas_on_object_modified (Some s) (with_activeObject (Some s) w1)
  else w.

(** The pencil brush, in drawing mode: on mouse up it builds a [Path] from
    the stroke and adds it to the canvas. *)
Definition newPath (pathData : string) (w : World) : FabricObject :=
  {| klass := "Path";
     own := <["path" := JStr pathData]> (<["fill" := JNull]>
           (<["stroke" := JStr (brushColor w)]>
           (<["strokeWidth" := JNum (brushSize w)]> ∅))) |}.

Definition stroke (pathData : string) (w : World) : World :=
  if isDrawingMode w then
    let (r, w1) := alloc (newPath pathData w) w in canvas_add r w1
  else w.

(** <<
  const handleKeyDown = (e: KeyboardEvent) => {
    if (e.key === 'Delete' || e.key === 'Backspace') {
      const active = canvas.getActiveObject();
      if (active) {
        canvas.remove(active);
        canvas.renderAll();
      }
    }
  };
>> *)
Definition handleKeyDown (key : string) (w : World) : World :=
  if String.eqb key "Delete" || String.eqb key "Backspace" then
    match activeObject w with
    | Some active => canvas_remove active w
    | None => w
    end
  else w.

(** ** Runs of the client *)

Inductive Action : Type :=
| RemoteAdded (objectData : Props)
| RemoteModified (objectData : Props)
| RemoteRemoved (objectData : Props)
| RemoteClear
| RemoteSync (payload : list Props)
| ToolClick (t : Tool)
| ColorChange (c : string)
| SizeChange (v : float)
| MouseDown (px py : float)
| MouseMove (px py : float)
| MouseUp
| Stroke (pathData : string)
| Pick (r : nat)
| Transform (r : nat) (p : Placement)
| TransformSelection (rs : list nat) (p : Placement)
| KeyDown (key : string).

Definition step (w : World) (a : Action) : World :=
  match a with
  | RemoteAdded d => socket_on_object_added d w
  | RemoteModified d => socket_on_object_modified d w
  | RemoteRemoved d => socket_on_object_removed d w
  | RemoteClear => socket_on_canvas_clear w
  | RemoteSync l => world_of (socket_on_object_sync l w)
  | ToolClick t => handleToolClick t w
  | ColorChange c => handleColorChange c w
  | SizeChange v => handleSizeChange v w
  | MouseDown px py => mouse_down px py w
  | MouseMove px py => mouse_move px py w
  | MouseUp => mouse_up w
  | Stroke pd => stroke pd w
  | Pick r => pick r w
  | Transform r p => transform r p w
  | TransformSelection rs p => transformSelection rs p w
  | KeyDown key => handleKeyDown key w
  end.

(** The same, keeping track of a rejection nothing catches. *)
Definition outcome (w : World) (a : Action) : Outcome :=
  match a with
  | RemoteSync l => socket_on_object_sync l w
  | _ => Done (step w a)
  end.

Definition run (w : World) (l : list Action) : World := fold_left step l w.

End Client.

(** The client once [init] has run: an empty white canvas, Fabric's
    defaults, and the component's initial state
    ([useState('select')], ['#000000'], [3]).  The tool effect has not run
    its body yet: the canvas did not exist when React first ran it. *)
Definition boot : World :=
  {| heap := ∅; objects := []; activeObject := None;
     isDrawingMode := false; selection := true; mouseHandlers := None;
     outbox := []; uuidCalls := 0;
     tool := select; brushColor := "#000000"; brushSize := 3%float;
     toolCleanup := None;
     startX := 0%float; startY := 0%float; shape := None |}.

(** ** Mounting and unmounting: the initialisation effect

    What the lifecycle touches: the three refs, the transport connection
    and the listener tables of the socket, the window and the canvas. *)

Module Lifecycle.

Record Session : Type := {
  isInitializedRef : bool;
  canvasRef : bool;          (* canvasRef.current is an element *)
  socketRef : bool;          (* socketRef.current is a socket *)
  fabricCanvasRef : bool;    (* fabricCanvasRef.current is a canvas *)
  connected : bool;          (* the transport connection is open *)
  socketListeners : list string;
  windowListeners : list string;
  canvasListeners : list string;
}.

(** [socket.off(ev)]: every listener of [ev] goes. *)
Definition off (ev : string) (l : list string) : list string :=
  List.filter (fun e => negb (String.eqb e ev)) l.

(** [window.removeEventListener(ev, fn)]: the one registration of [fn]. *)
Fixpoint removeEventListener (ev : string) (l : list string) : list string :=
  match l with
  | [] => []
  | e :: l' => if String.eqb e ev then l' else e :: removeEventListener ev l'
  end.

(** The closure [init] returns:
<<
  return () => {
    window.removeEventListener('resize', resize);
    window.removeEventListener('keydown', handleKeyDown);
    socket.off('object:added');
    socket.off('object:removed');
    socket.off('object:modified');
    socket.off('object:sync');
    if (socketRef.current) {
      socketRef.current.disconnect();
      socketRef.current = null;
    }
    if (fabricCanvasRef.current) {
      fabricCanvasRef.current.dispose();
      fabricCanvasRef.current = null;
    }
  };
>>
    [dispose] tears the canvas's elements down; it does not touch the
    table of the listeners registered with [canvas.on]. *)
Definition teardown (s : Session) : Session :=
  {| isInitializedRef := isInitializedRef s;
     canvasRef := canvasRef s;
     socketRef := false;
     fabricCanvasRef := false;
     connected := if socketRef s then false else connected s;
     socketListeners :=
       off "object:sync" (off "object:modified" (off "object:removed"
         (off "object:added" (socketListeners s))));
     windowListeners :=
       removeEventListener "keydown"
         (removeEventListener "resize" (windowListeners s));
     canvasListeners := canvasListeners s |}.

(** <<
  const init = async () => {
    if (isInitializedRef.current) return;
    const canvasEl = canvasRef.current;
    if (!canvasEl) return;
    const socket = await io('http://localhost:8080');
    socketRef.current = socket;
    socket.on('connect', ...);
    ...
    canvas.on('object:added', ...);    canvas.on('object:modified', ...);
    canvas.on('object:removed', ...);
    socket.on('object:added', ...);    socket.on('object:modified', ...);
    socket.on('object:removed', ...);  socket.on('canvas:clear', ...);
    socket.on('object:sync', ...);
    window.addEventListener('resize', resize);
    window.addEventListener('keydown', handleKeyDown);
    return () => { ... };
  };
>>
    A call runs in two turns.  The first tests the guard and the canvas
    element and is suspended at [await io(...)]; it writes nothing.  The
    second, the continuation, does the rest, and it is the one that sets
    the guard.  [afterAwait] is the continuation: the state once the
    promise has settled, and the value it settled to. *)
Definition entersInit (s : Session) : bool :=
  negb (isInitializedRef s) && canvasRef s.

Definition afterAwait (s : Session) : Session * option (Session -> Session) :=
    ({| isInitializedRef := true;
        canvasRef := canvasRef s;
        socketRef := true;
        fabricCanvasRef := true;
        connected := true;
        socketListeners :=
          (socketListeners s ++
           ["connect"; "object:added"; "object:modified"; "object:removed";
            "canvas:clear"; "object:sync"])%list;
        windowListeners := (windowListeners s ++ ["resize"; "keydown"])%list;
        canvasListeners :=
          (canvasListeners s ++
           ["object:added"; "object:modified"; "object:removed"])%list |},
     Some teardown).

(** A call of [init] that no other call overlaps: one that returns at the
    guard, or one whose continuation runs before [init] is called again.
    (Two calls made before either continuation runs both pass the guard;
    such a schedule is not a value of this function.) *)
Definition init (s : Session) : Session * option (Session -> Session) :=
  if entersInit s then afterAwait s else (s, None).

(** <<
  useEffect(() => {
    const init = async () => { ... };
    init();
  }, []);
>>
    The effect callback calls [init] and drops its promise; it returns
    nothing itself, so React receives no cleanup. *)
Definition initEffect (s : Session) : Session * option (Session -> Session) :=
  let (s', _) := init s in (s', None).

(** React on unmount: run the cleanup the effect returned, if it returned
    one. *)
Definition unmount (m : Session * option (Session -> Session)) : Session :=
  match snd m with
  | Some destroy => destroy (fst m)
  | None => fst m
  end.

(** Before the component mounts: the canvas element is rendered, nothing
    else exists. *)
Definition fresh : Session :=
  {| isInitializedRef := false; canvasRef := true; socketRef := false;
     fabricCanvasRef := false; connected := false;
     socketListeners := []; windowListeners := []; canvasListeners := [] |}.

End Lifecycle.

(** ** Vocabulary of the statements *)

(** An instance as the store holds it once the Remote Apply Engine has
    added it: its own attributes, the [__skipEmit] marker and the
    back-pointer to the canvas. *)
Definition marked (o : FabricObject) : FabricObject :=
  {| klass := klass o;
     own := <["canvas" := JCanvas]> (<["__skipEmit" := JBool true]> (own o)) |}.

(** The state in which the object [o], under the reference [r], has been
    put on top of the canvas. *)
Definition place (r : nat) (o : FabricObject) (w : World) : World :=
  with_objects (objects w ++ [r]) (with_heap (<[r := o]> (heap w)) w).

(** How many objects of the canvas carry the identity [v]. *)
Definition countId (w : World) (v : option JsVal) : nat :=
  length (List.filter (fun r => strict_eq (prop w r "id") v) (objects w)).

(** The object, or the payload, carries an identity: [!!x.id]. *)
Definition hasId (o : FabricObject) : Prop := truthy (own o !! "id") = true.
Definition carriesId (e : string * Props) : Prop := truthy (snd e !! "id") = true.

(** The three kinds of SyncEvent. *)
Definition isSyncEvent (ev : string) : bool :=
  inList ev ["object:added"; "object:modified"; "object:removed"].

(** The message the transformation of a multi-object selection sends:
    an [object:modified] with the serialisation of the [ActiveSelection]. *)
Definition selectionReport (e : string * Props) : Prop :=
  fst e = "object:modified" /\ snd e !! "type" = Some (JStr "ActiveSelection").

(** The invariant of a run: every object of the canvas has an identity,
    and every message sent so far is a SyncEvent that carries one, unless
    it reports a multi-object selection. *)
Definition IdOk (w : World) : Prop :=
  Forall (fun r => truthy (prop w r "id") = true) (objects w).

Definition SentOk (w : World) : Prop :=
  Forall (fun e => (carriesId e \/ selectionReport e)
                   /\ isSyncEvent (fst e) = true) (outbox w).

Definition Inv (w : World) : Prop := IdOk w /\ SentOk w.

(** ** Sample inputs *)

(** A source of random bytes: the [n]-th identity is drawn from sixteen
    bytes [n]. *)
Definition entropy (n : nat) : list Z := repeat (Z.of_nat n) 16.

(** [object:added {id: "r1", type: "rect", left: 10, top: 10, width: 50,
    height: 30}]. *)
Definition rect_r1 : Props :=
  <["type" := JStr "rect"]> (<["id" := JStr "r1"]>
  (<["left" := JNum 10]> (<["top" := JNum 10]>
  (<["width" := JNum 50]> (<["height" := JNum 30]> ∅))))).

Definition line_l1 : Props :=
  <["type" := JStr "line"]> (<["id" := JStr "l1"]>
  (<["x1" := JNum 0]> (<["y1" := JNum 0]>
  (<["x2" := JNum 8]> (<["y2" := JNum 6]> ∅))))).

(** [object:modified {id: "r1", left: 40, top: 40}]. *)
Definition moved_r1 : Props :=
  <["id" := JStr "r1"]> (<["left" := JNum 40]> (<["top" := JNum 40]> ∅)).



(** [object:removed {id: "r9"}]. *)
Definition gone_r9 : Props := <["id" := JStr "r9"]> ∅.

(** [object:modified] for the first identity [entropy] yields. *)
Definition moved_own : Props :=
  <["id" := JStr "00000000-0000-4000-8000-000000000000"]>
    (<["left" := JNum 40]> ∅).

(** The state after the relay has announced the rectangle r1. *)
Definition with_r1 : World := run entropy boot [RemoteAdded rect_r1].

(** The state after the user has drawn one stroke with the pencil. *)
Definition sketch : World :=
  run entropy boot [ToolClick draw; Stroke "M 0 0 L 5 5"].

(** The state after the user has drawn two strokes and gone back to the
    select tool. *)
Definition two_strokes : World :=
  run entropy boot
    [ToolClick draw; Stroke "M 0 0 L 5 5"; Stroke "M 9 9 L 5 5"; ToolClick select].

(** The user drags an object to (5, 5). *)
Definition dragTo5 : Placement :=
  {| p_left := 5; p_top := 5; p_scaleX := 1; p_scaleY := 1; p_angle := 0 |}.

(** ** The earlier component, without a relay

    The same canvas, tools and gestures, no socket and no listener on the
    canvas's object events.  The shapes go onto the canvas on mouse-down. *)

Module Standalone.

(** The closure the initialisation effect returns:
<<
  return () => {
    window.removeEventListener('resize', resize);
    window.removeEventListener('keydown', handleKeyDown);
    if (fabricCanvasRef.current) {
      fabricCanvasRef.current.dispose();
      fabricCanvasRef.current = null;
    }
  };
>>
    As above, [dispose] leaves the table of the canvas's listeners. *)
Definition teardown (s : Lifecycle.Session) : Lifecycle.Session :=
  {| Lifecycle.isInitializedRef := Lifecycle.isInitializedRef s;
     Lifecycle.canvasRef := Lifecycle.canvasRef s;
     Lifecycle.socketRef := Lifecycle.socketRef s;
     Lifecycle.fabricCanvasRef := false;
     Lifecycle.connected := Lifecycle.connected s;
     Lifecycle.socketListeners := Lifecycle.socketListeners s;
     Lifecycle.windowListeners :=
       Lifecycle.removeEventListener "keydown"
         (Lifecycle.removeEventListener "resize" (Lifecycle.windowListeners s));
     Lifecycle.canvasListeners := Lifecycle.canvasListeners s |}.

(** <<
  useEffect(() => {
    if (isInitializedRef.current) return;
    const canvasEl = canvasRef.current;
    if (!canvasEl) return;
    const canvas = new Canvas(canvasEl, { backgroundColor: '#fff' });
    ...
    fabricCanvasRef.current = canvas;
    isInitializedRef.current = true;
    window.addEventListener('resize', resize);
    window.addEventListener('keydown', handleKeyDown);
    return () => { ... };
  }, []);
>> *)
Definition initEffect (s : Lifecycle.Session)
    : Lifecycle.Session * option (Lifecycle.Session -> Lifecycle.Session) :=
  if Lifecycle.isInitializedRef s then (s, None)
  else if negb (Lifecycle.canvasRef s) then (s, None)
  else
    ({| Lifecycle.isInitializedRef := true;
        Lifecycle.canvasRef := Lifecycle.canvasRef s;
        Lifecycle.socketRef := Lifecycle.socketRef s;
        Lifecycle.fabricCanvasRef := true;
        Lifecycle.connected := Lifecycle.connected s;
        Lifecycle.socketListeners := Lifecycle.socketListeners s;
        Lifecycle.windowListeners :=
          Lifecycle.windowListeners s ++ ["resize"; "keydown"];
        Lifecycle.canvasListeners := Lifecycle.canvasListeners s |},
     Some teardown).

(** [canvas.add(shape)] with no listener of [object:added]. *)
Definition canvas_add (r : nat) (w : World) : World :=
  setProp r "canvas" JCanvas (with_objects (objects w ++ [r]) w).

(** The three [handleMouseDown]:
<<
  startX = pointer.x;  startY = pointer.y;
  shape = new Rect({ ... });
  canvas.add(shape);
>> *)
Definition handleMouseDown (mk : World -> FabricObject) (px py : float)
    (w : World) : World :=
  let w1 := with_startY py (with_startX px w) in
  let (r, w2) := alloc (mk w1) w1 in
  with_shape (Some r) (canvas_add r w2).

(** <<
  if (!shape) return;
  rect.set({ width: ..., height: ..., left: ..., top: ... });
  canvas.renderAll();
>> *)
Definition handleMouseMove_rectangle (px py : float) (w : World) : World :=
  match shape w with
  | None => w
  | Some r =>
      objSet r
        (<["width" := JNum (Math_abs (px - startX w))]>
        (<["height" := JNum (Math_abs (py - startY w))]>
        (<["left" := JNum (Math_min (startX w) px)]>
        (<["top" := JNum (Math_min (startY w) py)]> ∅)))) w
  end.

Definition handleMouseMove_line (px py : float) (w : World) : World :=
  match shape w with
  | None => w
  | Some r => objSet r (<["x2" := JNum px]> (<["y2" := JNum py]> ∅)) w
  end.

Definition handleMouseMove_ellipse (px py : float) (w : World) : World :=
  match shape w with
  | None => w
  | Some r =>
      objSet r
        (<["rx" := JNum (Math_abs (px - startX w) / 2)]>
        (<["ry" := JNum (Math_abs (py - startY w) / 2)]>
        (<["left" := JNum (Math_min (startX w) px)]>
        (<["top" := JNum (Math_min (startY w) py)]> ∅)))) w
  end.

(** [const handleMouseUp = () => { shape = null; };] *)
Definition handleMouseUp (w : World) : World := with_shape None w.

Definition mouse_down (px py : float) (w : World) : World :=
  match mouseHandlers w with
  | Some rectangle => handleMouseDown newRect px py w
  | Some line => handleMouseDown newLine px py w
  | Some ellipse => handleMouseDown newEllipse px py w
  | _ => w
  end.

Definition mouse_move (w : World) (p : float * float) : World :=
  match mouseHandlers w with
  | Some rectangle => handleMouseMove_rectangle (fst p) (snd p) w
  | Some line => handleMouseMove_line (fst p) (snd p) w
  | Some ellipse => handleMouseMove_ellipse (fst p) (snd p) w
  | _ => w
  end.

Definition mouse_up (w : World) : World :=
  match mouseHandlers w with
  | Some rectangle | Some line | Some ellipse => handleMouseUp w
  | _ => w
  end.

(** A whole gesture: press, any number of moves, release. *)
Definition gesture (px py : float) (moves : list (float * float)) (w : World) : World :=
  mouse_up (fold_left mouse_move moves (mouse_down px py w)).

End Standalone.

(** ** Vocabulary of the further statements *)

(** The keys the component and Fabric keep on an object for themselves. *)
Definition transient (k : string) : Prop :=
  k = "__skipEmit" \/ k = "canvas" \/ k = "selectable".

(** What goes on the wire: a SyncEvent whose payload is the
    serialisation of an object. *)
Definition wireEvent (e : string * Props) : Prop :=
  isSyncEvent (fst e) = true /\ exists o, snd e = toJSON ["id"] o.

(** [w'] has sent what [w] had sent, then wire events. *)
Definition sentMore (w w' : World) : Prop :=
  exists evs, outbox w' = outbox w ++ evs /\ Forall wireEvent evs.

(** What the change observer sends when [r] leaves the canvas of [w]. *)
Definition removalReport (w : World) (r : nat) : list (string * Props) :=
  if truthy (prop w r "__skipEmit") then []
  else [("object:removed", toJSON ["id"] (getObj w r))].

(** The shape tools, whose effect registers mouse handlers. *)
Definition shapeTool (t : Tool) : bool :=
  match t with rectangle | line | ellipse => true | _ => false end.

(** The part of the state the component keeps for itself: tool, brush,
    gesture variables, and the modes it sets on the canvas. *)
Record Ui : Type := {
  ui_tool : Tool; ui_brushColor : string; ui_brushSize : float;
  ui_toolCleanup : option Tool;
  ui_startX : float; ui_startY : float; ui_shape : option nat;
  ui_mouseHandlers : option Tool; ui_isDrawingMode : bool; ui_selection : bool;
}.

Definition ui (w : World) : Ui :=
  {| ui_tool := tool w; ui_brushColor := brushColor w; ui_brushSize := brushSize w;
     ui_toolCleanup := toolCleanup w;
     ui_startX := startX w; ui_startY := startY w; ui_shape := shape w;
     ui_mouseHandlers := mouseHandlers w; ui_isDrawingMode := isDrawingMode w;
     ui_selection := selection w |}.

(** The snapshot has no [type], or one that is not a string. *)
Definition untyped (d : Props) : bool :=
  match d !! "type" with
  | Some (JStr _) => false
  | _ => true
  end.

(** ** Further sample inputs *)

(** The state after the user has drawn a stroke, gone back to the select
    tool and clicked on the stroke. *)
Definition picked : World :=
  run entropy boot [ToolClick draw; Stroke "M 0 0 L 5 5"; ToolClick select; Pick 1].

(** The state after the user has chosen the rectangle tool. *)
Definition rect_armed : World := run entropy boot [ToolClick rectangle].

(** [object:added {type: "rect", left: 10, top: 10}], with no [id]. *)
Definition rect_anon : Props :=
  <["type" := JStr "rect"]> (<["left" := JNum 10]> (<["top" := JNum 10]> ∅)).

(** The states after the user has chosen the line and the ellipse tool. *)
Definition line_armed : World := run entropy boot [ToolClick line].
Definition ellipse_armed : World := run entropy boot [ToolClick ellipse].

(** A state whose active object is not on the canvas. *)
Definition stale_selection : World := with_activeObject (Some 7) boot.


(** * Properties *)

(** ** Reading the heap after a write *)

Lemma getObj_updObj f r w r' :
  getObj (updObj f r w) r' = if decide (r = r') then f (getObj w r) else getObj w r'.
Proof.
  unfold getObj, updObj. simpl. rewrite lookup_insert.
  destruct (decide (r = r')) as [->|]; reflexivity.
Qed.

Lemma prop_setProp r k v w r' k' :
  prop (setProp r k v w) r' k' =
  if decide (r = r') then
    if decide (k = k') then Some v else prop w r' k'
  else prop w r' k'.
Proof.
  unfold prop, setProp. rewrite getObj_updObj.
  destruct (decide (r = r')) as [->|]; [|reflexivity]. simpl.
  rewrite lookup_insert. destruct (decide (k = k')); reflexivity.
Qed.

Lemma prop_delProp r k w r' k' :
  prop (delProp r k w) r' k' =
  if decide (r = r') then
    if decide (k = k') then None else prop w r' k'
  else prop w r' k'.
Proof.
  unfold prop, delProp. rewrite getObj_updObj.
  destruct (decide (r = r')) as [->|]; [|reflexivity]. simpl.
  rewrite lookup_delete. destruct (decide (k = k')); reflexivity.
Qed.

Lemma prop_objSet r data w r' k :
  prop (objSet r data w) r' k =
  if decide (r = r') then
    match (if decide (k = "type") then None else data !! k) with
    | Some v => Some v
    | None => prop w r' k
    end
  else prop w r' k.
Proof.
  unfold prop, objSet. rewrite getObj_updObj.
  destruct (decide (r = r')) as [->|]; [|reflexivity]. simpl.
  rewrite lookup_union, lookup_delete.
  destruct (decide (k = "type")) as [->|].
  - destruct (decide ("type" = "type")); [|congruence].
    destruct (own (getObj w r') !! "type"); reflexivity.
  - destruct (decide ("type" = k)); [congruence|].
    destruct (data !! k), (own (getObj w r') !! k); reflexivity.
Qed.

(** Writes to the heap leave the canvas list alone. *)
Lemma objects_updObj f r w : objects (updObj f r w) = objects w.
Proof. reflexivity. Qed.

(** ** Serialisation carries the identity *)

Lemma toJSON_id o : toJSON ["id"] o !! "id" = own o !! "id".
Proof.
  unfold toJSON, toObject.
  rewrite lookup_insert_ne by discriminate.
  destruct (own o !! "id") as [v|] eqn:E.
  - apply map_lookup_filter_Some. split; [assumption | reflexivity].
  - apply map_lookup_filter_None. left. assumption.
Qed.

Lemma enlivenObject_id data o :
  enlivenObject data = Some o -> own o !! "id" = data !! "id".
Proof.
  unfold enlivenObject. intros H.
  destruct (data !! "type") as [[| t | | |]|]; try discriminate.
  destruct (getClass t); [|discriminate].
  injection H as <-. simpl. apply lookup_delete_ne. discriminate.
Qed.

(** ** Fresh references *)

Lemma newRef_objects w : newRef w ∉ objects w.
Proof.
  unfold newRef. intros H.
  assert (newRef w <= max_list (objects w ++ elements (dom (heap w))))%nat as Hle.
  { apply max_list_elem_of_le. apply elem_of_app. left. exact H. }
  unfold newRef in Hle. lia.
Qed.

Lemma newRef_heap w : heap w !! newRef w = None.
Proof.
  destruct (heap w !! newRef w) as [o|] eqn:E; [|reflexivity]. exfalso.
  assert (newRef w <= max_list (objects w ++ elements (dom (heap w))))%nat as Hle.
  { apply max_list_elem_of_le. apply elem_of_app. right.
    apply elem_of_elements, elem_of_dom. eexists. exact E. }
  unfold newRef in Hle. lia.
Qed.

(** ** The canvas list under [remove] and [clear] *)

Lemma spliceFirst_head r l : spliceFirst r (r :: l) = Some l.
Proof. simpl. rewrite Nat.eqb_refl. reflexivity. Qed.

Lemma spliceFirst_sub r l l' x : spliceFirst r l = Some l' -> x ∈ l' -> x ∈ l.
Proof.
  revert l'. induction l as [|y l IH]; simpl; intros l' H Hx; [discriminate|].
  destruct (Nat.eqb y r).
  - injection H as <-. apply elem_of_cons. right. exact Hx.
  - destruct (spliceFirst r l) as [l0|]; [|discriminate].
    injection H as <-. apply elem_of_cons in Hx as [->|Hx].
    + apply elem_of_cons. left. reflexivity.
    + apply elem_of_cons. right. apply (IH l0); [reflexivity | exact Hx].
Qed.

Section CanvasFacts.

Variable rng : nat -> list Z.

Lemma objects_on_added t w :
  objects (canvas_on_object_added rng t w) = objects w.
Proof.
  unfold canvas_on_object_added. destruct t as [r|]; [|reflexivity].
  destruct (truthy (prop w r "id")); simpl;
    match goal with |- context [if ?b then _ else _] => destruct b end;
    reflexivity.
Qed.

Lemma objects_on_removed t w :
  objects (canvas_on_object_removed t w) = objects w.
Proof.
  unfold canvas_on_object_removed. destruct t as [r|]; [|reflexivity].
  destruct (truthy (prop w r "__skipEmit")); reflexivity.
Qed.

Lemma objects_canvas_add r w :
  objects (canvas_add rng r w) = objects w ++ [r].
Proof. unfold canvas_add. rewrite objects_on_added. reflexivity. Qed.

Lemma objects_canvas_remove r w :
  objects (canvas_remove r w) = default (objects w) (spliceFirst r (objects w)).
Proof.
  unfold canvas_remove. destruct (spliceFirst r (objects w)) as [l|]; [|reflexivity].
  rewrite objects_on_removed. simpl.
  destruct (activeObject w) as [a|]; [destruct (Nat.eqb a r)|]; reflexivity.
Qed.

(** Removing, in order, the objects of a copy of the list empties the list. *)
Lemma remove_each_empties l : forall w,
  objects w = l ->
  objects (fold_left (fun acc r => canvas_remove r acc) l w) = [].
Proof.
  induction l as [|x l IH]; intros w H; simpl; [exact H|].
  apply IH. rewrite objects_canvas_remove, H, spliceFirst_head. reflexivity.
Qed.

Lemma objects_canvas_clear w : objects (canvas_clear w) = [].
Proof. unfold canvas_clear. apply remove_each_empties. reflexivity. Qed.

End CanvasFacts.

(** ** Looking an identity up *)

Lemma findById_None w v :
  Forall (fun r => strict_eq (prop w r "id") v = false) (objects w) ->
  findById w v = None.
Proof.
  unfold findById. induction 1 as [|r l Hr _ IH]; simpl; [reflexivity|].
  rewrite Hr. exact IH.
Qed.

Lemma findById_Some w v r :
  findById w v = Some r ->
  r ∈ objects w /\ strict_eq (prop w r "id") v = true.
Proof.
  unfold findById. intros H. apply find_some in H as [Hin Hr].
  split; [apply list_elem_of_In; exact Hin | exact Hr].
Qed.

(** [find] answers as soon as some object of the canvas matches. *)
Lemma findById_is_Some w v r :
  r ∈ objects w -> strict_eq (prop w r "id") v = true ->
  is_Some (findById w v).
Proof.
  unfold findById. intros Hin Hr.
  destruct (List.find _ (objects w)) as [x|] eqn:E; [eexists; reflexivity|].
  apply list_elem_of_In in Hin.
  pose proof (find_none _ _ E r Hin) as Hn. simpl in Hn. congruence.
Qed.



Lemma strict_eq_JStr_refl i : strict_eq (Some (JStr i)) (Some (JStr i)) = true.
Proof. simpl. apply String.eqb_refl. Qed.

(** What [socket.on('object:modified')] does once the lookup has answered. *)
Lemma socket_on_object_modified_found objectData w r :
  findById w (objectData !! "id") = Some r ->
  socket_on_object_modified objectData w =
  objSet r objectData (setProp r "__skipEmit" (JBool true) w).
Proof. unfold socket_on_object_modified. intros ->. reflexivity. Qed.


(** ** Truthiness and strict equality *)

Lemma SFeqb_finite_refl s m e :
  SFeqb (S754_finite s m e) (S754_finite s m e) = true.
Proof.
  unfold SFeqb, SFcompare.
  destruct s; rewrite Z.compare_refl, Pos.compare_refl; reflexivity.
Qed.

Lemma float_eqb_falsy x y :
  PrimFloat.eqb x y = true ->
  (PrimFloat.eqb x 0 || PrimFloat.is_nan x) = (PrimFloat.eqb y 0 || PrimFloat.is_nan y).
Proof.
  unfold PrimFloat.is_nan. rewrite !FloatAxioms.eqb_spec.
  change (Prim2SF 0) with (S754_zero false).
  destruct (Prim2SF x) as [s1|s1| |s1 m1 e1], (Prim2SF y) as [s2|s2| |s2 m2 e2];
    intros H; try discriminate H; try reflexivity;
    try (destruct s1; discriminate H); try (destruct s2; discriminate H);
    rewrite ?SFeqb_finite_refl; destruct s1, s2; try discriminate H; reflexivity.
Qed.

Lemma strict_eq_truthy a b : strict_eq a b = true -> truthy a = truthy b.
Proof.
  destruct a as [[x|s|p| |]|], b as [[y|t|q| |]|]; simpl; try discriminate; try reflexivity.
  - intros H. rewrite (float_eqb_falsy x y H). reflexivity.
  - intros H. apply String.eqb_eq in H. congruence.
  - intros H. apply Bool.eqb_prop in H. congruence.
Qed.

(** ** What the Remote Apply Engine's insertion amounts to *)

Section ApplyFacts.

Variable rng : nat -> list Z.

Lemma updObj_fresh f r o h w :
  updObj f r (with_heap (<[r := o]> h) w) = with_heap (<[r := f o]> h) w.
Proof.
  unfold updObj, getObj. simpl. rewrite lookup_insert_eq, insert_insert_eq.
  reflexivity.
Qed.

Lemma updObj_with_objects f r l w :
  updObj f r (with_objects l w) = with_objects l (updObj f r w).
Proof. reflexivity. Qed.

Lemma addSkipEmit_spec w o :
  truthy (own o !! "id") = true ->
  addSkipEmit rng w o = place (newRef w) (marked o) w.
Proof.
  intros Hid. unfold addSkipEmit, alloc, canvas_add.
  set (r := newRef w).
  assert (Hw : setProp r "canvas" JCanvas
                 (with_objects
                    (objects (setProp r "__skipEmit" (JBool true)
                                (with_heap (<[r := o]> (heap w)) w)) ++ [r])
                    (setProp r "__skipEmit" (JBool true)
                       (with_heap (<[r := o]> (heap w)) w)))
               = place r (marked o) w).
  { unfold setProp. rewrite updObj_fresh, updObj_with_objects, updObj_fresh.
    reflexivity. }
  rewrite Hw. unfold canvas_on_object_added.
  assert (Hp : forall k, prop (place r (marked o) w) r k = own (marked o) !! k).
  { intros k. unfold prop, getObj, place. simpl. rewrite lookup_insert_eq. reflexivity. }
  assert (Hi : own (marked o) !! "id" = own o !! "id").
  { unfold marked. cbn [own]. rewrite !lookup_insert_ne by discriminate. reflexivity. }
  assert (Hs : own (marked o) !! "__skipEmit" = Some (JBool true)).
  { unfold marked. cbn [own]. rewrite lookup_insert_ne by discriminate.
    apply lookup_insert_eq. }
  rewrite Hp, Hi, Hid, Hp, Hs. reflexivity.
Qed.

Lemma heap_place r o w : heap (place r o w) = <[r := o]> (heap w).
Proof. reflexivity. Qed.

Lemma objects_place r o w : objects (place r o w) = objects w ++ [r].
Proof. reflexivity. Qed.

Lemma prop_place r o w r' k :
  prop (place r o w) r' k = if decide (r = r') then own o !! k else prop w r' k.
Proof.
  unfold prop, getObj. rewrite heap_place, lookup_insert.
  destruct (decide (r = r')); reflexivity.
Qed.

Lemma fold_addSkipEmit objs : forall w,
  Forall hasId objs ->
  exists rs,
    objects (fold_left (addSkipEmit rng) objs w) = objects w ++ rs
    /\ Forall2 (fun r o => heap (fold_left (addSkipEmit rng) objs w) !! r = Some (marked o)) rs objs
    /\ Forall (fun r => (r ∉ objects w) /\ heap w !! r = None) rs
    /\ NoDup rs
    /\ (forall x, is_Some (heap w !! x) ->
          heap (fold_left (addSkipEmit rng) objs w) !! x = heap w !! x).
Proof.
  induction objs as [|o objs IH]; intros w Hids; cbn [fold_left].
  - exists []. rewrite app_nil_r.
    repeat apply conj; [reflexivity | constructor .. | reflexivity].
  - apply Forall_cons in Hids as [Ho Hids].
    rewrite (addSkipEmit_spec w o Ho).
    set (r := newRef w). set (w1 := place r (marked o) w).
    destruct (IH w1 Hids) as (rs & Hobj & Hall & Hfresh & Hnd & Hframe).
    assert (Hr1 : heap w1 !! r = Some (marked o)).
    { unfold w1. rewrite heap_place. apply lookup_insert_eq. }
    exists (r :: rs). repeat apply conj.
    + rewrite Hobj. unfold w1. rewrite objects_place, <- app_assoc. reflexivity.
    + constructor; [|exact Hall].
      rewrite Hframe by (rewrite Hr1; eexists; reflexivity). exact Hr1.
    + constructor.
      * split; [apply newRef_objects | apply newRef_heap].
      * eapply Forall_impl; [exact Hfresh|]. intros x [Hx1 Hx2]. split.
        -- intros Hin. apply Hx1. unfold w1. rewrite objects_place.
           apply elem_of_app. left. exact Hin.
        -- unfold w1 in Hx2. rewrite heap_place in Hx2.
           apply lookup_insert_None in Hx2 as [Hx2 _]. exact Hx2.
    + constructor; [|exact Hnd]. intros Hin.
      rewrite Forall_forall in Hfresh. destruct (Hfresh r Hin) as [_ Hn]. congruence.
    + intros x Hx.
      assert (x <> r) as Hne.
      { intros E. rewrite E in Hx. unfold r in Hx. rewrite (newRef_heap w) in Hx.
        destruct Hx; discriminate. }
      rewrite Hframe.
      * unfold w1. rewrite heap_place. apply lookup_insert_ne. congruence.
      * unfold w1. rewrite heap_place, lookup_insert_ne by congruence. exact Hx.
Qed.

Lemma Forall2_through {A B C : Type} (P : A -> C -> Prop) (Q : B -> C -> Prop)
    (la : list A) (lb : list B) (lc : list C) :
  Forall2 P la lc -> Forall2 Q lb lc ->
  Forall2 (fun a b => exists c, Q b c /\ P a c) la lb.
Proof.
  intros HP. revert lb. induction HP as [|a c la lc Hac _ IH]; intros lb HQ.
  - inversion HQ. constructor.
  - inversion HQ as [|b c' lb' lc' Hbc Hrest]; subst. constructor.
    + exists c. split; assumption.
    + apply IH. exact Hrest.
Qed.

Lemma countId_zero w v : countId w v = 0 -> findById w v = None.
Proof.
  unfold countId, findById.
  induction (objects w) as [|r l IH]; simpl; [reflexivity|].
  destruct (strict_eq (prop w r "id") v); simpl; [discriminate | exact IH].
Qed.

Lemma countId_place r o w v :
  r ∉ objects w ->
  countId (place r o w) v =
  countId w v + (if strict_eq (own o !! "id") v then 1 else 0).
Proof.
  intros Hr. unfold countId. rewrite objects_place, List.filter_app, length_app.
  f_equal.
  - f_equal. apply List.filter_ext_in. intros x Hx. rewrite prop_place.
    destruct (decide (r = x)) as [->|]; [|reflexivity].
    exfalso. apply Hr, list_elem_of_In, Hx.
  - simpl. rewrite prop_place. destruct (decide (r = r)); [|congruence].
    destruct (strict_eq (own o !! "id") v); reflexivity.
Qed.

Lemma truthy_JStr i : i <> "" -> truthy (Some (JStr i)) = true.
Proof.
  intros Hi. simpl. destruct (String.eqb i "") eqn:E; [|reflexivity].
  apply String.eqb_eq in E. congruence.
Qed.

End ApplyFacts.

(** ** The invariant of a run *)

Lemma uuidv4_nonempty rnds : uuidv4 rnds <> "".
Proof. unfold uuidv4, unsafeStringify, byteAt, byteToHex. discriminate. Qed.

Lemma spliceFirst_In r l l' : spliceFirst r l = Some l' -> r ∈ l.
Proof.
  revert l'. induction l as [|x l IH]; simpl; intros l' H; [discriminate|].
  destruct (Nat.eqb x r) eqn:E.
  - apply Nat.eqb_eq in E. subst x. apply elem_of_cons. left. reflexivity.
  - destruct (spliceFirst r l) as [l0|]; [|discriminate].
    apply elem_of_cons. right. apply (IH l0). reflexivity.
Qed.

Lemma Inv_updObj f r w :
  (truthy (own (getObj w r) !! "id") = true ->
   truthy (own (f (getObj w r)) !! "id") = true) ->
  Inv w -> Inv (updObj f r w).
Proof.
  intros Hf [Hid Hsent]. split; [|exact Hsent].
  unfold IdOk in *. rewrite objects_updObj.
  eapply Forall_impl; [exact Hid|]. intros x Hx. simpl in Hx |- *.
  unfold prop in *. rewrite getObj_updObj.
  destruct (decide (r = x)) as [->|]; [apply Hf|]; exact Hx.
Qed.

Lemma Inv_setProp r k v w : k <> "id" -> Inv w -> Inv (setProp r k v w).
Proof.
  intros Hk. apply Inv_updObj. simpl. rewrite lookup_insert_ne by exact Hk. tauto.
Qed.

Lemma Inv_delProp r k w : k <> "id" -> Inv w -> Inv (delProp r k w).
Proof.
  intros Hk. apply Inv_updObj. simpl. rewrite lookup_delete_ne by exact Hk. tauto.
Qed.

Lemma Inv_objSet_other r data w : data !! "id" = None -> Inv w -> Inv (objSet r data w).
Proof.
  intros Hd. apply Inv_updObj. simpl.
  rewrite lookup_union, lookup_delete_ne, Hd by discriminate.
  destruct (own (getObj w r) !! "id"); simpl; tauto.
Qed.

Lemma Inv_objSet_same r data w :
  strict_eq (prop w r "id") (data !! "id") = true -> Inv w -> Inv (objSet r data w).
Proof.
  intros Hd. apply Inv_updObj. simpl. intros Ht.
  apply strict_eq_truthy in Hd. unfold prop in Hd. rewrite Ht in Hd.
  rewrite lookup_union, lookup_delete_ne by discriminate.
  destruct (data !! "id") as [v|]; [|discriminate Hd].
  destruct (own (getObj w r) !! "id"); symmetry; exact Hd.
Qed.

Lemma Inv_emit ev p w :
  isSyncEvent ev = true -> truthy (p !! "id") = true -> Inv w -> Inv (emit ev p w).
Proof.
  intros Hev Hp [Hid Hsent]. split; [exact Hid|].
  unfold SentOk, emit. simpl. apply Forall_app. split; [exact Hsent|].
  constructor; [split; [left; exact Hp | exact Hev] | constructor].
Qed.

Lemma Inv_on_modified r w :
  truthy (prop w r "id") = true -> Inv w -> Inv (canvas_on_object_modified (Some r) w).
Proof.
  intros Hr H. unfold canvas_on_object_modified.
  destruct (truthy (prop w r "__skipEmit")); [exact H|].
  apply Inv_emit; [reflexivity | | exact H]. rewrite toJSON_id. exact Hr.
Qed.

Lemma Inv_on_removed r w :
  truthy (prop w r "id") = true -> Inv w -> Inv (canvas_on_object_removed (Some r) w).
Proof.
  intros Hr H. unfold canvas_on_object_removed.
  destruct (truthy (prop w r "__skipEmit")); [exact H|].
  apply Inv_emit; [reflexivity | | exact H]. rewrite toJSON_id. exact Hr.
Qed.

Section RunFacts.

Variable rng : nat -> list Z.

(** The listener of [object:added] gives its target an identity. *)
Lemma on_added_identifies r w :
  truthy (prop (canvas_on_object_added rng (Some r) w) r "id") = true.
Proof.
  unfold canvas_on_object_added.
  destruct (truthy (prop w r "id")) eqn:E.
  - destruct (truthy (prop w r "__skipEmit")); exact E.
  - unfold generateId.
    match goal with |- context [if ?b then _ else _] => destruct b end;
      [|change (prop (emit ?e ?p ?x) r "id") with (prop x r "id")];
      rewrite prop_setProp;
      destruct (decide (r = r)); try congruence;
      destruct (decide ("id" = "id")); try congruence;
      apply truthy_JStr, uuidv4_nonempty.
Qed.

Lemma Inv_on_added r w :
  SentOk w ->
  Forall (fun x => x <> r -> truthy (prop w x "id") = true) (objects w) ->
  Inv (canvas_on_object_added rng (Some r) w).
Proof.
  intros Hsent Hid.
  pose proof (on_added_identifies r w) as Hr.
  assert (Hother : forall x, x <> r ->
            prop (canvas_on_object_added rng (Some r) w) x "id" = prop w x "id").
  { intros x Hx. unfold canvas_on_object_added, generateId.
    destruct (truthy (prop w r "id"));
      match goal with |- context [if ?b then _ else _] => destruct b end;
      try reflexivity;
      try change (prop (emit ?e ?p ?y) x "id") with (prop y x "id");
      rewrite ?prop_setProp;
      try (destruct (decide (r = x)); [congruence|]); reflexivity. }
  split.
  - unfold IdOk. rewrite objects_on_added.
    eapply Forall_impl; [exact Hid|]. intros x Hx. simpl in Hx.
    destruct (decide (x = r)) as [->|Hne]; [exact Hr|].
    rewrite Hother by exact Hne. apply Hx, Hne.
  - revert Hr. unfold canvas_on_object_added, generateId.
    destruct (truthy (prop w r "id"));
      match goal with |- context [if ?b then _ else _] => destruct b end;
      intros Hr; try exact Hsent.
    + apply Forall_app. split; [exact Hsent|]. constructor; [|constructor].
      split; [|reflexivity]. left. unfold carriesId. simpl. rewrite toJSON_id. exact Hr.
    + apply Forall_app. split; [exact Hsent|]. constructor; [|constructor].
      split; [|reflexivity]. left. unfold carriesId. simpl. rewrite toJSON_id. exact Hr.
Qed.

Lemma Inv_canvas_add r w : Inv w -> Inv (canvas_add rng r w).
Proof.
  intros [Hid Hsent]. unfold canvas_add. apply Inv_on_added; [exact Hsent|].
  change (objects (setProp r "canvas" JCanvas (with_objects (objects w ++ [r]) w)))
    with (objects w ++ [r]).
  apply Forall_app. split.
  - eapply Forall_impl; [exact Hid|]. intros x Hx Hne. simpl in Hx.
    rewrite prop_setProp. destruct (decide (r = x)); [congruence|]. exact Hx.
  - constructor; [congruence | constructor].
Qed.

Lemma Inv_canvas_remove r w : Inv w -> Inv (canvas_remove r w).
Proof.
  intros H. unfold canvas_remove.
  destruct (spliceFirst r (objects w)) as [l|] eqn:E; [|exact H].
  assert (Hr : truthy (prop w r "id") = true).
  { destruct H as [Hid _]. unfold IdOk in Hid. rewrite Forall_forall in Hid.
    apply Hid. eapply spliceFirst_In. exact E. }
  assert (H1 : Inv (with_objects l w)).
  { destruct H as [Hid Hsent]. split; [|exact Hsent].
    unfold IdOk in *. rewrite Forall_forall in Hid. apply Forall_forall.
    intros x Hx. apply (Hid x). eapply spliceFirst_sub; eassumption. }
  apply Inv_on_removed.
  - rewrite prop_delProp. destruct (decide (r = r)); [|congruence].
    destruct (decide ("canvas" = "id")); [discriminate|].
    simpl. destruct (activeObject w) as [a|]; [destruct (Nat.eqb a r)|]; exact Hr.
  - apply Inv_delProp; [discriminate|]. simpl.
    destruct (activeObject w) as [a|]; [destruct (Nat.eqb a r)|]; exact H1.
Qed.

Lemma Inv_remove_each l : forall w,
  Inv w -> Inv (fold_left (fun acc r => canvas_remove r acc) l w).
Proof.
  induction l as [|x l IH]; intros w H; simpl; [exact H|].
  apply IH, Inv_canvas_remove, H.
Qed.

Lemma Inv_canvas_clear w : Inv w -> Inv (canvas_clear w).
Proof. intros H. unfold canvas_clear. apply Inv_remove_each. exact H. Qed.

Lemma Inv_setSelectable_each b l : forall w,
  Inv w -> Inv (fold_left (fun acc r => setProp r "selectable" (JBool b) acc) l w).
Proof.
  induction l as [|x l IH]; intros w H; simpl; [exact H|].
  apply IH, Inv_setProp; [discriminate | exact H].
Qed.

Lemma Inv_setSelectable b w : Inv w -> Inv (setSelectable b w).
Proof. unfold setSelectable. apply Inv_setSelectable_each. Qed.

Lemma Inv_alloc o w : Inv w -> Inv (snd (alloc o w)).
Proof.
  intros [Hid Hsent]. split; [|exact Hsent].
  unfold IdOk in *. simpl. rewrite Forall_forall in Hid. apply Forall_forall.
  intros x Hx. unfold prop, getObj. simpl.
  rewrite lookup_insert_ne.
  - apply (Hid x Hx).
  - intros E. subst x. exact (newRef_objects w Hx).
Qed.

Lemma Inv_addSkipEmit w o : Inv w -> Inv (addSkipEmit rng w o).
Proof.
  intros H. unfold addSkipEmit.
  pose proof (Inv_alloc o w H) as Ha. destruct (alloc o w) as [r w1]. simpl in Ha.
  apply Inv_canvas_add, Inv_setProp; [discriminate | exact Ha].
Qed.

Lemma Inv_fold_addSkipEmit objs : forall w,
  Inv w -> Inv (fold_left (addSkipEmit rng) objs w).
Proof.
  induction objs as [|o objs IH]; intros w H; cbn [fold_left]; [exact H|].
  apply IH, Inv_addSkipEmit, H.
Qed.

Lemma canPick_on_canvas w r : canPick w r = true -> r ∈ objects w.
Proof.
  unfold canPick. intros H.
  apply andb_true_iff in H as [H _]. apply andb_true_iff in H as [H _].
  apply existsb_exists in H as (x & Hx & E).
  apply Nat.eqb_eq in E. subst x. apply list_elem_of_In. exact Hx.
Qed.

(** The invariant reads the heap, the canvas list and the outbox only. *)
Lemma Inv_ext w w' :
  heap w' = heap w -> objects w' = objects w -> outbox w' = outbox w ->
  Inv w -> Inv w'.
Proof.
  unfold Inv, IdOk, SentOk, prop, getObj. intros -> -> ->. tauto.
Qed.

Lemma Inv_with_activeObject x w : Inv w -> Inv (with_activeObject x w).
Proof. apply Inv_ext; reflexivity. Qed.

Lemma Inv_with_isDrawingMode x w : Inv w -> Inv (with_isDrawingMode x w).
Proof. apply Inv_ext; reflexivity. Qed.

Lemma Inv_with_selection x w : Inv w -> Inv (with_selection x w).
Proof. apply Inv_ext; reflexivity. Qed.

Lemma Inv_with_mouseHandlers x w : Inv w -> Inv (with_mouseHandlers x w).
Proof. apply Inv_ext; reflexivity. Qed.

Lemma Inv_with_uuidCalls x w : Inv w -> Inv (with_uuidCalls x w).
Proof. apply Inv_ext; reflexivity. Qed.

Lemma Inv_with_tool x w : Inv w -> Inv (with_tool x w).
Proof. apply Inv_ext; reflexivity. Qed.

Lemma Inv_with_brushColor x w : Inv w -> Inv (with_brushColor x w).
Proof. apply Inv_ext; reflexivity. Qed.

Lemma Inv_with_brushSize x w : Inv w -> Inv (with_brushSize x w).
Proof. apply Inv_ext; reflexivity. Qed.

Lemma Inv_with_toolCleanup x w : Inv w -> Inv (with_toolCleanup x w).
Proof. apply Inv_ext; reflexivity. Qed.

Lemma Inv_with_startX x w : Inv w -> Inv (with_startX x w).
Proof. apply Inv_ext; reflexivity. Qed.

Lemma Inv_with_startY x w : Inv w -> Inv (with_startY x w).
Proof. apply Inv_ext; reflexivity. Qed.

Lemma Inv_with_shape x w : Inv w -> Inv (with_shape x w).
Proof. apply Inv_ext; reflexivity. Qed.

Ltac frame :=
  repeat match goal with
  | |- Inv (with_activeObject _ _) => apply Inv_with_activeObject
  | |- Inv (with_isDrawingMode _ _) => apply Inv_with_isDrawingMode
  | |- Inv (with_selection _ _) => apply Inv_with_selection
  | |- Inv (with_mouseHandlers _ _) => apply Inv_with_mouseHandlers
  | |- Inv (with_uuidCalls _ _) => apply Inv_with_uuidCalls
  | |- Inv (with_tool _ _) => apply Inv_with_tool
  | |- Inv (with_brushColor _ _) => apply Inv_with_brushColor
  | |- Inv (with_brushSize _ _) => apply Inv_with_brushSize
  | |- Inv (with_toolCleanup _ _) => apply Inv_with_toolCleanup
  | |- Inv (with_startX _ _) => apply Inv_with_startX
  | |- Inv (with_startY _ _) => apply Inv_with_startY
  | |- Inv (with_shape _ _) => apply Inv_with_shape
  end.

Lemma Inv_cleanup t w : Inv w -> Inv (cleanup t w).
Proof.
  intros H. unfold cleanup. destruct (Tool_eqb t select); frame; [exact H|].
  apply Inv_setSelectable. frame. exact H.
Qed.

Lemma Inv_toolEffect w : Inv w -> Inv (toolEffect w).
Proof.
  intros H. unfold toolEffect. frame.
  pose proof (Inv_cleanup (tool w) w H) as H2.
  destruct (tool w); frame.
  - exact H2.
  - apply Inv_setSelectable. frame. exact H2.
  - exact H2.
  - exact H2.
  - exact H2.
  - apply Inv_canvas_clear. frame. exact H2.
Qed.

Lemma Inv_rerunToolEffect w : Inv w -> Inv (rerunToolEffect w).
Proof.
  intros H. unfold rerunToolEffect. apply Inv_toolEffect.
  destruct (toolCleanup w); [apply Inv_cleanup|]; exact H.
Qed.

Lemma Inv_handleMouseDown mk px py w : Inv w -> Inv (handleMouseDown mk px py w).
Proof.
  intros H. unfold handleMouseDown.
  pose proof (Inv_alloc (mk (with_startY py (with_startX px w)))
                (with_startY py (with_startX px w)) H) as Ha.
  destruct (alloc _ _) as [r w2]. frame. exact Ha.
Qed.

Lemma Inv_showTemporary r w : Inv w -> Inv (showTemporary rng r w).
Proof.
  intros H. unfold showTemporary.
  destruct (truthy (prop w r "canvas")); [exact H | apply Inv_canvas_add, H].
Qed.

Lemma Inv_handleMouseUp test w : Inv w -> Inv (handleMouseUp rng test w).
Proof.
  intros H. unfold handleMouseUp. frame.
  destruct (shape w) as [r|]; [|exact H].
  destruct (test w r); [|exact H].
  apply (Inv_canvas_add r).
  destruct (truthy (prop w r "canvas")); [apply Inv_canvas_remove|]; exact H.
Qed.

(** What the transformation of a multi-object selection sends: one
    [object:modified], the serialisation of the [ActiveSelection], which
    has no identity. *)
Lemma selection_report_has_no_identity rs p w :
  canSelectMany w rs = true ->
  exists payload,
    outbox (transformSelection rs p w) = outbox w ++ [("object:modified", payload)]
    /\ payload !! "id" = None
    /\ payload !! "type" = Some (JStr "ActiveSelection").
Proof.
  intros Hsel. unfold transformSelection, alloc. rewrite Hsel. cbv zeta.
  set (s := newRef w).
  set (w1 := with_activeObject (Some s)
               (with_heap (<[s := newActiveSelection p]> (heap w)) w)).
  assert (Hobj : getObj w1 s = newActiveSelection p).
  { unfold getObj, w1.
    change (heap (with_activeObject ?a (with_heap ?h ?x))) with h.
    rewrite lookup_insert_eq. reflexivity. }
  unfold canvas_on_object_modified.
  assert (Hs : prop w1 s "__skipEmit" = None).
  { unfold prop. rewrite Hobj. unfold newActiveSelection, placementProps. cbn [own].
    rewrite !lookup_insert_ne by discriminate. apply lookup_empty. }
  rewrite Hs. cbn [truthy].
  exists (toJSON ["id"] (getObj w1 s)). split; [reflexivity|]. split.
  - rewrite toJSON_id, Hobj. unfold newActiveSelection, placementProps. cbn [own].
    rewrite !lookup_insert_ne by discriminate. apply lookup_empty.
  - unfold toJSON, toObject. cbv zeta. rewrite lookup_insert_eq, Hobj. reflexivity.
Qed.

Lemma Inv_transformSelection rs p w : Inv w -> Inv (transformSelection rs p w).
Proof.
  intros H. destruct (canSelectMany w rs) eqn:Hsel.
  - destruct (selection_report_has_no_identity rs p w Hsel) as (payload & Hout & _ & Hty).
    pose proof (Inv_alloc (newActiveSelection p) w H) as [Hid Hsent].
    assert (Hheap : forall r k, prop (transformSelection rs p w) r k
                                = prop (snd (alloc (newActiveSelection p) w)) r k).
    { intros r k. unfold transformSelection, alloc. rewrite Hsel. cbv zeta.
      unfold canvas_on_object_modified.
      match goal with |- context [if ?b then _ else _] => destruct b end; reflexivity. }
    assert (Hobjs : objects (transformSelection rs p w) = objects w).
    { unfold transformSelection, alloc. rewrite Hsel. cbv zeta.
      unfold canvas_on_object_modified.
      match goal with |- context [if ?b then _ else _] => destruct b end; reflexivity. }
    split.
    + unfold IdOk in *. rewrite Hobjs.
      eapply Forall_impl; [exact Hid|]. intros x Hx. cbv beta in Hx |- *.
      rewrite Hheap. exact Hx.
    + unfold SentOk in *. rewrite Hout. apply Forall_app. split; [exact Hsent|].
      constructor; [|constructor]. split; [right; split; [reflexivity | exact Hty]
                                          | reflexivity].
  - unfold transformSelection. rewrite Hsel. exact H.
Qed.

(** Every action of a run keeps the invariant. *)
Lemma Inv_step a w : Inv w -> Inv (step rng w a).
Proof.
  intros H. destruct a; simpl.
  - unfold socket_on_object_added.
    destruct (enlivenObject objectData) as [o|]; [|exact H].
    destruct (findById w (own o !! "id")); [exact H | apply Inv_addSkipEmit, H].
  - unfold socket_on_object_modified.
    destruct (findById w (objectData !! "id")) as [r|] eqn:E; [|exact H].
    apply findById_Some in E as [_ E].
    apply Inv_objSet_same.
    + rewrite prop_setProp. destruct (decide (r = r)); [|congruence].
      destruct (decide ("__skipEmit" = "id")); [discriminate | exact E].
    + apply Inv_setProp; [discriminate | exact H].
  - unfold socket_on_object_removed.
    destruct (findById w (objectData !! "id")) as [r|]; [|exact H].
    apply Inv_canvas_remove, Inv_setProp; [discriminate | exact H].
  - apply Inv_canvas_clear, H.
  - unfold socket_on_object_sync.
    destruct (enlivenObjects payload); [|exact H].
    apply Inv_fold_addSkipEmit, Inv_canvas_clear, H.
  - unfold handleToolClick. destruct (Tool_eqb t (tool w)); [exact H|].
    apply Inv_rerunToolEffect. frame. exact H.
  - unfold handleColorChange. destruct (String.eqb c (brushColor w)); [exact H|].
    apply Inv_rerunToolEffect. frame. exact H.
  - unfold handleSizeChange. destruct (Object_is v (brushSize w)); [exact H|].
    apply Inv_rerunToolEffect. frame. exact H.
  - unfold mouse_down.
    destruct (mouseHandlers w) as [[]|]; try exact H; apply Inv_handleMouseDown, H.
  - unfold mouse_move, handleMouseMove_rectangle, handleMouseMove_line,
      handleMouseMove_ellipse.
    destruct (mouseHandlers w) as [[]|]; try exact H;
      (destruct (shape w) as [r|]; [|exact H]);
      apply Inv_showTemporary, Inv_objSet_other; try exact H;
      rewrite !lookup_insert_ne by discriminate; apply lookup_empty.
  - unfold mouse_up.
    destruct (mouseHandlers w) as [[]|]; try exact H; apply Inv_handleMouseUp, H.
  - unfold stroke. destruct (isDrawingMode w); [|exact H].
    pose proof (Inv_alloc (newPath pathData w) w H) as Ha.
    destruct (alloc _ _) as [r w1]. apply Inv_canvas_add, Ha.
  - unfold pick. destruct (canPick w r); frame; exact H.
  - unfold transform. destruct (canPick w r) eqn:E; [|exact H].
    apply canPick_on_canvas in E.
    assert (Hset : Inv (objSet r (placementProps p) (with_activeObject (Some r) w))).
    { apply Inv_objSet_other; [|frame; exact H]. unfold placementProps.
      rewrite !lookup_insert_ne by discriminate. apply lookup_empty. }
    apply Inv_on_modified; [|exact Hset].
    destruct Hset as [Hid _]. unfold IdOk in Hid. rewrite Forall_forall in Hid.
    apply Hid. exact E.
  - apply Inv_transformSelection, H.
  - unfold handleKeyDown.
    destruct (String.eqb key "Delete" || String.eqb key "Backspace"); [|exact H].
    destruct (activeObject w); [apply Inv_canvas_remove|]; exact H.
Qed.

Lemma Inv_run l : forall w, Inv w -> Inv (run rng w l).
Proof.
  induction l as [|a l IH]; intros w H; simpl; [exact H|].
  apply IH, Inv_step, H.
Qed.

Lemma Inv_boot : Inv boot.
Proof. split; constructor. Qed.

(** In every run of the client every object of the canvas has an
    identity, and a message without one is the report of a multi-object
    selection. *)
Lemma unidentified_messages_report_selections acts :
  let w := run rng boot acts in
  Forall (fun e => carriesId e \/ selectionReport e) (outbox w)
  /\ Forall (fun r => truthy (prop w r "id") = true) (objects w).
Proof.
  intros w. destruct (Inv_run acts boot Inv_boot) as [Hid Hsent].
  split; [|exact Hid].
  eapply Forall_impl; [exact Hsent|]. intros e [He _]. exact He.
Qed.

End RunFacts.

(** ** Three facts about what is, and is not, sent *)

(** Once a [Modified] event from the relay has been applied to an object,
    the marker stays on it: no later transformation by the user reaches
    the relay. *)
Lemma remote_modified_silences objectData w r p :
  findById w (objectData !! "id") = Some r ->
  objectData !! "__skipEmit" = None ->
  outbox (transform r p (socket_on_object_modified objectData w))
  = outbox (socket_on_object_modified objectData w).
Proof.
  intros Hf Hd. rewrite (socket_on_object_modified_found objectData w r Hf).
  unfold transform. destruct (canPick _ r); [|reflexivity].
  unfold canvas_on_object_modified.
  assert (Hs : truthy (prop (objSet r (placementProps p)
                 (with_activeObject (Some r)
                    (objSet r objectData (setProp r "__skipEmit" (JBool true) w))))
                 r "__skipEmit") = true).
  { rewrite prop_objSet. destruct (decide (r = r)); [|congruence].
    destruct (decide ("__skipEmit" = "type")); [discriminate|].
    unfold placementProps. rewrite !lookup_insert_ne by discriminate.
    rewrite lookup_empty.
    change (prop (with_activeObject ?a ?x) r "__skipEmit") with (prop x r "__skipEmit").
    rewrite prop_objSet, prop_setProp. destruct (decide (r = r)); [|congruence].
    destruct (decide ("__skipEmit" = "type")); [discriminate|]. rewrite Hd.
    destruct (decide ("__skipEmit" = "__skipEmit")); [reflexivity | congruence]. }
  rewrite Hs. reflexivity.
Qed.

(** No run of the client ever sends [canvas:clear]. *)
Lemma canvas_clear_is_never_sent rng acts :
  Forall (fun e => fst e <> "canvas:clear") (outbox (run rng boot acts)).
Proof.
  destruct (Inv_run rng acts boot Inv_boot) as [_ Hsent].
  eapply Forall_impl; [exact Hsent|]. intros [ev p] [_ Hev] E.
  simpl in *. subst ev. discriminate Hev.
Qed.

(** A mouse-up over a degenerate shape does nothing but forget the shape:
    what a mouse-move has put on the canvas stays there. *)
Lemma mouse_up_degenerate rng test w r :
  shape w = Some r -> test w r = false ->
  handleMouseUp rng test w = with_shape None w.
Proof. unfold handleMouseUp. intros -> ->. reflexivity. Qed.

(** * The claims *)

Section Claims.

Variable rng : nat -> list Z.

(** C7. A [canvas:clear] from the relay leaves the local store empty,
    whatever it held and whatever the identities of its objects were: the
    store with K > 0 objects is the case at hand, the empty one is covered
    too. *)
Theorem remote_clear_empties_the_store (w : World) :
  objects (socket_on_canvas_clear w) = []
  /\ length (objects (step rng w RemoteClear)) = 0.
Proof.
  split.
  - apply objects_canvas_clear.
  - simpl. unfold socket_on_canvas_clear. rewrite objects_canvas_clear. reflexivity.
Qed.

(** C8. An [object:modified] or [object:removed] from the relay whose
    identity is the identity of no object on the canvas changes nothing at
    all, and its listener runs to its end: the whole client state after
    the event is the state before it. *)
Theorem unknown_identity_is_dropped (objectData : Props) (w : World)
    (Hunknown : Forall (fun r => strict_eq (prop w r "id") (objectData !! "id") = false)
                  (objects w)) :
  outcome rng w (RemoteModified objectData) = Done w
  /\ outcome rng w (RemoteRemoved objectData) = Done w.
Proof.
  apply findById_None in Hunknown.
  split; simpl.
  - unfold socket_on_object_modified. rewrite Hunknown. reflexivity.
  - unfold socket_on_object_removed. rewrite Hunknown. reflexivity.
Qed.



(** C5.  For a non-empty identity [i]: applying the same [object:added]
    event a second time changes nothing; when the store held no object with
    that identity and the snapshot can be instantiated, it holds exactly one
    after the two applications; when it held one already, the two
    applications leave the state as it was.  In particular the client's own
    serialisation of an object of its store, delivered back to it, inserts
    nothing. *)
Theorem added_is_idempotent (w : World) (i : string) (Hi : i <> "") :
  (forall d, d !! "id" = Some (JStr i) ->
     let w1 := socket_on_object_added rng d w in
     let w2 := socket_on_object_added rng d w1 in
     w2 = w1
     /\ (is_Some (enlivenObject d) -> countId w (Some (JStr i)) = 0 ->
         countId w2 (Some (JStr i)) = 1)
     /\ (0 < countId w (Some (JStr i)) -> w2 = w))
  /\ (forall r, r ∈ objects w -> prop w r "id" = Some (JStr i) ->
        socket_on_object_added rng (toJSON ["id"] (getObj w r)) w = w).
Proof.
  split.
  - intros d Hd w1 w2.
    assert (Hcases :
      w1 = w \/ exists o, enlivenObject d = Some o
                       /\ findById w (Some (JStr i)) = None
                       /\ w1 = place (newRef w) (marked o) w).
    { unfold w1, socket_on_object_added.
      destruct (enlivenObject d) as [o|] eqn:Eo; [|left; reflexivity].
      rewrite (enlivenObject_id d o Eo), Hd.
      destruct (findById w (Some (JStr i))) eqn:Ef; [left; reflexivity|].
      right. exists o. repeat split.
      apply addSkipEmit_spec. rewrite (enlivenObject_id d o Eo), Hd.
      apply truthy_JStr, Hi. }
    assert (Hsame : w2 = w1).
    { destruct Hcases as [Hw | (o & Eo & Ef & Hw)].
      - unfold w2. rewrite Hw. exact Hw.
      - unfold w2, socket_on_object_added. rewrite Eo.
        rewrite (enlivenObject_id d o Eo), Hd.
        destruct (findById_is_Some w1 (Some (JStr i)) (newRef w)) as [x ->];
          [| |reflexivity].
        + rewrite Hw, objects_place. apply elem_of_app. right.
          apply list_elem_of_singleton. reflexivity.
        + rewrite Hw, prop_place. destruct (decide (newRef w = newRef w)); [|congruence].
          unfold marked. cbn [own]. rewrite !lookup_insert_ne by discriminate.
          rewrite (enlivenObject_id d o Eo), Hd. apply strict_eq_JStr_refl. }
    repeat split.
    + exact Hsame.
    + intros [o Eo] Hzero. rewrite Hsame.
      destruct Hcases as [Hw | (o' & Eo' & Ef & Hw)].
      * exfalso. apply countId_zero in Hzero. revert Hw.
        unfold w1, socket_on_object_added. rewrite Eo.
        rewrite (enlivenObject_id d o Eo), Hd, Hzero.
        rewrite addSkipEmit_spec
          by (rewrite (enlivenObject_id d o Eo), Hd; apply truthy_JStr, Hi).
        intros Hw. apply (f_equal objects) in Hw. rewrite objects_place in Hw.
        apply (f_equal length) in Hw. rewrite length_app in Hw. simpl in Hw. lia.
      * rewrite Hw, countId_place by apply newRef_objects. rewrite Hzero.
        unfold marked. cbn [own]. rewrite !lookup_insert_ne by discriminate.
        rewrite (enlivenObject_id d o' Eo'), Hd, strict_eq_JStr_refl. reflexivity.
    + intros Hpos. rewrite Hsame.
      destruct Hcases as [Hw | (o & Eo & Ef & Hw)]; [exact Hw|].
      exfalso. revert Hpos Ef. unfold countId, findById.
      induction (objects w) as [|r l IH]; simpl; [lia|].
      destruct (strict_eq (prop w r "id") (Some (JStr i))); simpl; [discriminate|].
      exact IH.
  - intros r Hin Hr. unfold socket_on_object_added.
    destruct (enlivenObject _) as [o|] eqn:Eo; [|reflexivity].
    rewrite (enlivenObject_id _ o Eo), toJSON_id.
    change (own (getObj w r) !! "id") with (prop w r "id"). rewrite Hr.
    destruct (findById_is_Some w (Some (JStr i)) r Hin) as [x ->]; [|reflexivity].
    rewrite Hr. apply strict_eq_JStr_refl.
Qed.

(** C6.  Let an [object:sync] payload carry N snapshots, each of which
    Fabric can instantiate and each of which carries an identity.  Applied
    over any state, the listener runs to its end and the canvas then holds
    exactly N objects, pairwise distinct, in the payload's order: the k-th
    is the instance of the k-th snapshot (with the [__skipEmit] marker and
    the canvas back-pointer) and nothing of the prior store is left. *)
Theorem sync_replaces_the_store (payload : list Props) (w : World)
    (Hinst : Forall (fun d => is_Some (enlivenObject d)) payload)
    (Hids : Forall (fun d => truthy (d !! "id") = true) payload) :
  exists w',
    socket_on_object_sync rng payload w = Done w'
    /\ length (objects w') = length payload
    /\ NoDup (objects w')
    /\ Forall2 (fun r d => exists o, enlivenObject d = Some o
                                   /\ heap w' !! r = Some (marked o))
         (objects w') payload.
Proof.
  unfold socket_on_object_sync, enlivenObjects.
  apply mapM_is_Some in Hinst as [objs Hobjs].
  rewrite Hobjs. apply mapM_Some in Hobjs.
  assert (Forall hasId objs) as Hok.
  { clear -Hobjs Hids. induction Hobjs as [|d o l k Hd _ IH]; [constructor|].
    apply Forall_cons in Hids as [Hi Hids]. constructor; [|apply IH; exact Hids].
    unfold hasId. rewrite (enlivenObject_id d o Hd). exact Hi. }
  destruct (fold_addSkipEmit rng objs (canvas_clear w) Hok) as (rs & Hobj & Hall & _ & Hnd & _).
  rewrite objects_canvas_clear in Hobj. simpl in Hobj.
  eexists. split; [reflexivity|]. rewrite Hobj. repeat split.
  - apply Forall2_length in Hall. apply Forall2_length in Hobjs. congruence.
  - exact Hnd.
  - eapply Forall2_through; eassumption.
Qed.

(** The part of C9 that holds.  The listener of the canvas's
    [object:added] leaves its target with an identity: a target that had
    none receives a version-4 UUID, which is a non-empty string, before
    anything is emitted, and the payload emitted, if one is, carries the
    identity the target now has. *)
Lemma on_added_assigns_identity_first (w : World) (r : nat) :
  let w' := canvas_on_object_added rng (Some r) w in
  truthy (prop w' r "id") = true
  /\ (truthy (prop w r "id") = false ->
      prop w' r "id" = Some (JStr (uuidv4 (rng (uuidCalls w))))
      /\ uuidv4 (rng (uuidCalls w)) <> "")
  /\ (outbox w' = outbox w
      \/ exists payload,
           outbox w' = outbox w ++ [("object:added", payload)]
           /\ payload !! "id" = prop w' r "id").
Proof.
  intros w'. split; [apply on_added_identifies|]. split.
  - intros Hno. split; [|apply uuidv4_nonempty].
    unfold w', canvas_on_object_added, generateId. rewrite Hno.
    match goal with |- context [if ?b then _ else _] => destruct b end;
      [|change (prop (emit ?e ?p ?x) r "id") with (prop x r "id")];
      rewrite prop_setProp;
      destruct (decide (r = r)); try congruence;
      destruct (decide ("id" = "id")); congruence.
  - unfold w', canvas_on_object_added.
    match goal with |- context [if truthy (prop ?x r "__skipEmit") then _ else _] =>
      destruct (truthy (prop x r "__skipEmit")); [left|right] end.
    + destruct (truthy (prop w r "id")); reflexivity.
    + eexists. split.
      * unfold emit. simpl. f_equal.
        destruct (truthy (prop w r "id")); reflexivity.
      * rewrite toJSON_id. reflexivity.
Qed.

End Claims.

(** * The claims on sample runs *)

(** C1, on the code.  The relay announces the rectangle r1 and then a
    modification of it.  The user drags r1: the drag takes place on the
    local canvas, and nothing is sent.  The same holds for a rectangle the
    user drew: dragged before any event of the relay, it is sent as
    [object:modified]; dragged after one [object:modified] from the relay,
    it is not.  The marker the Remote Apply Engine leaves on the object is
    never taken off, so it silences every later local change too. *)
Theorem local_edit_after_remote_modified_is_not_sent :
  let before := run entropy boot [RemoteAdded rect_r1; RemoteModified moved_r1] in
  let after := step entropy before (Transform 1 dragTo5) in
  let drawn :=
    run entropy boot
      [ToolClick rectangle; MouseDown 10 10; MouseMove 50 40; MouseUp;
       ToolClick select] in
  (findById before (Some (JStr "r1")) = Some 1
   /\ prop before 1 "left" = Some (JNum 40)
   /\ prop after 1 "left" = Some (JNum 5)
   /\ outbox before = []
   /\ outbox after = [])
  /\ (map fst (outbox (step entropy drawn (Transform 1 dragTo5)))
      = map fst (outbox drawn) ++ ["object:modified"]
      /\ map fst (outbox (run entropy drawn
                              [RemoteModified moved_own; Transform 1 dragTo5]))
         = map fst (outbox drawn)).
Proof. cbv zeta. repeat apply conj; vm_compute; exact eq_refl. Qed.

(** C2, on the code.  The store holds a stroke the user drew and the
    rectangle r1 the relay announced.  The user selects the clear tool:
    the store is emptied, the stroke is reported as [object:removed], the
    rectangle is reported not at all, and no [canvas:clear] is sent. *)
Theorem clear_tool_sends_no_clear_event :
  let before :=
    run entropy boot [ToolClick draw; Stroke "M 0 0 L 5 5"; RemoteAdded rect_r1] in
  let after := step entropy before (ToolClick clear) in
  objects before = [1; 2]
  /\ objects after = []
  /\ map fst (outbox before) = ["object:added"]
  /\ map fst (outbox after) = ["object:added"; "object:removed"]
  /\ List.filter (fun e => String.eqb (fst e) "canvas:clear") (outbox after) = [].
Proof. cbv zeta. repeat apply conj; vm_compute; exact eq_refl. Qed.


(** C9, on the code.  The user draws two strokes with the pencil, goes
    back to the select tool, selects both strokes and drags the selection
    to (5, 5).  Both strokes were given an identity before their
    [object:added] went out; the drag fires [object:modified] with
    Fabric's [ActiveSelection] as target, which nothing has given an [id],
    and the listener sends its serialisation as it is: the third message
    of the outbox carries no identity. *)
Theorem selection_drag_is_sent_without_identity :
  let after := step entropy two_strokes (TransformSelection [1; 2] dragTo5) in
  objects two_strokes = [1; 2]
  /\ canSelectMany two_strokes [1; 2] = true
  /\ map fst (outbox two_strokes) = ["object:added"; "object:added"]
  /\ map (fun e => truthy (snd e !! "id")) (outbox two_strokes) = [true; true]
  /\ objects after = [1; 2]
  /\ map fst (outbox after) = ["object:added"; "object:added"; "object:modified"]
  /\ map (fun e => truthy (snd e !! "id")) (outbox after) = [true; true; false]
  /\ ~ Forall carriesId (outbox after).
Proof.
  cbv zeta.
  assert (E : map (fun e => truthy (snd e !! "id"))
                (outbox (step entropy two_strokes (TransformSelection [1; 2] dragTo5)))
              = [true; true; false]) by (vm_compute; exact eq_refl).
  repeat apply conj; try (vm_compute; exact eq_refl).
  intros H. unfold carriesId in H.
  apply (proj2 (List.Forall_map (fun e : string * Props => truthy (snd e !! "id"))
                  (fun b => b = true) _)) in H.
  rewrite E in H.
  apply List.Forall_inv_tail, List.Forall_inv_tail, List.Forall_inv in H.
  discriminate H.
Qed.

(** C4, on the code.  The component mounts and unmounts.  The effect
    gave React no cleanup, so the unmount runs none: the connection is
    still open and all eight listeners are still registered.  The closure
    [init] returns would, if it were run, close the connection and release
    the window's listeners, but leave [connect] and [canvas:clear] on the
    socket. *)
Theorem unmount_releases_nothing :
  let mounted := Lifecycle.initEffect Lifecycle.fresh in
  let gone := Lifecycle.unmount mounted in
  snd mounted = None
  /\ Lifecycle.connected gone = true
  /\ Lifecycle.socketListeners gone
     = ["connect"; "object:added"; "object:modified"; "object:removed";
        "canvas:clear"; "object:sync"]
  /\ Lifecycle.windowListeners gone = ["resize"; "keydown"]
  /\ Lifecycle.socketListeners (Lifecycle.teardown (fst mounted))
     = ["connect"; "canvas:clear"].
Proof. cbv zeta. repeat apply conj; vm_compute; exact eq_refl. Qed.

(** C10, on the code.  With the rectangle tool the user presses at
    (10, 10), moves to (50, 10) and releases: the rectangle of height 0
    is on the canvas and was sent as [object:added].  Likewise a line
    drawn out and back to its start, and an ellipse of x-radius 0.  The
    first mouse-move adds the shape; the mouse-up of a degenerate shape
    does not take it off again. *)
Theorem degenerate_shape_stays_on_canvas :
  let r := run entropy boot
             [ToolClick rectangle; MouseDown 10 10; MouseMove 50 10; MouseUp] in
  let l := run entropy boot
             [ToolClick line; MouseDown 10 10; MouseMove 50 40; MouseMove 10 10;
              MouseUp] in
  let e := run entropy boot
             [ToolClick ellipse; MouseDown 10 10; MouseMove 10 40; MouseUp] in
  (objects r = [1] /\ prop r 1 "width" = Some (JNum 40)
   /\ prop r 1 "height" = Some (JNum 0)
   /\ map fst (outbox r) = ["object:added"])
  /\ (objects l = [1] /\ prop l 1 "x2" = prop l 1 "x1"
      /\ prop l 1 "y2" = prop l 1 "y1"
      /\ map fst (outbox l) = ["object:added"])
  /\ (objects e = [1] /\ prop e 1 "rx" = Some (JNum 0)
      /\ map fst (outbox e) = ["object:added"]).
Proof. cbv zeta. repeat apply conj; vm_compute; exact eq_refl. Qed.

(** ** The hypotheses of the general statements are met *)

Lemma unknown_identity_is_dropped_witness :
  Forall (fun r => strict_eq (prop with_r1 r "id") (gone_r9 !! "id") = false)
    (objects with_r1)
  /\ outcome entropy with_r1 (RemoteModified gone_r9) = Done with_r1
  /\ outcome entropy with_r1 (RemoteRemoved gone_r9) = Done with_r1.
Proof.
  assert (H : Forall (fun r => strict_eq (prop with_r1 r "id") (gone_r9 !! "id") = false)
                (objects with_r1)).
  { change (objects with_r1) with [1].
    apply List.Forall_cons; [vm_compute; exact eq_refl | apply List.Forall_nil]. }
  split; [exact H|].
  exact (unknown_identity_is_dropped entropy gone_r9 with_r1 H).
Defined.


Lemma added_is_idempotent_witness :
  "r1" <> ""
  /\ socket_on_object_added entropy rect_r1 (socket_on_object_added entropy rect_r1 boot)
     = socket_on_object_added entropy rect_r1 boot
  /\ countId (socket_on_object_added entropy rect_r1
                (socket_on_object_added entropy rect_r1 boot)) (Some (JStr "r1")) = 1.
Proof.
  assert (H : "r1" <> "") by discriminate.
  split; [exact H|].
  destruct (added_is_idempotent entropy boot "r1" H) as [Hd _].
  destruct (Hd rect_r1 ltac:(vm_compute; exact eq_refl)) as (Hsame & Hone & _).
  split; [exact Hsame|].
  apply Hone; [eexists; vm_compute; reflexivity | vm_compute; exact eq_refl].
Defined.

Lemma sync_replaces_the_store_witness :
  (Forall (fun d => is_Some (enlivenObject d)) [rect_r1; line_l1]
   /\ Forall (fun d => truthy (d !! "id") = true) [rect_r1; line_l1])
  /\ exists w',
       socket_on_object_sync entropy [rect_r1; line_l1] sketch = Done w'
       /\ length (objects w') = 2.
Proof.
  assert (H1 : Forall (fun d => is_Some (enlivenObject d)) [rect_r1; line_l1]).
  { repeat (apply List.Forall_cons); try apply List.Forall_nil;
      eexists; vm_compute; reflexivity. }
  assert (H2 : Forall (fun d => truthy (d !! "id") = true) [rect_r1; line_l1]).
  { repeat (apply List.Forall_cons); try apply List.Forall_nil;
      vm_compute; exact eq_refl. }
  split; [split; assumption|].
  destruct (sync_replaces_the_store entropy [rect_r1; line_l1] sketch H1 H2)
    as (w' & Hdone & Hlen & _).
  exists w'. split; [exact Hdone | exact Hlen].
Defined.

(** * Further properties of the code *)

(** ** What a serialisation leaves out *)

Lemma inList_classProperties k c :
  inList k (baseProperties ++ classProperties c) = 
  inList k baseProperties || inList k (classProperties c).
Proof. unfold inList. apply existsb_app. Qed.

Lemma transient_not_serialised k c :
  transient k -> inList k ((["id"] ++ ["id"]) ++ baseProperties ++ classProperties c) = false.
Proof.
  intros [-> | [-> | ->]]; unfold classProperties;
    repeat match goal with |- context [if ?b then _ else _] => destruct b end;
    reflexivity.
Qed.

Lemma toJSON_transient o k : transient k -> toJSON ["id"] o !! k = None.
Proof.
  intros Hk. unfold toJSON, toObject; cbv zeta.
  rewrite lookup_insert_ne by (destruct Hk as [-> | [-> | ->]]; discriminate).
  apply map_lookup_filter_None. right. intros v _. cbn [fst].
  rewrite (transient_not_serialised k (klass o) Hk). discriminate.
Qed.

(** Two objects of one class that agree on every serialised key have one
    serialisation. *)
Lemma toJSON_ext o o' :
  klass o = klass o' ->
  (forall k, ~ transient k -> own o !! k = own o' !! k) ->
  toJSON ["id"] o = toJSON ["id"] o'.
Proof.
  intros Hk H. unfold toJSON, toObject; cbv zeta. rewrite Hk. f_equal.
  apply map_eq. intros k.
  destruct (inList k ((["id"] ++ ["id"]) ++ baseProperties ++ classProperties (klass o')))
    eqn:E.
  - assert (~ transient k) as Hn.
    { intros Ht. rewrite (transient_not_serialised k _ Ht) in E. discriminate. }
    specialize (H k Hn).
    destruct (own o !! k) as [v|] eqn:Ev.
    + transitivity (Some v).
      * apply map_lookup_filter_Some. split; [exact Ev | exact E].
      * symmetry. apply map_lookup_filter_Some. split; [congruence | exact E].
    + transitivity (@None JsVal).
      * apply map_lookup_filter_None. left. exact Ev.
      * symmetry. apply map_lookup_filter_None. left. congruence.
  - transitivity (@None JsVal).
    + apply map_lookup_filter_None. right. intros v _. cbn [fst]. rewrite E. discriminate.
    + symmetry. apply map_lookup_filter_None. right. intros v _. cbn [fst]. rewrite E. discriminate.
Qed.

(** A serialised key other than [type] is read off the object. *)
Lemma toJSON_base o k :
  inList k baseProperties = true -> toJSON ["id"] o !! k = own o !! k.
Proof.
  intros Hk. unfold toJSON, toObject; cbv zeta.
  assert (k <> "type") as Hne by (intros ->; discriminate Hk).
  rewrite lookup_insert_ne by congruence.
  assert (E : inList k ((["id"] ++ ["id"]) ++ baseProperties ++ classProperties (klass o)) = true).
  { unfold inList in *. rewrite !existsb_app, Hk. simpl. 
    destruct (String.eqb k "id"); reflexivity. }
  destruct (own o !! k) as [v|] eqn:Ev.
  - apply map_lookup_filter_Some. split; [exact Ev | exact E].
  - apply map_lookup_filter_None. left. exact Ev.
Qed.

Lemma sentMore_refl w w' : outbox w' = outbox w -> sentMore w w'.
Proof. intros H. exists []. rewrite app_nil_r. split; [exact H | constructor]. Qed.

Lemma sentMore_trans w1 w2 w3 : sentMore w1 w2 -> sentMore w2 w3 -> sentMore w1 w3.
Proof.
  intros (e1 & H1 & F1) (e2 & H2 & F2). exists (e1 ++ e2). split.
  - rewrite H2, H1, app_assoc. reflexivity.
  - apply Forall_app. split; assumption.
Qed.

Lemma sentMore_emit ev o w :
  isSyncEvent ev = true -> sentMore w (emit ev (toJSON ["id"] o) w).
Proof.
  intros Hev. exists [(ev, toJSON ["id"] o)]. split; [reflexivity|].
  constructor; [|constructor]. split; [exact Hev | eexists; reflexivity].
Qed.

Ltac active_cases :=
  simpl;
  repeat match goal with
  | |- context [match activeObject ?w with _ => _ end] => destruct (activeObject w)
  | |- context [if Nat.eqb ?a ?b then _ else _] => destruct (Nat.eqb a b)
  end;
  reflexivity.

Section WireFacts.

Variable rng : nat -> list Z.

(** The outbox after the listener of [object:added]. *)
Lemma outbox_on_added r w :
  outbox (canvas_on_object_added rng (Some r) w) =
  outbox w ++
  (if truthy (prop (canvas_on_object_added rng (Some r) w) r "__skipEmit") then []
   else [("object:added",
          toJSON ["id"] (getObj (canvas_on_object_added rng (Some r) w) r))]).
Proof.
  unfold canvas_on_object_added, generateId.
  destruct (truthy (prop w r "id")).
  - destruct (truthy (prop w r "__skipEmit")) eqn:E.
    + rewrite E, app_nil_r. reflexivity.
    + change (prop (emit ?e ?p ?x) r "__skipEmit") with (prop x r "__skipEmit").
      rewrite E. reflexivity.
  - match goal with |- context [if truthy (prop ?x r "__skipEmit") then _ else _] =>
      destruct (truthy (prop x r "__skipEmit")) eqn:E end.
    + rewrite E, app_nil_r. reflexivity.
    + change (prop (emit ?e ?p ?x) r "__skipEmit") with (prop x r "__skipEmit").
      rewrite E. reflexivity.
Qed.

(** The listener writes the identity of its target and nothing else. *)
Lemma prop_on_added r w r' k :
  (r' <> r \/ k <> "id") ->
  prop (canvas_on_object_added rng (Some r) w) r' k = prop w r' k.
Proof.
  intros Hk. unfold canvas_on_object_added, generateId.
  destruct (truthy (prop w r "id"));
    match goal with |- context [if ?b then _ else _] => destruct b end;
    try reflexivity;
    try change (prop (emit ?e ?p ?y) r' k) with (prop y r' k);
    rewrite ?prop_setProp;
    try (destruct (decide (r = r')) as [->|]; [|reflexivity];
         destruct (decide ("id" = k)) as [<-|]; [|reflexivity];
         destruct Hk; congruence);
    reflexivity.
Qed.

Lemma klass_on_added r w r' :
  klass (getObj (canvas_on_object_added rng (Some r) w) r') = klass (getObj w r').
Proof.
  unfold canvas_on_object_added, generateId.
  destruct (truthy (prop w r "id"));
    match goal with |- context [if ?b then _ else _] => destruct b end;
    try reflexivity;
    try change (getObj (emit ?e ?p ?y) r') with (getObj y r');
    unfold setProp; rewrite getObj_updObj;
    destruct (decide (r = r')) as [->|]; reflexivity.
Qed.

Lemma prop_canvas_add r w r' k :
  (r' <> r \/ (k <> "id" /\ k <> "canvas")) ->
  prop (canvas_add rng r w) r' k = prop w r' k.
Proof.
  intros Hk. unfold canvas_add.
  rewrite prop_on_added by (destruct Hk as [H | [H _]]; [left | right]; exact H).
  rewrite prop_setProp.
  destruct (decide (r = r')) as [->|]; [|reflexivity].
  destruct (decide ("canvas" = k)) as [<-|]; [|reflexivity].
  destruct Hk as [H | [_ H]]; congruence.
Qed.

Lemma prop_canvas_add_canvas r w :
  prop (canvas_add rng r w) r "canvas" = Some JCanvas.
Proof.
  unfold canvas_add. rewrite prop_on_added by (right; discriminate).
  rewrite prop_setProp. destruct (decide (r = r)); [|congruence].
  destruct (decide ("canvas" = "canvas")); [reflexivity | congruence].
Qed.

Lemma klass_canvas_add r w r' :
  klass (getObj (canvas_add rng r w) r') = klass (getObj w r').
Proof.
  unfold canvas_add. rewrite klass_on_added. unfold setProp.
  rewrite getObj_updObj. destruct (decide (r = r')) as [->|]; reflexivity.
Qed.

(** [canvas.add] sends one [object:added] for an object without the
    marker, nothing for an object with it. *)
Lemma outbox_canvas_add r w :
  outbox (canvas_add rng r w) =
  outbox w ++
  (if truthy (prop w r "__skipEmit") then []
   else [("object:added", toJSON ["id"] (getObj (canvas_add rng r w) r))]).
Proof.
  unfold canvas_add at 1. rewrite outbox_on_added.
  fold (canvas_add rng r w).
  rewrite (prop_canvas_add r w r "__skipEmit") by (right; split; discriminate).
  reflexivity.
Qed.

Lemma spliceFirst_is_Some r l : r ∈ l -> is_Some (spliceFirst r l).
Proof.
  induction l as [|x l IH]; intros H.
  - apply elem_of_nil in H. destruct H.
  - simpl. destruct (Nat.eqb x r) eqn:E; [eexists; reflexivity|].
    apply elem_of_cons in H as [->|H]; [rewrite Nat.eqb_refl in E; discriminate|].
    destruct (IH H) as [l' ->]. eexists. reflexivity.
Qed.

(** What [canvas.remove] leaves of the state. *)
Lemma prop_canvas_remove r w r' k :
  k <> "canvas" -> prop (canvas_remove r w) r' k = prop w r' k.
Proof.
  intros Hk. unfold canvas_remove.
  destruct (spliceFirst r (objects w)); [|reflexivity].
  unfold canvas_on_object_removed.
  match goal with |- context [if ?b then _ else _] => destruct b end;
    try change (prop (emit ?e ?p ?y) r' k) with (prop y r' k);
    rewrite prop_delProp;
    (destruct (decide (r = r')) as [->|];
       [destruct (decide ("canvas" = k)); [congruence|]|]);
    active_cases.
Qed.

Lemma klass_canvas_remove r w r' :
  klass (getObj (canvas_remove r w) r') = klass (getObj w r').
Proof.
  unfold canvas_remove.
  destruct (spliceFirst r (objects w)); [|reflexivity].
  unfold canvas_on_object_removed.
  match goal with |- context [if ?b then _ else _] => destruct b end;
    try change (getObj (emit ?e ?p ?y) r') with (getObj y r');
    unfold delProp; rewrite getObj_updObj;
    (destruct (decide (r = r')) as [->|]);
    active_cases.
Qed.

(** [canvas.remove] of an object of the canvas sends one [object:removed]
    when the object has no marker, nothing when it has. *)
Lemma outbox_canvas_remove r w :
  r ∈ objects w ->
  outbox (canvas_remove r w) =
  outbox w ++
  (if truthy (prop w r "__skipEmit") then []
   else [("object:removed", toJSON ["id"] (getObj w r))]).
Proof.
  intros Hin. unfold canvas_remove.
  destruct (spliceFirst_is_Some r (objects w) Hin) as [l ->].
  unfold canvas_on_object_removed.
  set (w2 := match activeObject (with_objects l w) with
             | Some a => if Nat.eqb a r then with_activeObject None (with_objects l w)
                         else with_objects l w
             | None => with_objects l w
             end).
  assert (Hh : heap w2 = heap w /\ outbox w2 = outbox w).
  { unfold w2. simpl. destruct (activeObject w) as [a|]; [destruct (Nat.eqb a r)|];
      split; reflexivity. }
  destruct Hh as [Hh Ho].
  assert (Hp : prop (delProp r "canvas" w2) r "__skipEmit" = prop w r "__skipEmit").
  { rewrite prop_delProp. destruct (decide (r = r)); [|congruence].
    destruct (decide ("canvas" = "__skipEmit")); [discriminate|].
    unfold prop, getObj. rewrite Hh. reflexivity. }
  rewrite Hp. destruct (truthy (prop w r "__skipEmit")).
  - rewrite app_nil_r. exact Ho.
  - unfold emit. simpl. rewrite Ho. do 3 f_equal.
    apply toJSON_ext.
    + unfold delProp. rewrite getObj_updObj. destruct (decide (r = r)); [|congruence].
      simpl. unfold getObj. rewrite Hh. reflexivity.
    + intros k Hk. unfold delProp. rewrite getObj_updObj.
      destruct (decide (r = r)); [|congruence]. simpl.
      rewrite lookup_delete_ne.
      * unfold getObj. rewrite Hh. reflexivity.
      * intros <-. apply Hk. right. left. reflexivity.
Qed.

Lemma outbox_canvas_remove_absent r w :
  r ∉ objects w -> canvas_remove r w = w.
Proof.
  intros Hn. unfold canvas_remove.
  destruct (spliceFirst r (objects w)) as [l|] eqn:E; [|reflexivity].
  exfalso. apply Hn. eapply spliceFirst_In. exact E.
Qed.
End WireFacts.

Section SendsFacts.

Variable rng : nat -> list Z.

Lemma outbox_addSkipEmit w o : outbox (addSkipEmit rng w o) = outbox w.
Proof.
  unfold addSkipEmit, alloc. rewrite outbox_canvas_add.
  rewrite prop_setProp. destruct (decide (newRef w = newRef w)); [|congruence].
  destruct (decide ("__skipEmit" = "__skipEmit")); [|congruence].
  simpl. apply app_nil_r.
Qed.

Lemma outbox_fold_addSkipEmit objs : forall w,
  outbox (fold_left (addSkipEmit rng) objs w) = outbox w.
Proof.
  induction objs as [|o objs IH]; intros w; cbn [fold_left]; [reflexivity|].
  rewrite IH. apply outbox_addSkipEmit.
Qed.

(** What the three listeners of object events leave in the outbox. *)
Lemma outbox_remote_event (objectData : Props) (w : World) :
  outbox (socket_on_object_added rng objectData w) = outbox w
  /\ outbox (socket_on_object_modified objectData w) = outbox w
  /\ outbox (socket_on_object_removed objectData w) = outbox w.
Proof.
  repeat apply conj.
  - unfold socket_on_object_added.
    destruct (enlivenObject objectData) as [o|]; [|reflexivity].
    destruct (findById w (own o !! "id")); [reflexivity | apply outbox_addSkipEmit].
  - unfold socket_on_object_modified.
    destruct (findById w (objectData !! "id")); reflexivity.
  - unfold socket_on_object_removed.
    destruct (findById w (objectData !! "id")) as [r|] eqn:E; [|reflexivity].
    apply findById_Some in E as [Hin _].
    rewrite outbox_canvas_remove by exact Hin.
    rewrite prop_setProp. destruct (decide (r = r)); [|congruence].
    destruct (decide ("__skipEmit" = "__skipEmit")); [|congruence].
    simpl. apply app_nil_r.
Qed.

(** X1.  Echo suppression.  Applying an [object:added], an
    [object:modified] or an [object:removed] of the relay sends nothing,
    whatever the payload and whatever the state. *)
Theorem remote_events_send_nothing (objectData : Props) (w : World) :
  outbox (socket_on_object_added rng objectData w) = outbox w
  /\ outbox (socket_on_object_modified objectData w) = outbox w
  /\ outbox (socket_on_object_removed objectData w) = outbox w.
Proof. apply outbox_remote_event. Qed.

Lemma remove_each_outbox w0 l : forall acc,
  objects acc = l ->
  (forall r, klass (getObj acc r) = klass (getObj w0 r)) ->
  (forall r k, k <> "canvas" -> prop acc r k = prop w0 r k) ->
  outbox (fold_left (fun a r => canvas_remove r a) l acc)
  = outbox acc ++ flat_map (removalReport w0) l.
Proof.
  induction l as [|x l IH]; intros acc Hobj Hk Hp; cbn [fold_left flat_map].
  - rewrite app_nil_r. reflexivity.
  - rewrite IH.
    + rewrite outbox_canvas_remove
        by (rewrite Hobj; apply elem_of_cons; left; reflexivity).
      rewrite <- app_assoc. do 2 f_equal. unfold removalReport.
      rewrite (Hp x "__skipEmit") by discriminate.
      destruct (truthy (prop w0 x "__skipEmit")); [reflexivity|].
      do 2 f_equal. apply toJSON_ext; [apply Hk|].
      intros k Hn. apply (Hp x k). intros ->. apply Hn. right. left. reflexivity.
    + rewrite objects_canvas_remove, Hobj, spliceFirst_head. reflexivity.
    + intros r. rewrite klass_canvas_remove. apply Hk.
    + intros r k Hne. rewrite prop_canvas_remove by exact Hne. apply Hp, Hne.
Qed.

Lemma outbox_canvas_clear w :
  outbox (canvas_clear w) = outbox w ++ flat_map (removalReport w) (objects w).
Proof.
  unfold canvas_clear.
  rewrite (remove_each_outbox w (objects w)); reflexivity.
Qed.

(** X2.  A [canvas:clear] of the relay, and an [object:sync] whose
    snapshots all instantiate, make the client send one [object:removed]
    for each object of its canvas that has no marker, in the order of the
    canvas, and nothing else: [clear()] removes through [remove()], and the
    listener of [object:removed] finds no marker on the user's own
    objects. *)
Theorem clear_and_sync_report_unmarked_objects (w : World) :
  outbox (socket_on_canvas_clear w)
  = outbox w ++ flat_map (removalReport w) (objects w)
  /\ (forall payload,
        is_Some (enlivenObjects payload) ->
        outbox (world_of (socket_on_object_sync rng payload w))
        = outbox w ++ flat_map (removalReport w) (objects w)).
Proof.
  split; [apply outbox_canvas_clear|].
  intros payload [objs Hobjs]. unfold socket_on_object_sync. rewrite Hobjs. simpl.
  rewrite outbox_fold_addSkipEmit. apply outbox_canvas_clear.
Qed.

(** ** The outbox only grows, by wire events *)

Lemma sentMore_canvas_add r w : sentMore w (canvas_add rng r w).
Proof.
  exists (if truthy (prop w r "__skipEmit") then []
          else [("object:added", toJSON ["id"] (getObj (canvas_add rng r w) r))]).
  split; [apply outbox_canvas_add|].
  destruct (truthy (prop w r "__skipEmit")); constructor; [|constructor].
  split; [reflexivity | eexists; reflexivity].
Qed.

Lemma sentMore_canvas_remove r w : sentMore w (canvas_remove r w).
Proof.
  destruct (decide (r ∈ objects w)) as [Hin|Hn].
  - exists (removalReport w r). split; [apply outbox_canvas_remove, Hin|].
    unfold removalReport.
    destruct (truthy (prop w r "__skipEmit")); constructor; [|constructor].
    split; [reflexivity | eexists; reflexivity].
  - rewrite outbox_canvas_remove_absent by exact Hn. apply sentMore_refl. reflexivity.
Qed.

Lemma sentMore_canvas_clear w : sentMore w (canvas_clear w).
Proof.
  exists (flat_map (removalReport w) (objects w)). split; [apply outbox_canvas_clear|].
  induction (objects w) as [|x l IH]; simpl; [constructor|].
  apply Forall_app. split; [|exact IH]. unfold removalReport.
  destruct (truthy (prop w x "__skipEmit")); constructor; [|constructor].
  split; [reflexivity | eexists; reflexivity].
Qed.

Lemma outbox_setSelectable_each b l : forall w,
  outbox (fold_left (fun acc r => setProp r "selectable" (JBool b) acc) l w) = outbox w.
Proof. induction l as [|x l IH]; intros w; simpl; [reflexivity|]. rewrite IH. reflexivity. Qed.

Lemma outbox_cleanup t w : outbox (cleanup t w) = outbox w.
Proof.
  unfold cleanup. destruct (Tool_eqb t select); [reflexivity|].
  unfold setSelectable. rewrite outbox_setSelectable_each. reflexivity.
Qed.

Lemma sentMore_rerunToolEffect w : sentMore w (rerunToolEffect w).
Proof.
  unfold rerunToolEffect.
  set (w1 := match toolCleanup w with Some t => cleanup t w | None => w end).
  assert (H1 : outbox w1 = outbox w).
  { unfold w1. destruct (toolCleanup w); [apply outbox_cleanup | reflexivity]. }
  apply (sentMore_trans _ w1); [apply sentMore_refl; exact H1|].
  unfold toolEffect.
  set (w2 := with_shape None (with_startY 0 (with_startX 0 (cleanup (tool w1) w1)))).
  assert (H2 : outbox w2 = outbox w1) by apply outbox_cleanup.
  apply (sentMore_trans _ w2); [apply sentMore_refl; exact H2|].
  destruct (tool w1).
  - apply sentMore_refl. reflexivity.
  - apply sentMore_refl. unfold setSelectable. simpl.
    rewrite outbox_setSelectable_each. reflexivity.
  - apply sentMore_refl. reflexivity.
  - apply sentMore_refl. reflexivity.
  - apply sentMore_refl. reflexivity.
  - destruct (sentMore_canvas_clear w2) as (evs & He & Hf).
    exists evs. split; [exact He | exact Hf].
Qed.

Lemma sentMore_step a w : sentMore w (step rng w a).
Proof.
  destruct a; simpl.
  - apply sentMore_refl. apply (outbox_remote_event objectData w).
  - apply sentMore_refl. apply (outbox_remote_event objectData w).
  - apply sentMore_refl. apply (outbox_remote_event objectData w).
  - apply sentMore_canvas_clear.
  - unfold socket_on_object_sync.
    destruct (enlivenObjects payload) as [objs|]; [|apply sentMore_refl; reflexivity].
    simpl. apply (sentMore_trans _ (canvas_clear w)); [apply sentMore_canvas_clear|].
    apply sentMore_refl, outbox_fold_addSkipEmit.
  - unfold handleToolClick. destruct (Tool_eqb t (tool w)); [apply sentMore_refl; reflexivity|].
    apply (sentMore_rerunToolEffect (with_tool t w)).
  - unfold handleColorChange.
    destruct (String.eqb c (brushColor w)); [apply sentMore_refl; reflexivity|].
    apply (sentMore_rerunToolEffect (with_brushColor c w)).
  - unfold handleSizeChange.
    destruct (Object_is v (brushSize w)); [apply sentMore_refl; reflexivity|].
    apply (sentMore_rerunToolEffect (with_brushSize v w)).
  - unfold mouse_down, handleMouseDown, alloc.
    destruct (mouseHandlers w) as [[]|]; apply sentMore_refl; reflexivity.
  - unfold mouse_move, handleMouseMove_rectangle, handleMouseMove_line,
      handleMouseMove_ellipse, showTemporary.
    destruct (mouseHandlers w) as [[]|]; try (apply sentMore_refl; reflexivity);
      (destruct (shape w) as [r|]; [|apply sentMore_refl; reflexivity]);
      match goal with |- context [if ?b then _ else _] => destruct b end;
      try (apply sentMore_refl; reflexivity);
      match goal with |- sentMore _ (canvas_add _ _ ?x) =>
        apply (sentMore_trans _ x); [apply sentMore_refl; reflexivity
                                    | apply sentMore_canvas_add] end.
  - unfold mouse_up, handleMouseUp.
    destruct (mouseHandlers w) as [[]|]; try (apply sentMore_refl; reflexivity);
      (destruct (shape w) as [r|]; [|apply sentMore_refl; reflexivity]);
      match goal with |- context [if ?b then _ else _] => destruct b end;
      try (apply sentMore_refl; reflexivity);
      match goal with |- sentMore _ (with_shape None (canvas_add _ _ ?x)) =>
        apply (sentMore_trans _ x);
          [destruct (truthy (prop w r "canvas"));
             [apply sentMore_canvas_remove | apply sentMore_refl; reflexivity]
          | destruct (sentMore_canvas_add r x) as (evs & He & Hf);
            exists evs; split; [exact He | exact Hf]] end.
  - unfold stroke, alloc. destruct (isDrawingMode w); [|apply sentMore_refl; reflexivity].
    match goal with |- sentMore _ (canvas_add _ _ ?x) =>
      apply (sentMore_trans _ x); [apply sentMore_refl; reflexivity
                                  | apply sentMore_canvas_add] end.
  - unfold pick. destruct (canPick w r); apply sentMore_refl; reflexivity.
  - unfold transform. destruct (canPick w r); [|apply sentMore_refl; reflexivity].
    unfold canvas_on_object_modified.
    match goal with |- context [if ?b then _ else _] => destruct b end;
      [apply sentMore_refl; reflexivity|].
    match goal with |- sentMore _ (emit _ _ ?x) =>
      apply (sentMore_trans _ x); [apply sentMore_refl; reflexivity
                                  | apply sentMore_emit; reflexivity] end.
  - unfold transformSelection, alloc.
    destruct (canSelectMany w rs); [|apply sentMore_refl; reflexivity].
    cbv zeta. unfold canvas_on_object_modified.
    match goal with |- context [if ?b then _ else _] => destruct b end;
      [apply sentMore_refl; reflexivity|].
    match goal with |- sentMore _ (emit _ _ ?x) =>
      apply (sentMore_trans _ x); [apply sentMore_refl; reflexivity
                                  | apply sentMore_emit; reflexivity] end.
  - unfold handleKeyDown.
    destruct (String.eqb key "Delete" || String.eqb key "Backspace");
      [|apply sentMore_refl; reflexivity].
    destruct (activeObject w); [apply sentMore_canvas_remove | apply sentMore_refl; reflexivity].
Qed.

(** X3.  The outbox only grows.  A run leaves what was sent in place and
    appends SyncEvents, none of which carries the marker [__skipEmit], the
    back-pointer [canvas] or the flag [selectable]. *)
Theorem outbox_is_append_only (w : World) (acts : list Action) :
  exists evs,
    outbox (run rng w acts) = outbox w ++ evs
    /\ Forall (fun e =>
         isSyncEvent (fst e) = true
         /\ snd e !! "__skipEmit" = None
         /\ snd e !! "canvas" = None
         /\ snd e !! "selectable" = None) evs.
Proof.
  assert (H : sentMore w (run rng w acts)).
  { revert w. induction acts as [|a acts IH]; intros w; simpl.
    - apply sentMore_refl. reflexivity.
    - apply (sentMore_trans _ (step rng w a)); [apply sentMore_step | apply IH]. }
  destruct H as (evs & He & Hf). exists evs. split; [exact He|].
  eapply Forall_impl; [exact Hf|]. intros [ev p] [Hev [o Ho]]. simpl in *. subst p.
  repeat apply conj; try exact Hev; apply toJSON_transient.
  - left. reflexivity.
  - right. left. reflexivity.
  - right. right. reflexivity.
Qed.
End SendsFacts.

Section KeysFacts.

Variable rng : nat -> list Z.

Lemma activeObject_canvas_remove r w :
  r ∈ objects w -> activeObject w = Some r -> activeObject (canvas_remove r w) = None.
Proof.
  intros Hin Ha. unfold canvas_remove.
  destruct (spliceFirst_is_Some r (objects w) Hin) as [l ->].
  unfold canvas_on_object_removed. simpl. rewrite Ha, Nat.eqb_refl.
  match goal with |- context [if ?b then _ else _] => destruct b end; reflexivity.
Qed.

(** X4.  Delete or Backspace, with an object of the canvas selected,
    takes that one object off the canvas, clears the selection, and sends
    one [object:removed] for it unless it carries the marker. *)
Theorem delete_key_removes_the_selection (key : string) (w : World) (r : nat)
    (Hkey : key = "Delete" \/ key = "Backspace")
    (Hactive : activeObject w = Some r)
    (Hin : r ∈ objects w) :
  let w' := handleKeyDown key w in
  spliceFirst r (objects w) = Some (objects w')
  /\ activeObject w' = None
  /\ outbox w' = outbox w ++ removalReport w r.
Proof.
  intros w'.
  assert (Hw : w' = canvas_remove r w).
  { unfold w', handleKeyDown. rewrite Hactive.
    destruct Hkey as [-> | ->]; reflexivity. }
  rewrite Hw. repeat apply conj.
  - rewrite objects_canvas_remove.
    destruct (spliceFirst_is_Some r (objects w) Hin) as [l ->]. reflexivity.
  - apply activeObject_canvas_remove; assumption.
  - apply outbox_canvas_remove. exact Hin.
Qed.

(** X5.  Any other key does nothing; so do Delete and Backspace when
    nothing is selected, or when what is selected is not on the canvas. *)
Theorem other_keys_do_nothing (key : string) (w : World) :
  (key <> "Delete" -> key <> "Backspace" -> handleKeyDown key w = w)
  /\ (activeObject w = None -> handleKeyDown key w = w)
  /\ (forall r, activeObject w = Some r -> r ∉ objects w -> handleKeyDown key w = w).
Proof.
  unfold handleKeyDown. repeat apply conj.
  - intros H1 H2.
    destruct (String.eqb key "Delete") eqn:E1; [apply String.eqb_eq in E1; congruence|].
    destruct (String.eqb key "Backspace") eqn:E2; [apply String.eqb_eq in E2; congruence|].
    reflexivity.
  - intros ->. destruct (_ || _); reflexivity.
  - intros r -> Hn. destruct (_ || _); [|reflexivity].
    apply outbox_canvas_remove_absent. exact Hn.
Qed.

(** X6.  The end of a drag of an object the user can pick and that has
    no marker writes the new placement into the object, keeps its
    identity and sends exactly one [object:modified], whose payload is the
    serialisation of the object as it is after the drag; the canvas list
    is as before. *)
Theorem local_transform_is_sent_once (r : nat) (p : Placement) (w : World)
    (Hpick : canPick w r = true)
    (Hown : truthy (prop w r "__skipEmit") = false) :
  let w' := transform r p w in
  objects w' = objects w
  /\ prop w' r "left" = Some (JNum (p_left p))
  /\ prop w' r "top" = Some (JNum (p_top p))
  /\ prop w' r "id" = prop w r "id"
  /\ outbox w' = outbox w ++ [("object:modified", toJSON ["id"] (getObj w' r))].
Proof.
  intros w'. unfold w', transform. rewrite Hpick.
  set (w1 := objSet r (placementProps p) (with_activeObject (Some r) w)).
  assert (Hk : forall k, placementProps p !! k = None -> prop w1 r k = prop w r k).
  { intros k Hn. unfold w1. rewrite prop_objSet.
    destruct (decide (r = r)); [|congruence].
    destruct (decide (k = "type")); [reflexivity|]. rewrite Hn. reflexivity. }
  assert (Hl : prop w1 r "left" = Some (JNum (p_left p))).
  { unfold w1. rewrite prop_objSet. destruct (decide (r = r)); [|congruence].
    destruct (decide ("left" = "type")); [discriminate|].
    unfold placementProps. rewrite lookup_insert_eq. reflexivity. }
  assert (Ht : prop w1 r "top" = Some (JNum (p_top p))).
  { unfold w1. rewrite prop_objSet. destruct (decide (r = r)); [|congruence].
    destruct (decide ("top" = "type")); [discriminate|].
    unfold placementProps. rewrite lookup_insert_ne by discriminate.
    rewrite lookup_insert_eq. reflexivity. }
  assert (Hs : prop w1 r "__skipEmit" = prop w r "__skipEmit").
  { apply Hk. unfold placementProps. rewrite !lookup_insert_ne by discriminate.
    apply lookup_empty. }
  assert (Hi : prop w1 r "id" = prop w r "id").
  { apply Hk. unfold placementProps. rewrite !lookup_insert_ne by discriminate.
    apply lookup_empty. }
  unfold canvas_on_object_modified. rewrite Hs, Hown.
  split; [reflexivity|]. split; [exact Hl|]. split; [exact Ht|].
  split; [exact Hi|]. reflexivity.
Qed.

(** X7.  A snapshot whose [type] is missing or is not a string cannot be
    instantiated: the registry has no class for it and [enlivenObjects]
    rejects.  An [object:added] with such a snapshot leaves the state as
    it was and the listener completes (it catches the rejection); an
    [object:sync] with one such snapshot among its objects is rejected as
    a whole, nothing catches the rejection, and the state is as before,
    the earlier store included. *)
Theorem untyped_snapshots_are_dropped (w : World) :
  (forall d, untyped d = true -> outcome rng w (RemoteAdded d) = Done w)
  /\ (forall payload, existsb untyped payload = true ->
        socket_on_object_sync rng payload w = Unhandled w).
Proof.
  assert (Hnone : forall d, untyped d = true -> enlivenObject d = None).
  { intros d. unfold untyped, enlivenObject.
    destruct (d !! "type") as [[| t | | |]|]; try reflexivity. discriminate. }
  split.
  - intros d Hd. simpl. unfold socket_on_object_added.
    rewrite (Hnone d Hd). reflexivity.
  - intros payload Hex. unfold socket_on_object_sync, enlivenObjects.
    destruct (mapM enlivenObject payload) as [objs|] eqn:E; [|reflexivity].
    exfalso. apply mapM_Some in E.
    apply existsb_exists in Hex as (d & Hin & Hd).
    apply list_elem_of_In, list_elem_of_lookup in Hin as [i Hi].
    destruct (Forall2_lookup_l _ _ _ _ _ E Hi) as (o & _ & Ho).
    rewrite (Hnone d Hd) in Ho. discriminate Ho.
Qed.
End KeysFacts.

(** X8.  The guard outlives the cleanup.  [isInitializedRef] is set once
    and reset by nothing, neither by the closure [init] returns nor by the
    cleanup of the earlier component.  Once it is set, a call of [init],
    or a run of the earlier effect, returns at the guard, changes nothing
    and returns no closure, also after the cleanup has run and released
    the canvas: canvas and socket are not created again. *)
Theorem guard_outlives_the_cleanup (s : Lifecycle.Session)
    (Hset : Lifecycle.isInitializedRef s = true) :
  Lifecycle.init s = (s, None)
  /\ Lifecycle.init (Lifecycle.teardown s) = (Lifecycle.teardown s, None)
  /\ Lifecycle.fabricCanvasRef (Lifecycle.teardown s) = false
  /\ Lifecycle.socketRef (Lifecycle.teardown s) = false
  /\ Standalone.initEffect s = (s, None)
  /\ Standalone.initEffect (Standalone.teardown s) = (Standalone.teardown s, None)
  /\ Lifecycle.fabricCanvasRef (Standalone.teardown s) = false.
Proof.
  assert (G1 : Lifecycle.isInitializedRef (Lifecycle.teardown s) = true) by exact Hset.
  assert (G2 : Lifecycle.isInitializedRef (Standalone.teardown s) = true) by exact Hset.
  unfold Lifecycle.init, Lifecycle.entersInit, Standalone.initEffect.
  rewrite G1, G2, Hset. cbn [negb andb].
  split; [reflexivity|]. split; [reflexivity|]. split; [reflexivity|].
  split; [reflexivity|]. split; [reflexivity|]. split; reflexivity.
Qed.

Lemma float_eqb_self x : PrimFloat.is_nan x = false -> PrimFloat.eqb x x = true.
Proof. unfold PrimFloat.is_nan. intros H. apply negb_false_iff in H. exact H. Qed.

Lemma prop_with_heap_insert r o h w r' k :
  prop (with_heap (<[r := o]> h) w) r' k =
  if decide (r = r') then own o !! k
  else own (default emptyObject (h !! r')) !! k.
Proof.
  unfold prop, getObj. change (heap (with_heap (<[r := o]> h) w)) with (<[r := o]> h).
  rewrite lookup_insert. destruct (decide (r = r')); reflexivity.
Qed.

(** The state a mouse-down leaves. *)
Lemma handleMouseDown_spec mk px py w :
  handleMouseDown mk px py w =
  with_shape (Some (newRef w))
    (with_heap (<[newRef w := mk (with_startY py (with_startX px w))]> (heap w))
       (with_startY py (with_startX px w))).
Proof. reflexivity. Qed.

Section ClickFacts.

Variable rng : nat -> list Z.

(** A mouse-up right after a mouse-down finds the shape degenerate. *)
Lemma mouse_up_after_down mk test px py w :
  test (handleMouseDown mk px py w) (newRef w) = false ->
  handleMouseUp rng test (handleMouseDown mk px py w)
  = with_shape None (handleMouseDown mk px py w).
Proof.
  intros Ht. apply (mouse_up_degenerate rng test _ (newRef w)); [reflexivity | exact Ht].
Qed.

Lemma click_facts mk px py w :
  let w' := with_shape None (handleMouseDown mk px py w) in
  objects w' = objects w /\ outbox w' = outbox w /\ shape w' = None
  /\ forall r k, r <> newRef w -> prop w' r k = prop w r k.
Proof.
  intros w'. repeat apply conj; try reflexivity.
  intros r k Hr. unfold w'. rewrite handleMouseDown_spec.
  change (prop (with_shape None (with_shape ?s ?x)) r k) with (prop x r k).
  rewrite prop_with_heap_insert. destruct (decide (newRef w = r)); [congruence|].
  reflexivity.
Qed.

(** X9.  A press and a release with no movement in between, with a
    shape tool, leave the canvas list and the outbox as they were and no
    shape pending; no object but the fresh one is written.  (For the line
    tool the pointer coordinates must be numbers: NaN is not equal to
    itself.) *)
Theorem click_without_drag_commits_nothing (px py : float) (w : World) (t : Tool)
    (Htool : mouseHandlers w = Some t)
    (Hshape : shapeTool t = true)
    (Hline : t = line ->
             PrimFloat.is_nan px = false /\ PrimFloat.is_nan py = false) :
  let w' := mouse_up rng (mouse_down px py w) in
  objects w' = objects w /\ outbox w' = outbox w /\ shape w' = None
  /\ forall r k, r <> newRef w -> prop w' r k = prop w r k.
Proof.
  intros w'. unfold w', mouse_up, mouse_down. rewrite Htool.
  destruct t; try discriminate Hshape.
  - change (mouseHandlers (handleMouseDown newRect px py w)) with (mouseHandlers w).
    rewrite Htool, mouse_up_after_down; [apply click_facts|].
    unfold test_rectangle. rewrite handleMouseDown_spec.
    change (prop (with_shape ?s ?x) ?r ?k) with (prop x r k).
    rewrite !prop_with_heap_insert. destruct (decide (newRef w = newRef w)); [|congruence].
    unfold newRect. cbn [own].
    rewrite !lookup_insert_ne by discriminate. rewrite lookup_insert_eq. reflexivity.
  - destruct (Hline eq_refl) as [Hx Hy].
    change (mouseHandlers (handleMouseDown newLine px py w)) with (mouseHandlers w).
    rewrite Htool, mouse_up_after_down; [apply click_facts|].
    unfold test_line. rewrite handleMouseDown_spec.
    change (prop (with_shape ?s ?x) ?r ?k) with (prop x r k).
    change (startX (with_shape ?s (with_heap ?h (with_startY ?y (with_startX ?x ?v)))))
      with x.
    change (startY (with_shape ?s (with_heap ?h (with_startY ?y (with_startX ?x ?v)))))
      with y.
    rewrite !prop_with_heap_insert. destruct (decide (newRef w = newRef w)); [|congruence].
    unfold newLine. cbn [own startX startY with_startX with_startY].
    rewrite (lookup_insert_ne _ "x1" "x2") by discriminate.
    rewrite (lookup_insert_ne _ "y1" "x2") by discriminate.
    rewrite lookup_insert_eq.
    rewrite (lookup_insert_ne _ "x1" "y2") by discriminate.
    rewrite (lookup_insert_ne _ "y1" "y2") by discriminate.
    rewrite (lookup_insert_ne _ "x2" "y2") by discriminate.
    rewrite lookup_insert_eq.
    unfold strict_ne, strict_eq.
    rewrite (float_eqb_self px Hx), (float_eqb_self py Hy). reflexivity.
  - change (mouseHandlers (handleMouseDown newEllipse px py w)) with (mouseHandlers w).
    rewrite Htool, mouse_up_after_down; [apply click_facts|].
    unfold test_ellipse. rewrite handleMouseDown_spec.
    change (prop (with_shape ?s ?x) ?r ?k) with (prop x r k).
    rewrite !prop_with_heap_insert. destruct (decide (newRef w = newRef w)); [|congruence].
    unfold newEllipse. cbn [own].
    rewrite !lookup_insert_ne by discriminate. rewrite lookup_insert_eq. reflexivity.
Qed.
End ClickFacts.

Lemma ui_updObj f r w : ui (updObj f r w) = ui w.
Proof. reflexivity. Qed.

Section GestureFacts.

Variable rng : nat -> list Z.

Lemma ui_on_added t w : ui (canvas_on_object_added rng t w) = ui w.
Proof.
  unfold canvas_on_object_added, generateId. destruct t as [r|]; [|reflexivity].
  destruct (truthy (prop w r "id"));
    match goal with |- context [if ?b then _ else _] => destruct b end; reflexivity.
Qed.

Lemma ui_canvas_add r w : ui (canvas_add rng r w) = ui w.
Proof. unfold canvas_add. rewrite ui_on_added. reflexivity. Qed.

Lemma ui_canvas_remove r w : ui (canvas_remove r w) = ui w.
Proof.
  unfold canvas_remove. destruct (spliceFirst r (objects w)); [|reflexivity].
  unfold canvas_on_object_removed.
  match goal with |- context [if ?b then _ else _] => destruct b end;
    unfold emit, delProp; active_cases.
Qed.

Lemma uuidCalls_canvas_remove r w : uuidCalls (canvas_remove r w) = uuidCalls w.
Proof.
  unfold canvas_remove. destruct (spliceFirst r (objects w)); [|reflexivity].
  unfold canvas_on_object_removed.
  match goal with |- context [if ?b then _ else _] => destruct b end;
    unfold emit, delProp; active_cases.
Qed.

(** The identity [canvas.add] leaves on the object. *)
Lemma prop_canvas_add_id r w :
  prop (canvas_add rng r w) r "id" =
  if truthy (prop w r "id") then prop w r "id"
  else Some (JStr (uuidv4 (rng (uuidCalls w)))).
Proof.
  unfold canvas_add, canvas_on_object_added, generateId.
  assert (Hi : prop (setProp r "canvas" JCanvas (with_objects (objects w ++ [r]) w)) r "id"
               = prop w r "id").
  { rewrite prop_setProp. destruct (decide (r = r)); [|congruence].
    destruct (decide ("canvas" = "id")); [discriminate | reflexivity]. }
  rewrite Hi. destruct (truthy (prop w r "id")).
  - match goal with |- context [if ?b then _ else _] => destruct b end; exact Hi.
  - match goal with |- context [if ?b then _ else _] => destruct b end;
      try change (prop (emit ?e ?p ?y) r "id") with (prop y r "id");
      rewrite prop_setProp;
      destruct (decide (r = r)); try congruence;
      destruct (decide ("id" = "id")); try congruence; reflexivity.
Qed.

Lemma spliceFirst_app_fresh r l : r ∉ l -> spliceFirst r (l ++ [r]) = Some l.
Proof.
  induction l as [|x l IH]; intros Hn; simpl.
  - rewrite Nat.eqb_refl. reflexivity.
  - apply not_elem_of_cons in Hn as [Hne Hn].
    destruct (Nat.eqb x r) eqn:E; [apply Nat.eqb_eq in E; congruence|].
    rewrite (IH Hn). reflexivity.
Qed.

End GestureFacts.

(** ** A shape drawn with a shape tool *)

Section DrawFacts.

Variable rng : nat -> list Z.

(** The object a press creates is the one [mk] builds. *)
Lemma prop_after_press mk px py w k :
  prop (handleMouseDown mk px py w) (newRef w) k
  = own (mk (with_startY py (with_startX px w))) !! k.
Proof.
  rewrite handleMouseDown_spec.
  change (prop (with_shape ?s ?x) ?a ?b) with (prop x a b).
  rewrite prop_with_heap_insert. destruct (decide (newRef w = newRef w)); [|congruence].
  reflexivity.
Qed.

(** What the three shape tools share.  The pending shape [r] has no
    back-pointer, no marker and no identity and is not on the canvas; the
    move shows it; if the release finds the test of the tool satisfied,
    the shape is taken off the canvas and put on it again. *)
Lemma gesture_commit (test : World -> nat -> bool) (r : nat) (w2 : World) :
  shape w2 = Some r ->
  r ∉ objects w2 ->
  (forall k, k = "canvas" \/ k = "__skipEmit" \/ k = "id" -> prop w2 r k = None) ->
  test (canvas_add rng r w2) r = true ->
  showTemporary rng r w2 = canvas_add rng r w2
  /\ let w' := handleMouseUp rng test (canvas_add rng r w2) in
     let payload := toJSON ["id"] (getObj w' r) in
     objects w' = objects w2 ++ [r]
     /\ shape w' = None
     /\ prop w' r "id" = Some (JStr (uuidv4 (rng (uuidCalls w2))))
     /\ (forall k, k <> "id" -> k <> "canvas" -> prop w' r k = prop w2 r k)
     /\ outbox w' = outbox w2 ++ [("object:added", payload);
                                  ("object:removed", payload);
                                  ("object:added", payload)].
Proof.
  intros Sh2 Hr P2. set (w3 := canvas_add rng r w2). intros Htest.
  assert (C2 : prop w2 r "canvas" = None) by (apply P2; left; reflexivity).
  assert (S2 : prop w2 r "__skipEmit" = None) by (apply P2; right; left; reflexivity).
  assert (I2 : prop w2 r "id" = None) by (apply P2; right; right; reflexivity).
  assert (Hshow : showTemporary rng r w2 = w3).
  { unfold showTemporary. rewrite C2. reflexivity. }
  split; [exact Hshow|].
  set (w4 := canvas_remove r w3).
  set (w5 := canvas_add rng r w4).
  assert (K3 : forall k, k <> "id" -> k <> "canvas" -> prop w3 r k = prop w2 r k).
  { intros k Hk1 Hk2. unfold w3. apply prop_canvas_add. right. split; assumption. }
  assert (C3 : prop w3 r "canvas" = Some JCanvas) by apply prop_canvas_add_canvas.
  assert (Sh3 : shape w3 = Some r).
  { rewrite <- Sh2. exact (f_equal ui_shape (ui_canvas_add rng r w2)). }
  assert (O3 : objects w3 = objects w2 ++ [r]) by apply objects_canvas_add.
  assert (S3 : prop w3 r "__skipEmit" = None).
  { rewrite K3 by discriminate. exact S2. }
  assert (I3 : prop w3 r "id" = Some (JStr (uuidv4 (rng (uuidCalls w2))))).
  { unfold w3. rewrite prop_canvas_add_id, I2. reflexivity. }
  assert (B3 : outbox w3 = outbox w2 ++ [("object:added", toJSON ["id"] (getObj w3 r))]).
  { unfold w3 at 1. rewrite outbox_canvas_add, S2. reflexivity. }
  clearbody w3.
  assert (Hup : handleMouseUp rng test w3 = with_shape None w5).
  { unfold handleMouseUp. rewrite Sh3, Htest, C3. reflexivity. }
  assert (O4 : objects w4 = objects w2).
  { unfold w4. rewrite objects_canvas_remove, O3.
    rewrite spliceFirst_app_fresh by exact Hr. reflexivity. }
  assert (K4 : forall k, k <> "canvas" -> prop w4 r k = prop w3 r k).
  { intros k Hk. unfold w4. apply prop_canvas_remove. exact Hk. }
  assert (B4 : outbox w4 = outbox w3 ++ [("object:removed", toJSON ["id"] (getObj w3 r))]).
  { unfold w4. rewrite outbox_canvas_remove
      by (rewrite O3; apply elem_of_app; right; apply list_elem_of_singleton; reflexivity).
    rewrite S3. reflexivity. }
  assert (L4 : klass (getObj w4 r) = klass (getObj w3 r)) by apply klass_canvas_remove.
  clearbody w4.
  assert (I5 : prop w5 r "id" = prop w3 r "id").
  { unfold w5. rewrite prop_canvas_add_id, K4 by discriminate.
    rewrite I3. rewrite (truthy_JStr _ (uuidv4_nonempty _)). reflexivity. }
  assert (K5 : forall k, k <> "id" -> k <> "canvas" -> prop w5 r k = prop w3 r k).
  { intros k Hk1 Hk2. unfold w5.
    rewrite prop_canvas_add by (right; split; assumption). apply K4, Hk2. }
  assert (B5 : outbox w5 = outbox w4 ++ [("object:added", toJSON ["id"] (getObj w5 r))]).
  { unfold w5 at 1. rewrite outbox_canvas_add, K4, S3 by discriminate. reflexivity. }
  assert (L5 : klass (getObj w5 r) = klass (getObj w3 r)).
  { unfold w5. rewrite klass_canvas_add. exact L4. }
  assert (O5 : objects w5 = objects w2 ++ [r]).
  { unfold w5. rewrite objects_canvas_add, O4. reflexivity. }
  clearbody w5.
  assert (J : toJSON ["id"] (getObj w3 r) = toJSON ["id"] (getObj w5 r)).
  { symmetry. apply toJSON_ext; [exact L5|].
    intros k Hk. destruct (decide (k = "id")) as [->|Hne]; [exact I5|].
    assert (k <> "canvas") as Hc by (intros ->; apply Hk; right; left; reflexivity).
    exact (K5 k Hne Hc). }
  cbv zeta. rewrite Hup.
  change (getObj (with_shape None w5) r) with (getObj w5 r).
  split; [exact O5|]. split; [reflexivity|].
  split; [exact (eq_trans I5 I3)|].
  split.
  - intros k Hk1 Hk2. exact (eq_trans (K5 k Hk1 Hk2) (K3 k Hk1 Hk2)).
  - change (outbox (with_shape None w5)) with (outbox w5).
    rewrite B5, B4, B3, J, <- !app_assoc. reflexivity.
Qed.

(** The state after a press and the assignments of the first move:
    nothing but the fresh object and the gesture variables has changed,
    and the fresh object has none of the three bookkeeping keys. *)
Lemma press_and_set (mk : World -> FabricObject) (dims : Props) (px py : float)
    (w : World) :
  let r := newRef w in
  let w2 := objSet r dims (handleMouseDown mk px py w) in
  (forall k, k = "canvas" \/ k = "__skipEmit" \/ k = "id" ->
     own (mk (with_startY py (with_startX px w))) !! k = None /\ dims !! k = None) ->
  shape w2 = Some r /\ (r ∉ objects w2)
  /\ (forall k, k = "canvas" \/ k = "__skipEmit" \/ k = "id" -> prop w2 r k = None)
  /\ (forall k v, k <> "type" -> dims !! k = Some v -> prop w2 r k = Some v)
  /\ (forall k, dims !! k = None ->
        prop w2 r k = own (mk (with_startY py (with_startX px w))) !! k).
Proof.
  intros r w2 Hnone.
  assert (P : forall k, prop w2 r k =
                match (if decide (k = "type") then None else dims !! k) with
                | Some v => Some v
                | None => own (mk (with_startY py (with_startX px w))) !! k
                end).
  { intros k. unfold w2. rewrite prop_objSet. destruct (decide (r = r)); [|congruence].
    unfold r. rewrite prop_after_press. reflexivity. }
  split; [reflexivity|].
  split; [change (newRef w ∉ objects w); apply newRef_objects|]. split; [|split].
  - intros k Hk. destruct (Hnone k Hk) as [Hm Hd]. rewrite P, Hd, Hm.
    destruct (decide (k = "type")); reflexivity.
  - intros k v Hk Hv. rewrite P, Hv. destruct (decide (k = "type")); [congruence|].
    reflexivity.
  - intros k Hd. rewrite P, Hd. destruct (decide (k = "type")); reflexivity.
Qed.

(** The keys the handlers of the shape tools write are none of the three
    keys [canvas.add] and the relay's listeners write. *)
Ltac bookkeeping_keys :=
  let k := fresh "k" in
  intros k [-> | [-> | ->]]; split;
    cbn [own newRect newLine newEllipse];
    rewrite !lookup_insert_ne by discriminate; apply lookup_empty.

(** X10.  With the rectangle tool, a press at (px, py), one move to
    (qx, qy) that leaves a rectangle of non-zero width and height, and a
    release put exactly one new object on top of the canvas, with the
    width and height of the move and a fresh identity, and send three
    messages with one and the same payload, the serialisation of the
    object: [object:added] at the move, then [object:removed] and
    [object:added] at the release. *)
Theorem drawn_rectangle_is_announced_twice (px py qx qy : float) (w : World)
    (Htool : mouseHandlers w = Some rectangle)
    (Hwide : PrimFloat.eqb (Math_abs (qx - px)) 0 = false)
    (Hhigh : PrimFloat.eqb (Math_abs (qy - py)) 0 = false) :
  let r := newRef w in
  let w' := mouse_up rng (mouse_move rng qx qy (mouse_down px py w)) in
  let payload := toJSON ["id"] (getObj w' r) in
  objects w' = objects w ++ [r]
  /\ shape w' = None
  /\ prop w' r "id" = Some (JStr (uuidv4 (rng (uuidCalls w))))
  /\ prop w' r "width" = Some (JNum (Math_abs (qx - px)))
  /\ prop w' r "height" = Some (JNum (Math_abs (qy - py)))
  /\ outbox w' = outbox w ++ [("object:added", payload);
                              ("object:removed", payload);
                              ("object:added", payload)].
Proof.
  cbv zeta.
  set (dims := <["width" := JNum (Math_abs (qx - px))]>
               (<["height" := JNum (Math_abs (qy - py))]>
               (<["left" := JNum (Math_min px qx)]>
               (<["top" := JNum (Math_min py qy)]> (∅ : Props))))).
  pose proof (press_and_set newRect dims px py w) as P. cbv zeta in P.
  destruct P as (Sh2 & Hr & P2 & Pd & Pm); [unfold dims; bookkeeping_keys|].
  set (r := newRef w) in *.
  set (w1 := handleMouseDown newRect px py w) in *.
  set (w2 := objSet r dims w1) in *.
  assert (W2 : prop w2 r "width" = Some (JNum (Math_abs (qx - px)))).
  { apply Pd; [discriminate|]. unfold dims.
    apply lookup_insert_eq. }
  assert (H2 : prop w2 r "height" = Some (JNum (Math_abs (qy - py)))).
  { apply Pd; [discriminate|]. unfold dims.
    rewrite !lookup_insert_ne by discriminate.
    apply lookup_insert_eq. }
  assert (T : test_rectangle (canvas_add rng r w2) r = true).
  { unfold test_rectangle.
    rewrite !prop_canvas_add by (right; split; discriminate).
    rewrite W2, H2. unfold strict_ne, strict_eq. rewrite Hwide, Hhigh. reflexivity. }
  destruct (gesture_commit test_rectangle r w2 Sh2 Hr P2 T) as [Hshow G]. cbv zeta in G.
  assert (E : mouse_up rng (mouse_move rng qx qy (mouse_down px py w))
              = handleMouseUp rng test_rectangle (canvas_add rng r w2)).
  { unfold mouse_down. rewrite Htool. fold w1. unfold mouse_move.
    change (mouseHandlers w1) with (mouseHandlers w). rewrite Htool.
    change (handleMouseMove_rectangle rng qx qy w1) with (showTemporary rng r w2).
    rewrite Hshow. unfold mouse_up.
    replace (mouseHandlers (canvas_add rng r w2)) with (mouseHandlers w2)
      by (symmetry; exact (f_equal ui_mouseHandlers (ui_canvas_add rng r w2))).
    change (mouseHandlers w2) with (mouseHandlers w). rewrite Htool. reflexivity. }
  rewrite E. destruct G as (A & B & C & D & F).
  split; [exact A|]. split; [exact B|]. split; [exact C|].
  split; [rewrite D by discriminate; exact W2|].
  split; [rewrite D by discriminate; exact H2|].
  exact F.
Qed.

(** X18.  With the line tool, a press at (px, py), one move to another
    point (qx, qy) and a release put exactly one new line on top of the
    canvas, from the point of the press to the point of the move, with a
    fresh identity, and send [object:added], [object:removed] and
    [object:added] with one and the same payload. *)
Theorem drawn_line_is_announced_twice (px py qx qy : float) (w : World)
    (Htool : mouseHandlers w = Some line)
    (Hmoved : PrimFloat.eqb qx px = false \/ PrimFloat.eqb qy py = false) :
  let r := newRef w in
  let w' := mouse_up rng (mouse_move rng qx qy (mouse_down px py w)) in
  let payload := toJSON ["id"] (getObj w' r) in
  objects w' = objects w ++ [r]
  /\ shape w' = None
  /\ prop w' r "id" = Some (JStr (uuidv4 (rng (uuidCalls w))))
  /\ prop w' r "x1" = Some (JNum px) /\ prop w' r "y1" = Some (JNum py)
  /\ prop w' r "x2" = Some (JNum qx) /\ prop w' r "y2" = Some (JNum qy)
  /\ outbox w' = outbox w ++ [("object:added", payload);
                              ("object:removed", payload);
                              ("object:added", payload)].
Proof.
  cbv zeta.
  set (dims := <["x2" := JNum qx]> (<["y2" := JNum qy]> (∅ : Props))).
  pose proof (press_and_set newLine dims px py w) as P. cbv zeta in P.
  destruct P as (Sh2 & Hr & P2 & Pd & Pm); [unfold dims; bookkeeping_keys|].
  set (r := newRef w) in *.
  set (w1 := handleMouseDown newLine px py w) in *.
  set (w2 := objSet r dims w1) in *.
  assert (X1 : prop w2 r "x1" = Some (JNum px)).
  { rewrite Pm; [reflexivity|]. unfold dims.
    rewrite !lookup_insert_ne by discriminate. apply lookup_empty. }
  assert (Y1 : prop w2 r "y1" = Some (JNum py)).
  { rewrite Pm; [reflexivity|]. unfold dims.
    rewrite !lookup_insert_ne by discriminate. apply lookup_empty. }
  assert (X2 : prop w2 r "x2" = Some (JNum (qx))).
  { apply Pd; [discriminate|]. unfold dims.
    apply lookup_insert_eq. }
  assert (Y2 : prop w2 r "y2" = Some (JNum (qy))).
  { apply Pd; [discriminate|]. unfold dims.
    rewrite !lookup_insert_ne by discriminate.
    apply lookup_insert_eq. }
  assert (T : test_line (canvas_add rng r w2) r = true).
  { unfold test_line.
    replace (startX (canvas_add rng r w2)) with (startX w2)
      by (symmetry; exact (f_equal ui_startX (ui_canvas_add rng r w2))).
    replace (startY (canvas_add rng r w2)) with (startY w2)
      by (symmetry; exact (f_equal ui_startY (ui_canvas_add rng r w2))).
    change (startX w2) with px. change (startY w2) with py.
    rewrite !prop_canvas_add by (right; split; discriminate).
    rewrite X2, Y2. unfold strict_ne, strict_eq.
    destruct Hmoved as [-> | ->]; [reflexivity | apply orb_true_r]. }
  destruct (gesture_commit test_line r w2 Sh2 Hr P2 T) as [Hshow G]. cbv zeta in G.
  assert (E : mouse_up rng (mouse_move rng qx qy (mouse_down px py w))
              = handleMouseUp rng test_line (canvas_add rng r w2)).
  { unfold mouse_down. rewrite Htool. fold w1. unfold mouse_move.
    change (mouseHandlers w1) with (mouseHandlers w). rewrite Htool.
    change (handleMouseMove_line rng qx qy w1) with (showTemporary rng r w2).
    rewrite Hshow. unfold mouse_up.
    replace (mouseHandlers (canvas_add rng r w2)) with (mouseHandlers w2)
      by (symmetry; exact (f_equal ui_mouseHandlers (ui_canvas_add rng r w2))).
    change (mouseHandlers w2) with (mouseHandlers w). rewrite Htool. reflexivity. }
  rewrite E. destruct G as (A & B & C & D & F).
  split; [exact A|]. split; [exact B|]. split; [exact C|].
  split; [rewrite D by discriminate; exact X1|].
  split; [rewrite D by discriminate; exact Y1|].
  split; [rewrite D by discriminate; exact X2|].
  split; [rewrite D by discriminate; exact Y2|].
  exact F.
Qed.

(** X19.  With the ellipse tool, a press at (px, py), one move to
    (qx, qy) that leaves both radii non-zero, and a release put exactly
    one new ellipse on top of the canvas, its radii half the distances of
    the move and its corner at the smaller coordinates, with a fresh
    identity, and send [object:added], [object:removed] and
    [object:added] with one and the same payload. *)
Theorem drawn_ellipse_is_announced_twice (px py qx qy : float) (w : World)
    (Htool : mouseHandlers w = Some ellipse)
    (Hwide : PrimFloat.eqb (Math_abs (qx - px) / 2) 0 = false)
    (Hhigh : PrimFloat.eqb (Math_abs (qy - py) / 2) 0 = false) :
  let r := newRef w in
  let w' := mouse_up rng (mouse_move rng qx qy (mouse_down px py w)) in
  let payload := toJSON ["id"] (getObj w' r) in
  objects w' = objects w ++ [r]
  /\ shape w' = None
  /\ prop w' r "id" = Some (JStr (uuidv4 (rng (uuidCalls w))))
  /\ prop w' r "rx" = Some (JNum (Math_abs (qx - px) / 2))
  /\ prop w' r "ry" = Some (JNum (Math_abs (qy - py) / 2))
  /\ prop w' r "left" = Some (JNum (Math_min px qx))
  /\ prop w' r "top" = Some (JNum (Math_min py qy))
  /\ outbox w' = outbox w ++ [("object:added", payload);
                              ("object:removed", payload);
                              ("object:added", payload)].
Proof.
  cbv zeta.
  set (dims := <["rx" := JNum (Math_abs (qx - px) / 2)]>
               (<["ry" := JNum (Math_abs (qy - py) / 2)]>
               (<["left" := JNum (Math_min px qx)]>
               (<["top" := JNum (Math_min py qy)]> (∅ : Props))))).
  pose proof (press_and_set newEllipse dims px py w) as P. cbv zeta in P.
  destruct P as (Sh2 & Hr & P2 & Pd & Pm); [unfold dims; bookkeeping_keys|].
  set (r := newRef w) in *.
  set (w1 := handleMouseDown newEllipse px py w) in *.
  set (w2 := objSet r dims w1) in *.
  assert (RX : prop w2 r "rx" = Some (JNum (Math_abs (qx - px) / 2))).
  { apply Pd; [discriminate|]. unfold dims.
    apply lookup_insert_eq. }
  assert (RY : prop w2 r "ry" = Some (JNum (Math_abs (qy - py) / 2))).
  { apply Pd; [discriminate|]. unfold dims.
    rewrite !lookup_insert_ne by discriminate.
    apply lookup_insert_eq. }
  assert (L : prop w2 r "left" = Some (JNum (Math_min px qx))).
  { apply Pd; [discriminate|]. unfold dims.
    rewrite !lookup_insert_ne by discriminate.
    apply lookup_insert_eq. }
  assert (Tp : prop w2 r "top" = Some (JNum (Math_min py qy))).
  { apply Pd; [discriminate|]. unfold dims.
    rewrite !lookup_insert_ne by discriminate.
    apply lookup_insert_eq. }
  assert (T : test_ellipse (canvas_add rng r w2) r = true).
  { unfold test_ellipse.
    rewrite !prop_canvas_add by (right; split; discriminate).
    rewrite RX, RY. unfold strict_ne, strict_eq. rewrite Hwide, Hhigh. reflexivity. }
  destruct (gesture_commit test_ellipse r w2 Sh2 Hr P2 T) as [Hshow G]. cbv zeta in G.
  assert (E : mouse_up rng (mouse_move rng qx qy (mouse_down px py w))
              = handleMouseUp rng test_ellipse (canvas_add rng r w2)).
  { unfold mouse_down. rewrite Htool. fold w1. unfold mouse_move.
    change (mouseHandlers w1) with (mouseHandlers w). rewrite Htool.
    change (handleMouseMove_ellipse rng qx qy w1) with (showTemporary rng r w2).
    rewrite Hshow. unfold mouse_up.
    replace (mouseHandlers (canvas_add rng r w2)) with (mouseHandlers w2)
      by (symmetry; exact (f_equal ui_mouseHandlers (ui_canvas_add rng r w2))).
    change (mouseHandlers w2) with (mouseHandlers w). rewrite Htool. reflexivity. }
  rewrite E. destruct G as (A & B & C & D & F).
  split; [exact A|]. split; [exact B|]. split; [exact C|].
  split; [rewrite D by discriminate; exact RX|].
  split; [rewrite D by discriminate; exact RY|].
  split; [rewrite D by discriminate; exact L|].
  split; [rewrite D by discriminate; exact Tp|].
  exact F.
Qed.

End DrawFacts.

Ltac from_ui Hu proj :=
  etransitivity; [exact (f_equal proj Hu) | try reflexivity].

Lemma ui_setSelectable b w : ui (setSelectable b w) = ui w.
Proof.
  unfold setSelectable. generalize (objects w). intros l. revert w.
  induction l as [|x l IH]; intros w; simpl; [reflexivity|]. rewrite IH. reflexivity.
Qed.

Lemma objects_setSelectable b w : objects (setSelectable b w) = objects w.
Proof.
  unfold setSelectable. generalize (objects w) at 1. intros l. revert w.
  induction l as [|x l IH]; intros w; simpl; [reflexivity|]. rewrite IH. reflexivity.
Qed.

Lemma outbox_setSelectable b w : outbox (setSelectable b w) = outbox w.
Proof. unfold setSelectable. apply outbox_setSelectable_each. Qed.

Lemma prop_setSelectable_each b l : forall w r,
  r ∈ l \/ prop w r "selectable" = Some (JBool b) ->
  prop (fold_left (fun acc r => setProp r "selectable" (JBool b) acc) l w) r "selectable"
  = Some (JBool b).
Proof.
  induction l as [|x l IH]; intros w r H; simpl.
  - destruct H as [H|H]; [apply elem_of_nil in H; destruct H | exact H].
  - apply IH. rewrite prop_setProp.
    destruct (decide (x = r)) as [->|Hne].
    + right. destruct (decide ("selectable" = "selectable")); [reflexivity | congruence].
    + destruct H as [H|H]; [|right; exact H].
      apply elem_of_cons in H as [->|H]; [congruence | left; exact H].
Qed.

Lemma prop_setSelectable b w r :
  r ∈ objects w -> prop (setSelectable b w) r "selectable" = Some (JBool b).
Proof. intros H. apply prop_setSelectable_each. left. exact H. Qed.

Lemma ui_canvas_clear w : ui (canvas_clear w) = ui w.
Proof.
  unfold canvas_clear.
  change (ui w) with (ui (with_activeObject None w)).
  generalize (with_activeObject None w). generalize (objects w). intros l.
  induction l as [|x l IH]; intros w0; simpl; [reflexivity|].
  rewrite IH. apply ui_canvas_remove.
Qed.

(** What [cleanup] leaves. *)
Lemma cleanup_facts t w :
  let w' := cleanup t w in
  (tool w' = tool w /\ brushColor w' = brushColor w /\ brushSize w' = brushSize w
   /\ mouseHandlers w' = None /\ isDrawingMode w' = false /\ selection w' = false)
  /\ objects w' = objects w /\ outbox w' = outbox w
  /\ (Tool_eqb t select = false ->
      forall r, r ∈ objects w -> prop w' r "selectable" = Some (JBool false)).
Proof.
  intros w'. subst w'. unfold cleanup. destruct (Tool_eqb t select).
  - repeat apply conj; try reflexivity. discriminate.
  - set (w1 := with_mouseHandlers None (with_selection false (with_isDrawingMode false w))).
    pose proof (ui_setSelectable false w1) as Hu.
    repeat apply conj.
    + from_ui Hu ui_tool.
    + from_ui Hu ui_brushColor.
    + from_ui Hu ui_brushSize.
    + from_ui Hu ui_mouseHandlers.
    + from_ui Hu ui_isDrawingMode.
    + from_ui Hu ui_selection.
    + rewrite objects_setSelectable. reflexivity.
    + rewrite outbox_setSelectable. reflexivity.
    + intros _ r Hr. apply prop_setSelectable. exact Hr.
Qed.

(** What a run of the tool effect leaves (the previous cleanup, if any,
    then the body). *)
Lemma rerunToolEffect_facts w :
  let t := tool w in
  let w' := rerunToolEffect w in
  tool w' = t
  /\ shape w' = None
  /\ mouseHandlers w' = (if shapeTool t then Some t else None)
  /\ isDrawingMode w' = Tool_eqb t draw
  /\ selection w' = Tool_eqb t select
  /\ brushColor w' = brushColor w /\ brushSize w' = brushSize w
  /\ (Tool_eqb t clear = true -> objects w' = [])
  /\ (Tool_eqb t clear = false ->
      objects w' = objects w
      /\ outbox w' = outbox w
      /\ forall r, r ∈ objects w ->
           prop w' r "selectable" = Some (JBool (Tool_eqb t select))).
Proof.
  intros t w'. subst w'. unfold rerunToolEffect.
  set (w1 := match toolCleanup w with Some t0 => cleanup t0 w | None => w end).
  assert (T1 : tool w1 = t /\ brushColor w1 = brushColor w /\ brushSize w1 = brushSize w
               /\ objects w1 = objects w /\ outbox w1 = outbox w).
  { unfold w1. destruct (toolCleanup w) as [t0|].
    - destruct (cleanup_facts t0 w) as ((A & B & C & _) & D & E & _).
      repeat apply conj; assumption.
    - repeat apply conj; reflexivity. }
  destruct T1 as (T1 & C1 & Z1 & O1 & B1).
  unfold toolEffect. rewrite T1.
  destruct (cleanup_facts t w1) as ((T2 & C2 & Z2 & M2 & D2 & S2) & O2 & B2 & P2).
  set (w2 := cleanup t w1) in *.
  assert (T2' : tool w2 = t) by congruence.
  assert (C2' : brushColor w2 = brushColor w) by congruence.
  assert (Z2' : brushSize w2 = brushSize w) by congruence.
  assert (O2' : objects w2 = objects w) by congruence.
  assert (B2' : outbox w2 = outbox w) by congruence.
  assert (P2' : Tool_eqb t select = false ->
            forall r, r ∈ objects w -> prop w2 r "selectable" = Some (JBool false)).
  { intros E r Hr. apply (P2 E). rewrite O1. exact Hr. }
  clear T2 C2 Z2 O2 B2 P2.
  set (w3 := with_shape None (with_startY 0 (with_startX 0 w2))).
  subst t. destruct (tool w) eqn:Et; cbn [shapeTool Tool_eqb].
  - split; [exact T2'|]. split; [reflexivity|]. split; [exact M2|].
    split; [reflexivity|]. split; [exact S2|]. split; [exact C2'|]. split; [exact Z2'|].
    split; [discriminate|]. intros _. split; [exact O2'|]. split; [exact B2'|].
    intros r Hr. exact (P2' eq_refl r Hr).
  - pose proof (ui_setSelectable true (with_selection true w3)) as Hu.
    split; [from_ui Hu ui_tool; exact T2'|]. split; [from_ui Hu ui_shape|].
    split; [from_ui Hu ui_mouseHandlers; exact M2|].
    split; [from_ui Hu ui_isDrawingMode; exact D2|].
    split; [from_ui Hu ui_selection|].
    split; [from_ui Hu ui_brushColor; exact C2'|].
    split; [from_ui Hu ui_brushSize; exact Z2'|].
    split; [discriminate|]. intros _.
    split; [etransitivity; [apply objects_setSelectable | exact O2']|].
    split; [etransitivity; [apply outbox_setSelectable | exact B2']|].
    intros r Hr. apply (prop_setSelectable true (with_selection true w3)).
    change (r ∈ objects w2). rewrite O2'. exact Hr.
  - split; [exact T2'|]. split; [reflexivity|]. split; [reflexivity|].
    split; [exact D2|]. split; [exact S2|]. split; [exact C2'|]. split; [exact Z2'|].
    split; [discriminate|]. intros _. split; [exact O2'|]. split; [exact B2'|].
    intros r Hr. exact (P2' eq_refl r Hr).
  - split; [exact T2'|]. split; [reflexivity|]. split; [reflexivity|].
    split; [exact D2|]. split; [exact S2|]. split; [exact C2'|]. split; [exact Z2'|].
    split; [discriminate|]. intros _. split; [exact O2'|]. split; [exact B2'|].
    intros r Hr. exact (P2' eq_refl r Hr).
  - split; [exact T2'|]. split; [reflexivity|]. split; [reflexivity|].
    split; [exact D2|]. split; [exact S2|]. split; [exact C2'|]. split; [exact Z2'|].
    split; [discriminate|]. intros _. split; [exact O2'|]. split; [exact B2'|].
    intros r Hr. exact (P2' eq_refl r Hr).
  - pose proof (ui_canvas_clear w3) as Hu.
    split; [from_ui Hu ui_tool; exact T2'|]. split; [from_ui Hu ui_shape|].
    split; [from_ui Hu ui_mouseHandlers; exact M2|].
    split; [from_ui Hu ui_isDrawingMode; exact D2|].
    split; [from_ui Hu ui_selection; exact S2|].
    split; [from_ui Hu ui_brushColor; exact C2'|].
    split; [from_ui Hu ui_brushSize; exact Z2'|].
    split; [intros _; apply objects_canvas_clear | discriminate].
Qed.

(** X11.  Choosing another tool sets the canvas up for it: the pending
    shape is forgotten, the mouse handlers are those of the new tool if it
    is a shape tool and none otherwise, drawing mode is on for the pencil
    only and group selection for the select tool only.  The clear tool
    empties the canvas; any other tool leaves the canvas list and the
    outbox alone and makes every object of the canvas pickable exactly
    when the tool is the select tool. *)
Theorem tool_change_rearms_the_canvas (t : Tool) (w : World)
    (Hnew : Tool_eqb t (tool w) = false) :
  let w' := handleToolClick t w in
  tool w' = t
  /\ shape w' = None
  /\ mouseHandlers w' = (if shapeTool t then Some t else None)
  /\ isDrawingMode w' = Tool_eqb t draw
  /\ selection w' = Tool_eqb t select
  /\ (Tool_eqb t clear = true -> objects w' = [])
  /\ (Tool_eqb t clear = false ->
      objects w' = objects w
      /\ outbox w' = outbox w
      /\ forall r, r ∈ objects w ->
           prop w' r "selectable" = Some (JBool (Tool_eqb t select))
           /\ canPick w' r = Tool_eqb t select).
Proof.
  intros w'. subst w'. unfold handleToolClick. rewrite Hnew.
  destruct (rerunToolEffect_facts (with_tool t w))
    as (F1 & F2 & F3 & F4 & F5 & _ & _ & F8 & F9).
  cbn [tool with_tool] in F1, F3, F4, F5, F8, F9.
  split; [exact F1|]. split; [exact F2|]. split; [exact F3|].
  split; [exact F4|]. split; [exact F5|]. split; [exact F8|].
  intros Hc. destruct (F9 Hc) as (G1 & G2 & G3).
  split; [exact G1|]. split; [exact G2|]. intros r Hr.
  split; [exact (G3 r Hr)|].
  unfold canPick. rewrite G1, F4, (G3 r Hr).
  change (objects (with_tool t w)) with (objects w).
  assert (existsb (Nat.eqb r) (objects w) = true) as ->.
  { apply existsb_exists. exists r. split; [apply list_elem_of_In; exact Hr | apply Nat.eqb_refl]. }
  destruct t; reflexivity.
Qed.

(** X12.  A new brush colour or size runs the tool effect again: the
    pending shape is forgotten, and while the clear tool is the current
    tool the canvas is emptied once more; with any other tool the canvas
    list is as before.  Setting the colour to its current value does
    nothing. *)
Theorem brush_change_reruns_the_tool_effect (w : World) :
  (forall c, String.eqb c (brushColor w) = false ->
     let w' := handleColorChange c w in
     brushColor w' = c /\ shape w' = None
     /\ objects w' = (if Tool_eqb (tool w) clear then [] else objects w))
  /\ (forall v, Object_is v (brushSize w) = false ->
     let w' := handleSizeChange v w in
     brushSize w' = v /\ shape w' = None
     /\ objects w' = (if Tool_eqb (tool w) clear then [] else objects w))
  /\ handleColorChange (brushColor w) w = w.
Proof.
  repeat apply conj.
  - intros c Hc w'. subst w'. unfold handleColorChange. rewrite Hc.
    destruct (rerunToolEffect_facts (with_brushColor c w))
      as (_ & F2 & _ & _ & _ & F6 & _ & F8 & F9).
    cbn [tool with_brushColor brushColor] in F6, F8, F9.
    repeat apply conj; try assumption.
    destruct (Tool_eqb (tool w) clear) eqn:E; [apply F8; reflexivity|].
    destruct (F9 eq_refl) as (G & _). exact G.
  - intros v Hv w'. subst w'. unfold handleSizeChange. rewrite Hv.
    destruct (rerunToolEffect_facts (with_brushSize v w))
      as (_ & F2 & _ & _ & _ & _ & F7 & F8 & F9).
    cbn [tool with_brushSize brushSize] in F7, F8, F9.
    repeat apply conj; try assumption.
    destruct (Tool_eqb (tool w) clear) eqn:E; [apply F8; reflexivity|].
    destruct (F9 eq_refl) as (G & _). exact G.
  - unfold handleColorChange. rewrite String.eqb_refl. reflexivity.
Qed.

Section ToolChangeFacts.

Variable rng : nat -> list Z.

Lemma findById_falsy w v :
  IdOk w -> truthy v = false -> findById w v = None.
Proof.
  intros Hid Hv. apply findById_None. eapply Forall_impl; [exact Hid|].
  intros r Hr. simpl in Hr. destruct (strict_eq (prop w r "id") v) eqn:E; [|reflexivity].
  apply strict_eq_truthy in E. congruence.
Qed.

Lemma addSkipEmit_facts w o :
  let r := newRef w in
  let w1 := addSkipEmit rng w o in
  objects w1 = objects w ++ [r]
  /\ prop w1 r "id" = (if truthy (own o !! "id") then own o !! "id"
                       else Some (JStr (uuidv4 (rng (uuidCalls w)))))
  /\ forall x k, x <> r -> prop w1 x k = prop w x k.
Proof.
  intros r w1. subst w1. unfold addSkipEmit, alloc. fold r.
  set (w0 := with_heap (<[r := o]> (heap w)) w).
  assert (P0 : forall k, prop w0 r k = own o !! k).
  { intros k. unfold w0. rewrite prop_with_heap_insert.
    destruct (decide (r = r)); [reflexivity | congruence]. }
  repeat apply conj.
  - rewrite objects_canvas_add. reflexivity.
  - rewrite prop_canvas_add_id, prop_setProp.
    destruct (decide (r = r)); [|congruence].
    destruct (decide ("__skipEmit" = "id")); [discriminate|].
    rewrite P0. reflexivity.
  - intros x k Hx. rewrite prop_canvas_add by (left; exact Hx).
    rewrite prop_setProp. destruct (decide (r = x)); [congruence|].
    unfold w0. rewrite prop_with_heap_insert. destruct (decide (r = x)); [congruence|].
    reflexivity.
Qed.

(** X13.  An [object:added] whose snapshot instantiates but carries no
    identity (none, or a falsy one) is inserted, silently, under an
    identity generated locally; applied twice, it inserts two objects.
    (Every object already on the canvas has an identity.) *)
Theorem added_without_identity_is_inserted (d : Props) (o : FabricObject) (w : World)
    (Hinst : enlivenObject d = Some o)
    (Hnoid : truthy (d !! "id") = false)
    (Hids : IdOk w) :
  let w1 := socket_on_object_added rng d w in
  let w2 := socket_on_object_added rng d w1 in
  objects w1 = objects w ++ [newRef w]
  /\ prop w1 (newRef w) "id" = Some (JStr (uuidv4 (rng (uuidCalls w))))
  /\ outbox w1 = outbox w
  /\ objects w2 = objects w ++ [newRef w; newRef w1].
Proof.
  intros w1 w2.
  assert (Ho : truthy (own o !! "id") = false).
  { rewrite (enlivenObject_id d o Hinst). exact Hnoid. }
  assert (H1 : w1 = addSkipEmit rng w o).
  { unfold w1, socket_on_object_added. rewrite Hinst.
    rewrite (findById_falsy w _ Hids Ho). reflexivity. }
  destruct (addSkipEmit_facts w o) as (O1 & I1 & K1). rewrite Ho in I1.
  rewrite <- H1 in O1, I1, K1.
  assert (Hids1 : IdOk w1).
  { unfold IdOk. rewrite O1. apply Forall_app. split.
    - unfold IdOk in Hids. rewrite Forall_forall in Hids. apply Forall_forall.
      intros x Hx. rewrite K1; [apply Hids, Hx|].
      intros ->. exact (newRef_objects w Hx).
    - constructor; [|constructor]. rewrite I1. apply truthy_JStr, uuidv4_nonempty. }
  assert (H2 : w2 = addSkipEmit rng w1 o).
  { unfold w2, socket_on_object_added. rewrite Hinst.
    rewrite (findById_falsy w1 _ Hids1 Ho). reflexivity. }
  destruct (addSkipEmit_facts w1 o) as (O2 & _ & _). rewrite <- H2 in O2.
  repeat apply conj.
  - exact O1.
  - exact I1.
  - apply (outbox_remote_event rng d w).
  - rewrite O2, O1, <- app_assoc. reflexivity.
Qed.
End ToolChangeFacts.

Lemma removeEventListener_app ev l l' :
  ev ∉ l -> Lifecycle.removeEventListener ev (l ++ ev :: l') = l ++ l'.
Proof.
  induction l as [|x l IH]; intros Hn; simpl.
  - rewrite String.eqb_refl. reflexivity.
  - apply not_elem_of_cons in Hn as [Hne Hn].
    destruct (String.eqb x ev) eqn:E; [apply String.eqb_eq in E; congruence|].
    rewrite (IH Hn). reflexivity.
Qed.

Lemma removeEventListener_perm ev l :
  ev ∈ l -> ev :: Lifecycle.removeEventListener ev l ≡ₚ l.
Proof.
  induction l as [|x l IH]; intros Hin.
  - apply elem_of_nil in Hin. destruct Hin.
  - simpl. destruct (String.eqb x ev) eqn:E.
    + apply String.eqb_eq in E. subst x. reflexivity.
    + apply elem_of_cons in Hin as [->|Hin]; [rewrite String.eqb_refl in E; discriminate|].
      rewrite Permutation_swap. constructor. apply IH, Hin.
Qed.

Lemma removeEventListener_other ev ev' l :
  ev' <> ev -> ev' ∈ l -> ev' ∈ Lifecycle.removeEventListener ev l.
Proof.
  intros Hne. induction l as [|x l IH]; intros Hin; simpl; [exact Hin|].
  destruct (String.eqb x ev) eqn:E.
  - apply String.eqb_eq in E. subst x.
    apply elem_of_cons in Hin as [->|Hin]; [congruence | exact Hin].
  - apply elem_of_cons in Hin as [->|Hin]; apply elem_of_cons; [left; reflexivity|].
    right. apply IH, Hin.
Qed.

(** X14.  The earlier component returns its cleanup from the effect
    itself: unmounting after a mount takes the two window listeners off
    again (the table is a permutation of what it was) and releases the
    canvas; the guard stays set, and the listeners of the canvas, the
    listeners of the socket and the connection are as they were before
    the mount. *)
Theorem standalone_unmount_undoes_the_mount (s : Lifecycle.Session)
    (Hfresh : Lifecycle.isInitializedRef s = false)
    (Hcanvas : Lifecycle.canvasRef s = true) :
  let mounted := Standalone.initEffect s in
  let gone := Lifecycle.unmount mounted in
  Lifecycle.windowListeners (fst mounted)
    = Lifecycle.windowListeners s ++ ["resize"; "keydown"]
  /\ Lifecycle.windowListeners gone ≡ₚ Lifecycle.windowListeners s
  /\ Lifecycle.fabricCanvasRef gone = false
  /\ Lifecycle.isInitializedRef gone = true
  /\ Lifecycle.canvasListeners gone = Lifecycle.canvasListeners s
  /\ Lifecycle.socketListeners gone = Lifecycle.socketListeners s
  /\ Lifecycle.connected gone = Lifecycle.connected s.
Proof.
  intros mounted gone. subst gone mounted.
  unfold Standalone.initEffect. rewrite Hfresh, Hcanvas. cbn [negb].
  unfold Lifecycle.unmount. cbn [fst snd].
  unfold Standalone.teardown.
  cbn [Lifecycle.windowListeners Lifecycle.fabricCanvasRef Lifecycle.canvasListeners
       Lifecycle.socketListeners Lifecycle.connected Lifecycle.isInitializedRef].
  repeat apply conj; try reflexivity.
  set (l := Lifecycle.windowListeners s).
  assert (H1 : "resize" ∈ l ++ ["resize"; "keydown"]).
  { apply elem_of_app. right. apply elem_of_cons. left. reflexivity. }
  assert (H2 : "keydown" ∈ Lifecycle.removeEventListener "resize" (l ++ ["resize"; "keydown"])).
  { apply removeEventListener_other; [discriminate|].
    apply elem_of_app. right. apply elem_of_cons. right.
    apply elem_of_cons. left. reflexivity. }
  apply (Permutation_cons_inv (a := "keydown")).
  rewrite (removeEventListener_perm _ _ H2).
  apply (Permutation_cons_inv (a := "resize")).
  rewrite (removeEventListener_perm _ _ H1).
  rewrite (Permutation_app_comm l). reflexivity.
Qed.

Lemma standalone_move_keeps w p :
  objects (Standalone.mouse_move w p) = objects w
  /\ outbox (Standalone.mouse_move w p) = outbox w
  /\ ui (Standalone.mouse_move w p) = ui w.
Proof.
  unfold Standalone.mouse_move, Standalone.handleMouseMove_rectangle,
    Standalone.handleMouseMove_line, Standalone.handleMouseMove_ellipse.
  destruct (mouseHandlers w) as [[]|]; try (repeat apply conj; reflexivity);
    destruct (shape w); repeat apply conj; reflexivity.
Qed.

Lemma standalone_moves_keep moves : forall w,
  objects (fold_left Standalone.mouse_move moves w) = objects w
  /\ outbox (fold_left Standalone.mouse_move moves w) = outbox w
  /\ ui (fold_left Standalone.mouse_move moves w) = ui w.
Proof.
  induction moves as [|p moves IH]; intros w; cbn [fold_left].
  - repeat apply conj; reflexivity.
  - destruct (IH (Standalone.mouse_move w p)) as (A & B & C).
    destruct (standalone_move_keeps w p) as (A' & B' & C').
    repeat apply conj; congruence.
Qed.

(** X15.  In the earlier component a press with a shape tool puts the
    shape on the canvas at once: a press, any moves and a release add
    exactly one object and send nothing; with no move at all, the rectangle
    left on the canvas has width 0 and height 0. *)
Theorem standalone_press_adds_one_object (px py : float)
    (moves : list (float * float)) (w : World) (t : Tool)
    (Htool : mouseHandlers w = Some t)
    (Hshape : shapeTool t = true) :
  let w' := Standalone.gesture px py moves w in
  objects w' = objects w ++ [newRef w]
  /\ outbox w' = outbox w
  /\ shape w' = None
  /\ (moves = [] -> t = rectangle ->
      prop w' (newRef w) "width" = Some (JNum 0)
      /\ prop w' (newRef w) "height" = Some (JNum 0)).
Proof.
  intros w'. subst w'. unfold Standalone.gesture.
  set (w1 := Standalone.mouse_down px py w).
  assert (H1 : objects w1 = objects w ++ [newRef w] /\ outbox w1 = outbox w
               /\ mouseHandlers w1 = Some t).
  { unfold w1, Standalone.mouse_down. rewrite Htool.
    destruct t; try discriminate Hshape; repeat apply conj; try reflexivity; exact Htool. }
  destruct H1 as (O1 & B1 & M1).
  destruct (standalone_moves_keep moves w1) as (O2 & B2 & U2).
  set (w2 := fold_left Standalone.mouse_move moves w1) in *.
  assert (M2 : mouseHandlers w2 = Some t).
  { etransitivity; [exact (f_equal ui_mouseHandlers U2) | exact M1]. }
  unfold Standalone.mouse_up. rewrite M2.
  replace (match t with
           | rectangle | line | ellipse => Standalone.handleMouseUp w2
           | _ => w2 end) with (with_shape None w2)
    by (destruct t; try discriminate Hshape; reflexivity).
  repeat apply conj.
  - change (objects w2 = objects w ++ [newRef w]). congruence.
  - change (outbox w2 = outbox w). congruence.
  - reflexivity.
  - intros -> ->. subst w2. cbn [fold_left].
    change (prop (with_shape None w1) ?r ?k) with (prop w1 r k).
    unfold w1, Standalone.mouse_down. rewrite Htool.
    unfold Standalone.handleMouseDown, alloc, Standalone.canvas_add.
    change (newRef (with_startY py (with_startX px w))) with (newRef w).
    change (prop (with_shape ?s ?x) ?r ?k) with (prop x r k).
    rewrite !prop_setProp. destruct (decide (newRef w = newRef w)); [|congruence].
    destruct (decide ("canvas" = "width")); [discriminate|].
    destruct (decide ("canvas" = "height")); [discriminate|].
    change (prop (with_objects ?l ?x) ?r ?k) with (prop x r k).
    rewrite !prop_with_heap_insert. destruct (decide (newRef w = newRef w)); [|congruence].
    unfold newRect. cbn [own].
    split.
    + rewrite !lookup_insert_ne by discriminate. apply lookup_insert_eq.
    + rewrite !lookup_insert_ne by discriminate. apply lookup_insert_eq.
Qed.

Lemma spliceFirst_length r l l' :
  spliceFirst r l = Some l' -> length l = S (length l').
Proof.
  revert l'. induction l as [|x l IH]; simpl; intros l' H; [discriminate|].
  destruct (Nat.eqb x r).
  - injection H as <-. reflexivity.
  - destruct (spliceFirst r l) as [l0|]; [|discriminate].
    injection H as <-. simpl. rewrite (IH l0 eq_refl). reflexivity.
Qed.

(** X16.  An [object:removed] of the relay whose identity the store
    knows takes exactly one object off the canvas, the first with that
    identity; nothing is sent and no other object is written. *)
Theorem remote_removed_takes_one_object (objectData : Props) (w : World) (r : nat)
    (Hfound : findById w (objectData !! "id") = Some r) :
  let w' := socket_on_object_removed objectData w in
  spliceFirst r (objects w) = Some (objects w')
  /\ length (objects w) = S (length (objects w'))
  /\ outbox w' = outbox w
  /\ forall x k, x <> r -> prop w' x k = prop w x k.
Proof.
  intros w'. subst w'. unfold socket_on_object_removed. rewrite Hfound.
  apply findById_Some in Hfound as [Hin _].
  destruct (spliceFirst_is_Some r (objects w) Hin) as [l Hl].
  assert (Ho : objects (canvas_remove r (setProp r "__skipEmit" (JBool true) w)) = l).
  { rewrite objects_canvas_remove. change (objects (setProp ?a ?b ?c w)) with (objects w).
    rewrite Hl. reflexivity. }
  repeat apply conj.
  - rewrite Ho. exact Hl.
  - rewrite Ho. apply (spliceFirst_length r). exact Hl.
  - rewrite outbox_canvas_remove by exact Hin.
    rewrite prop_setProp. destruct (decide (r = r)); [|congruence].
    destruct (decide ("__skipEmit" = "__skipEmit")); [|congruence].
    simpl. apply app_nil_r.
  - intros x k Hx.
    destruct (decide (k = "canvas")) as [->|Hk].
    + unfold canvas_remove. change (objects (setProp ?a ?b ?c w)) with (objects w).
      rewrite Hl. unfold canvas_on_object_removed.
      match goal with |- context [if ?b then _ else _] => destruct b end;
        try change (prop (emit ?e ?p ?y) x "canvas") with (prop y x "canvas");
        rewrite prop_delProp; (destruct (decide (r = x)); [congruence|]);
        cbn [activeObject with_objects];
        match goal with
        | |- context [match activeObject ?v with _ => _ end] =>
            destruct (activeObject v) as [a|]; [destruct (Nat.eqb a r)|]
        end;
        change (prop (with_activeObject ?a0 ?y) x "canvas") with (prop y x "canvas");
        change (prop (with_objects ?l0 ?y) x "canvas") with (prop y x "canvas");
        rewrite prop_setProp; (destruct (decide (r = x)); [congruence | reflexivity]).
    + rewrite prop_canvas_remove by exact Hk.
      rewrite prop_setProp. destruct (decide (r = x)); [congruence | reflexivity].
Qed.

(** X17.  An [object:modified] of the relay whose identity the store
    knows writes one object, the first with that identity: the canvas list,
    the class of that object and every other object are as before.  The
    object is left with the marker, unless the payload itself carries a
    [__skipEmit] key, which then wins. *)
Theorem remote_modified_touches_one_object (objectData : Props) (w : World) (r : nat)
    (Hfound : findById w (objectData !! "id") = Some r) :
  let w' := socket_on_object_modified objectData w in
  objects w' = objects w
  /\ klass (getObj w' r) = klass (getObj w r)
  /\ (forall x k, x <> r -> prop w' x k = prop w x k)
  /\ prop w' r "__skipEmit"
     = match objectData !! "__skipEmit" with
       | Some v => Some v
       | None => Some (JBool true)
       end.
Proof.
  intros w'. subst w'. rewrite (socket_on_object_modified_found objectData w r Hfound).
  repeat apply conj.
  - reflexivity.
  - unfold objSet, setProp. rewrite !getObj_updObj.
    destruct (decide (r = r)); [reflexivity | congruence].
  - intros x k Hx. rewrite prop_objSet, prop_setProp.
    destruct (decide (r = x)); [congruence | reflexivity].
  - rewrite prop_objSet, prop_setProp. destruct (decide (r = r)); [|congruence].
    destruct (decide ("__skipEmit" = "type")); [discriminate|].
    destruct (decide ("__skipEmit" = "__skipEmit")); [|congruence].
    destruct (objectData !! "__skipEmit"); reflexivity.
Qed.

(** ** The hypotheses of the further statements are met *)

Lemma picked_objects : objects picked = [1].
Proof. vm_compute. exact eq_refl. Qed.

Lemma delete_key_removes_the_selection_witness :
  ("Delete" = "Delete" \/ "Delete" = "Backspace")
  /\ activeObject picked = Some 1
  /\ 1 ∈ objects picked
  /\ (let w' := handleKeyDown "Delete" picked in
      spliceFirst 1 (objects picked) = Some (objects w')
      /\ activeObject w' = None
      /\ outbox w' = outbox picked ++ removalReport picked 1).
Proof.
  assert (H1 : "Delete" = "Delete" \/ "Delete" = "Backspace") by (left; reflexivity).
  assert (H2 : activeObject picked = Some 1) by (vm_compute; exact eq_refl).
  assert (H3 : 1 ∈ objects picked).
  { rewrite picked_objects. apply elem_of_cons. left. reflexivity. }
  exact (conj H1 (conj H2 (conj H3
           (delete_key_removes_the_selection "Delete" picked 1 H1 H2 H3)))).
Defined.

Lemma local_transform_is_sent_once_witness :
  canPick picked 1 = true
  /\ truthy (prop picked 1 "__skipEmit") = false
  /\ prop (transform 1 dragTo5 picked) 1 "id" = prop picked 1 "id"
  /\ outbox (transform 1 dragTo5 picked)
     = outbox picked
       ++ [("object:modified", toJSON ["id"] (getObj (transform 1 dragTo5 picked) 1))].
Proof.
  assert (H1 : canPick picked 1 = true) by (vm_compute; exact eq_refl).
  assert (H2 : truthy (prop picked 1 "__skipEmit") = false) by (vm_compute; exact eq_refl).
  split; [exact H1|]. split; [exact H2|].
  destruct (local_transform_is_sent_once 1 dragTo5 picked H1 H2)
    as (_ & _ & _ & Hid & Hout).
  split; [exact Hid | exact Hout].
Defined.

Lemma click_without_drag_commits_nothing_witness :
  mouseHandlers rect_armed = Some rectangle
  /\ shapeTool rectangle = true
  /\ (rectangle = line -> PrimFloat.is_nan 10 = false /\ PrimFloat.is_nan 10 = false)
  /\ objects (mouse_up entropy (mouse_down 10 10 rect_armed)) = objects rect_armed
  /\ outbox (mouse_up entropy (mouse_down 10 10 rect_armed)) = outbox rect_armed.
Proof.
  assert (H1 : mouseHandlers rect_armed = Some rectangle) by (vm_compute; exact eq_refl).
  assert (H2 : shapeTool rectangle = true) by reflexivity.
  assert (H3 : rectangle = line -> PrimFloat.is_nan 10 = false /\ PrimFloat.is_nan 10 = false)
    by discriminate.
  split; [exact H1|]. split; [exact H2|]. split; [exact H3|].
  destruct (click_without_drag_commits_nothing entropy 10 10 rect_armed rectangle H1 H2 H3)
    as (A & B & _).
  split; [exact A | exact B].
Defined.

Lemma drawn_rectangle_is_announced_twice_witness :
  mouseHandlers rect_armed = Some rectangle
  /\ PrimFloat.eqb (Math_abs (50 - 10)) 0 = false
  /\ PrimFloat.eqb (Math_abs (40 - 10)) 0 = false
  /\ objects (mouse_up entropy (mouse_move entropy 50 40 (mouse_down 10 10 rect_armed)))
     = objects rect_armed ++ [newRef rect_armed].
Proof.
  assert (H1 : mouseHandlers rect_armed = Some rectangle) by (vm_compute; exact eq_refl).
  assert (H2 : PrimFloat.eqb (Math_abs (50 - 10)) 0 = false) by (vm_compute; exact eq_refl).
  assert (H3 : PrimFloat.eqb (Math_abs (40 - 10)) 0 = false) by (vm_compute; exact eq_refl).
  split; [exact H1|]. split; [exact H2|]. split; [exact H3|].
  exact (proj1 (drawn_rectangle_is_announced_twice entropy 10 10 50 40 rect_armed H1 H2 H3)).
Defined.

Lemma tool_change_rearms_the_canvas_witness :
  Tool_eqb rectangle (tool boot) = false
  /\ Tool_eqb rectangle clear = false
  /\ tool (handleToolClick rectangle boot) = rectangle
  /\ mouseHandlers (handleToolClick rectangle boot) = Some rectangle
  /\ objects (handleToolClick rectangle boot) = objects boot.
Proof.
  assert (H : Tool_eqb rectangle (tool boot) = false) by reflexivity.
  assert (H' : Tool_eqb rectangle clear = false) by reflexivity.
  split; [exact H|]. split; [exact H'|].
  destruct (tool_change_rearms_the_canvas rectangle boot H)
    as (A & _ & B & _ & _ & _ & C).
  split; [exact A|]. split; [exact B|]. exact (proj1 (C H')).
Defined.

Lemma added_without_identity_is_inserted_witness :
  enlivenObject rect_anon = Some {| klass := "Rect"; own := delete "type" rect_anon |}
  /\ truthy (rect_anon !! "id") = false
  /\ IdOk boot
  /\ objects (socket_on_object_added entropy rect_anon
                (socket_on_object_added entropy rect_anon boot))
     = objects boot
       ++ [newRef boot; newRef (socket_on_object_added entropy rect_anon boot)].
Proof.
  assert (H1 : enlivenObject rect_anon
               = Some {| klass := "Rect"; own := delete "type" rect_anon |})
    by (vm_compute; exact eq_refl).
  assert (H2 : truthy (rect_anon !! "id") = false) by (vm_compute; exact eq_refl).
  assert (H3 : IdOk boot) by apply List.Forall_nil.
  split; [exact H1|]. split; [exact H2|]. split; [exact H3|].
  destruct (added_without_identity_is_inserted entropy rect_anon _ boot H1 H2 H3)
    as (_ & _ & _ & A).
  exact A.
Defined.

Lemma standalone_unmount_undoes_the_mount_witness :
  Lifecycle.isInitializedRef Lifecycle.fresh = false
  /\ Lifecycle.canvasRef Lifecycle.fresh = true
  /\ Lifecycle.windowListeners
       (Lifecycle.unmount (Standalone.initEffect Lifecycle.fresh))
     ≡ₚ Lifecycle.windowListeners Lifecycle.fresh
  /\ Lifecycle.fabricCanvasRef
       (Lifecycle.unmount (Standalone.initEffect Lifecycle.fresh)) = false.
Proof.
  assert (H1 : Lifecycle.isInitializedRef Lifecycle.fresh = false) by reflexivity.
  assert (H2 : Lifecycle.canvasRef Lifecycle.fresh = true) by reflexivity.
  split; [exact H1|]. split; [exact H2|].
  destruct (standalone_unmount_undoes_the_mount Lifecycle.fresh H1 H2)
    as (_ & A & B & _).
  split; [exact A | exact B].
Defined.

Lemma standalone_press_adds_one_object_witness :
  mouseHandlers rect_armed = Some rectangle
  /\ shapeTool rectangle = true
  /\ objects (Standalone.gesture 10 10 [] rect_armed)
     = objects rect_armed ++ [newRef rect_armed]
  /\ prop (Standalone.gesture 10 10 [] rect_armed) (newRef rect_armed) "width"
     = Some (JNum 0).
Proof.
  assert (H1 : mouseHandlers rect_armed = Some rectangle) by (vm_compute; exact eq_refl).
  assert (H2 : shapeTool rectangle = true) by reflexivity.
  split; [exact H1|]. split; [exact H2|].
  destruct (standalone_press_adds_one_object 10 10 [] rect_armed rectangle H1 H2)
    as (A & _ & _ & D).
  split; [exact A|]. exact (proj1 (D eq_refl eq_refl)).
Defined.

Lemma remote_removed_takes_one_object_witness :
  findById with_r1 (moved_r1 !! "id") = Some 1
  /\ length (objects with_r1)
     = S (length (objects (socket_on_object_removed moved_r1 with_r1)))
  /\ outbox (socket_on_object_removed moved_r1 with_r1) = outbox with_r1.
Proof.
  assert (H : findById with_r1 (moved_r1 !! "id") = Some 1) by (vm_compute; exact eq_refl).
  split; [exact H|].
  destruct (remote_removed_takes_one_object moved_r1 with_r1 1 H) as (_ & A & B & _).
  split; [exact A | exact B].
Defined.

Lemma remote_modified_touches_one_object_witness :
  findById with_r1 (moved_r1 !! "id") = Some 1
  /\ objects (socket_on_object_modified moved_r1 with_r1) = objects with_r1
  /\ klass (getObj (socket_on_object_modified moved_r1 with_r1) 1)
     = klass (getObj with_r1 1).
Proof.
  assert (H : findById with_r1 (moved_r1 !! "id") = Some 1) by (vm_compute; exact eq_refl).
  split; [exact H|].
  destruct (remote_modified_touches_one_object moved_r1 with_r1 1 H) as (A & B & _).
  split; [exact A | exact B].
Defined.

Lemma clear_and_sync_report_unmarked_objects_witness :
  is_Some (enlivenObjects [rect_r1; line_l1])
  /\ outbox (world_of (socket_on_object_sync entropy [rect_r1; line_l1] sketch))
     = outbox sketch ++ flat_map (removalReport sketch) (objects sketch).
Proof.
  assert (H : is_Some (enlivenObjects [rect_r1; line_l1])).
  { vm_compute. eexists. exact eq_refl. }
  split; [exact H|].
  exact (proj2 (clear_and_sync_report_unmarked_objects entropy sketch) _ H).
Defined.

Lemma other_keys_do_nothing_witness :
  ("a" <> "Delete" /\ "a" <> "Backspace" /\ handleKeyDown "a" picked = picked)
  /\ (activeObject boot = None /\ handleKeyDown "Delete" boot = boot)
  /\ (activeObject stale_selection = Some 7 /\ (7 ∉ objects stale_selection)
      /\ handleKeyDown "Delete" stale_selection = stale_selection).
Proof.
  assert (H1 : "a" <> "Delete") by discriminate.
  assert (H2 : "a" <> "Backspace") by discriminate.
  assert (H3 : activeObject boot = None) by reflexivity.
  assert (H4 : activeObject stale_selection = Some 7) by reflexivity.
  assert (H5 : 7 ∉ objects stale_selection) by apply not_elem_of_nil.
  split; [|split].
  - split; [exact H1|]. split; [exact H2|].
    exact (proj1 (other_keys_do_nothing "a" picked) H1 H2).
  - split; [exact H3|].
    exact (proj1 (proj2 (other_keys_do_nothing "Delete" boot)) H3).
  - split; [exact H4|]. split; [exact H5|].
    exact (proj2 (proj2 (other_keys_do_nothing "Delete" stale_selection)) 7 H4 H5).
Defined.

Lemma untyped_snapshots_are_dropped_witness :
  untyped gone_r9 = true
  /\ outcome entropy sketch (RemoteAdded gone_r9) = Done sketch
  /\ existsb untyped [rect_r1; gone_r9] = true
  /\ socket_on_object_sync entropy [rect_r1; gone_r9] sketch = Unhandled sketch.
Proof.
  assert (H1 : untyped gone_r9 = true) by (vm_compute; exact eq_refl).
  assert (H2 : existsb untyped [rect_r1; gone_r9] = true) by (vm_compute; exact eq_refl).
  split; [exact H1|]. split; [|split; [exact H2|]].
  - exact (proj1 (untyped_snapshots_are_dropped entropy sketch) _ H1).
  - exact (proj2 (untyped_snapshots_are_dropped entropy sketch) _ H2).
Defined.

Lemma guard_outlives_the_cleanup_witness :
  Lifecycle.isInitializedRef (fst (Lifecycle.init Lifecycle.fresh)) = true
  /\ Lifecycle.init (Lifecycle.teardown (fst (Lifecycle.init Lifecycle.fresh)))
     = (Lifecycle.teardown (fst (Lifecycle.init Lifecycle.fresh)), None)
  /\ Lifecycle.fabricCanvasRef (Lifecycle.teardown (fst (Lifecycle.init Lifecycle.fresh)))
     = false.
Proof.
  assert (H : Lifecycle.isInitializedRef (fst (Lifecycle.init Lifecycle.fresh)) = true)
    by reflexivity.
  split; [exact H|].
  destruct (guard_outlives_the_cleanup (fst (Lifecycle.init Lifecycle.fresh)) H)
    as (_ & A & B & _).
  split; [exact A | exact B].
Defined.

Lemma brush_change_reruns_the_tool_effect_witness :
  (String.eqb "#ff0000" (brushColor sketch) = false
   /\ brushColor (handleColorChange "#ff0000" sketch) = "#ff0000"
   /\ objects (handleColorChange "#ff0000" sketch) = objects sketch)
  /\ (Object_is 8 (brushSize sketch) = false
      /\ brushSize (handleSizeChange 8 sketch) = 8%float
      /\ objects (handleSizeChange 8 sketch) = objects sketch).
Proof.
  assert (H1 : String.eqb "#ff0000" (brushColor sketch) = false)
    by (vm_compute; exact eq_refl).
  assert (H2 : Object_is 8 (brushSize sketch) = false) by (vm_compute; exact eq_refl).
  assert (T : Tool_eqb (tool sketch) clear = false) by (vm_compute; exact eq_refl).
  split.
  - split; [exact H1|].
    destruct (proj1 (brush_change_reruns_the_tool_effect sketch) _ H1) as (A & _ & B).
    split; [exact A|]. rewrite T in B. exact B.
  - split; [exact H2|].
    destruct (proj1 (proj2 (brush_change_reruns_the_tool_effect sketch)) _ H2)
      as (A & _ & B).
    split; [exact A|]. rewrite T in B. exact B.
Defined.

Lemma drawn_line_is_announced_twice_witness :
  mouseHandlers line_armed = Some line
  /\ (PrimFloat.eqb 50 10 = false \/ PrimFloat.eqb 40 10 = false)
  /\ objects (mouse_up entropy (mouse_move entropy 50 40 (mouse_down 10 10 line_armed)))
     = objects line_armed ++ [newRef line_armed].
Proof.
  assert (H1 : mouseHandlers line_armed = Some line) by (vm_compute; exact eq_refl).
  assert (H2 : PrimFloat.eqb 50 10 = false \/ PrimFloat.eqb 40 10 = false)
    by (left; vm_compute; exact eq_refl).
  split; [exact H1|]. split; [exact H2|].
  exact (proj1 (drawn_line_is_announced_twice entropy 10 10 50 40 line_armed H1 H2)).
Defined.

Lemma drawn_ellipse_is_announced_twice_witness :
  mouseHandlers ellipse_armed = Some ellipse
  /\ PrimFloat.eqb (Math_abs (50 - 10) / 2) 0 = false
  /\ PrimFloat.eqb (Math_abs (40 - 10) / 2) 0 = false
  /\ objects (mouse_up entropy
                (mouse_move entropy 50 40 (mouse_down 10 10 ellipse_armed)))
     = objects ellipse_armed ++ [newRef ellipse_armed].
Proof.
  assert (H1 : mouseHandlers ellipse_armed = Some ellipse) by (vm_compute; exact eq_refl).
  assert (H2 : PrimFloat.eqb (Math_abs (50 - 10) / 2) 0 = false)
    by (vm_compute; exact eq_refl).
  assert (H3 : PrimFloat.eqb (Math_abs (40 - 10) / 2) 0 = false)
    by (vm_compute; exact eq_refl).
  split; [exact H1|]. split; [exact H2|]. split; [exact H3|].
  exact (proj1 (drawn_ellipse_is_announced_twice entropy 10 10 50 40 ellipse_armed
                  H1 H2 H3)).
Defined.
